(** * Luma storefront: data layer, cart and custom-event engine

    A shallow embedding of [scripts/datalayer.js], of the cart block
    ([removeFromCart], [updateQuantity]) and of [scripts/custom-events.js],
    with the properties of the state container, the startup queues, the cart
    aggregates, the persisted record and the trigger rules.

    Conventions of the embedding.
    - A JavaScript value is a [value]; a plain object is an association list
      of own properties in insertion order.  Only own properties are
      modelled (no prototype chain).
    - Numbers are integers ([Z]): prices are amounts in minor units; [NaN]
      is the [None] of an [option Z] where the source can produce it.
    - A JavaScript computation that can throw returns an [outcome]:
      [Ok] with its result, [Throws] when an exception leaves the function,
      [Beyond] when the source applies a coercion to a value that this
      embedding does not represent (string concatenation by [+], [NaN]
      stored in a tree, an array carrying named properties). *)

From Stdlib Require Import List String Ascii ZArith Bool Lia.
From Stdlib Require Import DecimalString.
Import ListNotations.
Local Open Scope string_scope.
Local Open Scope Z_scope.

(** ** JavaScript values *)

Unset Elimination Schemes.
Inductive value : Type :=
| VUndef
| VNull
| VBool (b : bool)
| VNum (n : Z)
| VStr (s : string)
| VArr (elems : list value)
| VObj (props : list (string * value)).
Set Elimination Schemes.

Definition props := list (string * value).

(** ToBoolean: [if (x)], [!x], [a && b], [a || b]. *)
Definition truthy (v : value) : bool :=
  match v with
  | VUndef | VNull => false
  | VBool b => b
  | VNum n => negb (n =? 0)
  | VStr s => negb (s =? "")%string
  | VArr _ | VObj _ => true
  end.

(** [typeof v === "object"]: null, arrays and plain objects. *)
Definition typeofObject (v : value) : bool :=
  match v with
  | VNull | VArr _ | VObj _ => true
  | _ => false
  end.

Definition isArray (v : value) : bool :=
  match v with VArr _ => true | _ => false end.

(** [a || b] *)
Definition orElse (a b : value) : value := if truthy a then a else b.

(** *** String-keyed records: plain objects and [localStorage] *)

Section Assoc.
Context {A : Type}.

(** Own-property lookup: the first entry with the key. *)
Fixpoint lookup (k : string) (o : list (string * A)) : option A :=
  match o with
  | [] => None
  | (k', v) :: rest => if (k =? k')%string then Some v else lookup k rest
  end.

(** [o[k] = v]: an existing key keeps its position, a new key is
    appended. *)
Fixpoint setProp (k : string) (v : A) (o : list (string * A)) : list (string * A) :=
  match o with
  | [] => [(k, v)]
  | (k', v') :: rest =>
      if (k =? k')%string then (k, v) :: rest else (k', v') :: setProp k v rest
  end.

(** [delete o[k]]. *)
Fixpoint deleteProp (k : string) (o : list (string * A)) : list (string * A) :=
  match o with
  | [] => []
  | (k', v') :: rest =>
      if (k =? k')%string then deleteProp k rest else (k', v') :: deleteProp k rest
  end.

Definition keys (o : list (string * A)) : list string := map fst o.
Definition values (o : list (string * A)) : list A := map snd o.
End Assoc.

(** [o[k]] on a plain object: [undefined] when the key is missing. *)
Definition getOwn (k : string) (o : props) : value :=
  match lookup k o with Some v => v | None => VUndef end.

Definition indexKey (i : nat) : string :=
  NilEmpty.string_of_uint (Nat.to_uint i).

Fixpoint indexed (i : nat) (l : list value) : props :=
  match l with
  | [] => []
  | v :: rest => (indexKey i, v) :: indexed (S i) rest
  end.

Fixpoint chars (i : nat) (s : string) : props :=
  match s with
  | EmptyString => []
  | String c rest => (indexKey i, VStr (String c EmptyString)) :: chars (S i) rest
  end.

(** Object spread [{ ...v }]: the own enumerable properties of [v]. *)
Definition spread (v : value) : props :=
  match v with
  | VObj o => o
  | VArr l => indexed 0 l
  | VStr s => chars 0 s
  | _ => []
  end.

(** [{ ...a, ...b }] *)
Definition spread2 (a b : value) : props :=
  fold_left (fun out kv => setProp (fst kv) (snd kv) out) (spread b) (spread a).

(** Property read [v[k]] or [v.k]: [None] is the TypeError of reading a
    property of [undefined] or [null]. *)
Definition getProp (v : value) (k : string) : option value :=
  match v with
  | VUndef | VNull => None
  | VObj o => Some (getOwn k o)
  | VArr l =>
      Some (if (k =? "length")%string then VNum (Z.of_nat (List.length l))
            else getOwn k (indexed 0 l))
  | VStr s =>
      Some (if (k =? "length")%string then VNum (Z.of_nat (String.length s))
            else getOwn k (chars 0 s))
  | VBool _ | VNum _ => Some VUndef
  end.

(** [Object.keys(v)]: [None] is the TypeError on [undefined] and [null]. *)
Definition objectKeys (v : value) : option (list string) :=
  match v with
  | VUndef | VNull => None
  | _ => Some (keys (spread v))
  end.

(** [JSON.parse(JSON.stringify(v))] for a [v] other than [undefined]:
    properties holding [undefined] are dropped, [undefined] array elements
    become [null]. *)
Fixpoint jsonClone (v : value) : value :=
  match v with
  | VArr l =>
      VArr (map (fun x => match x with VUndef => VNull | _ => jsonClone x end) l)
  | VObj o =>
      VObj (fold_right
              (fun kv acc => let '(k, x) := kv in
                 match x with VUndef => acc | _ => (k, jsonClone x) :: acc end)
              [] o)
  | _ => v
  end.

(** ASCII [toLowerCase]. *)
Definition lowerAscii (c : ascii) : ascii :=
  let n := nat_of_ascii c in
  if (Nat.leb 65 n && Nat.leb n 90)%bool then ascii_of_nat (n + 32) else c.

Fixpoint toLowerCase (s : string) : string :=
  match s with
  | EmptyString => EmptyString
  | String c rest => String (lowerAscii c) (toLowerCase rest)
  end.

(** *** Computations on values *)

(** Result of evaluating an expression: a value, an exception, or a
    coercion outside the represented fragment. *)
Inductive comp (A : Type) : Type :=
| Val (a : A)
| Exn
| Unrep.
Arguments Val {A} a.
Arguments Exn {A}.
Arguments Unrep {A}.

Definition bindC {A B} (c : comp A) (f : A -> comp B) : comp B :=
  match c with
  | Val a => f a
  | Exn => Exn
  | Unrep => Unrep
  end.

Notation "x <- c ;; k" := (bindC c (fun x => k))
  (at level 61, c at next level, right associativity).

Definition readProp (v : value) (k : string) : comp value :=
  match getProp v k with Some x => Val x | None => Exn end.

(** [a + b] and [a * b] on numbers; any other operand is coerced by the
    source to a string or to [NaN]. *)
Definition jsAdd (a b : value) : comp value :=
  match a, b with
  | VNum x, VNum y => Val (VNum (x + y))
  | _, _ => Unrep
  end.

Definition jsMul (a b : value) : comp value :=
  match a, b with
  | VNum x, VNum y => Val (VNum (x * y))
  | _, _ => Unrep
  end.

(** [vals.reduce((sum, p) => sum + p.field, 0)] *)
Definition reduceField (field : string) (vals : list value) : comp value :=
  fold_left
    (fun acc p => sum <- acc ;; x <- readProp p field ;; jsAdd sum x)
    vals (Val (VNum 0)).

(** ** datalayer.js: the merge algorithm *)

Module DataLayer.

(** [isObject(item)]: [item && typeof item === "object" && !Array.isArray(item)],
    used as a condition. *)
Definition isObject (item : value) : bool :=
  truthy item && typeofObject item && negb (isArray item).

(** One iteration of the [Object.keys(source).forEach] loop of [deepMerge],
    [rec] being the recursive call. *)
Definition mergeKey (rec : value -> value -> value) (target : value)
    (output : props) (key : string) (sv : value) : props :=
  let tv := getOwn key (spread target) in
  if isObject sv then
    if negb (truthy tv) || negb (isObject tv)
    then setProp key (VObj (spread sv)) output
    else setProp key (rec tv sv) output
  else setProp key sv output.

(** [deepMerge(target, source)].  The loop runs over the own entries of
    [source], that is over [Object.keys(source)] with [source[key]]. *)
Fixpoint deepMerge (target source : value) {struct source} : value :=
  if negb (truthy target) then
    if isObject source then VObj (spread source) else source
  else
    let output := spread target in
    if isObject target && isObject source then
      match source with
      | VObj s =>
          VObj (fold_left
                  (fun out kv => let '(key, sv) := kv in
                                 mergeKey deepMerge target out key sv)
                  s output)
      | _ => VObj output
      end
    else VObj output.

(** ** datalayer.js: the container *)

Definition STORAGE_KEY := "luma_dataLayer".
Definition STORAGE_TIMESTAMP_KEY := "luma_dataLayer_timestamp".
Definition STORAGE_TTL : Z := 30 * 24 * 60 * 60 * 1000.
Definition CHECKOUT_STORAGE_KEY := "luma_checkout_data".
Definition CHECKOUT_TIMESTAMP_KEY := "luma_checkout_data_timestamp".
Definition CHECKOUT_TTL : Z := 90 * 24 * 60 * 60 * 1000.

(** A string held by [localStorage], by what the source reads from it:
    [SJson v] is the JSON text that [JSON.parse] reads as [v], [SNum t] the
    decimal text of [t] (as written by [Date.now().toString()]), [SRaw s]
    any other text. *)
Inductive sval : Type :=
| SJson (v : value)
| SNum (t : Z)
| SRaw (s : string).

(** [JSON.stringify(v)] as a stored string. *)
Definition stringify (v : value) : sval :=
  match v with
  | VUndef => SRaw "undefined"
  | _ => SJson (jsonClone v)
  end.

(** [JSON.parse(s)]: [None] is the SyntaxError. *)
Definition jsonParse (s : sval) : option value :=
  match s with
  | SJson v => Some v
  | SNum t => Some (VNum t)
  | SRaw _ => None
  end.

(** [parseInt(s, 10)]: [None] is [NaN]. *)
Definition parseInt (s : sval) : option Z :=
  match s with
  | SNum t => Some t
  | SJson (VNum n) => Some n
  | _ => None
  end.

(** Truthiness of what [localStorage.getItem] returned ([null] when the
    key is missing, else the string). *)
Definition present (s : option sval) : bool :=
  match s with
  | None => false
  | Some (SRaw r) => negb (r =? "")%string
  | Some _ => true
  end.

Inductive logEntry : Type :=
| LogError (msg : string)
| LogWarn (msg : string).

Record State : Type := mkState {
  dataLayer : value;                        (* let _dataLayer *)
  dataLayerReady : bool;                    (* window._dataLayerReady *)
  dataLayerUpdating : bool;                 (* window._dataLayerUpdating *)
  dataLayerQueue : list (value * bool);     (* window._dataLayerQueue *)
  cartQueue : list value;                   (* window._cartQueue *)
  accessorDefined : bool;                   (* window.dataLayer is defined *)
  localStorage : list (string * sval);
  storageFull : bool;                       (* setItem throws *)
  now : Z;                                  (* Date.now() *)
  documentTitle : string;                   (* document.title *)
  dispatched : list (string * value);       (* dataLayerUpdated events, oldest first *)
  timers : list string;                     (* pending setTimeout(dispatch, 0) *)
  console : list logEntry
}.

Definition setDataLayer (v : value) (st : State) : State :=
  mkState v (dataLayerReady st) (dataLayerUpdating st) (dataLayerQueue st)
    (cartQueue st) (accessorDefined st) (localStorage st) (storageFull st)
    (now st) (documentTitle st) (dispatched st) (timers st) (console st).

Definition setReady (b : bool) (st : State) : State :=
  mkState (dataLayer st) b (dataLayerUpdating st) (dataLayerQueue st)
    (cartQueue st) (accessorDefined st) (localStorage st) (storageFull st)
    (now st) (documentTitle st) (dispatched st) (timers st) (console st).

Definition setUpdating (b : bool) (st : State) : State :=
  mkState (dataLayer st) (dataLayerReady st) b (dataLayerQueue st)
    (cartQueue st) (accessorDefined st) (localStorage st) (storageFull st)
    (now st) (documentTitle st) (dispatched st) (timers st) (console st).

Definition setDataLayerQueue (q : list (value * bool)) (st : State) : State :=
  mkState (dataLayer st) (dataLayerReady st) (dataLayerUpdating st) q
    (cartQueue st) (accessorDefined st) (localStorage st) (storageFull st)
    (now st) (documentTitle st) (dispatched st) (timers st) (console st).

Definition setCartQueue (q : list value) (st : State) : State :=
  mkState (dataLayer st) (dataLayerReady st) (dataLayerUpdating st)
    (dataLayerQueue st) q (accessorDefined st) (localStorage st)
    (storageFull st) (now st) (documentTitle st) (dispatched st) (timers st)
    (console st).

Definition setAccessorDefined (b : bool) (st : State) : State :=
  mkState (dataLayer st) (dataLayerReady st) (dataLayerUpdating st)
    (dataLayerQueue st) (cartQueue st) b (localStorage st) (storageFull st)
    (now st) (documentTitle st) (dispatched st) (timers st) (console st).

Definition setLocalStorage (l : list (string * sval)) (st : State) : State :=
  mkState (dataLayer st) (dataLayerReady st) (dataLayerUpdating st)
    (dataLayerQueue st) (cartQueue st) (accessorDefined st) l (storageFull st)
    (now st) (documentTitle st) (dispatched st) (timers st) (console st).

Definition setDispatched (d : list (string * value)) (st : State) : State :=
  mkState (dataLayer st) (dataLayerReady st) (dataLayerUpdating st)
    (dataLayerQueue st) (cartQueue st) (accessorDefined st) (localStorage st)
    (storageFull st) (now st) (documentTitle st) d (timers st) (console st).

Definition setTimers (t : list string) (st : State) : State :=
  mkState (dataLayer st) (dataLayerReady st) (dataLayerUpdating st)
    (dataLayerQueue st) (cartQueue st) (accessorDefined st) (localStorage st)
    (storageFull st) (now st) (documentTitle st) (dispatched st) t (console st).

Definition setConsole (c : list logEntry) (st : State) : State :=
  mkState (dataLayer st) (dataLayerReady st) (dataLayerUpdating st)
    (dataLayerQueue st) (cartQueue st) (accessorDefined st) (localStorage st)
    (storageFull st) (now st) (documentTitle st) (dispatched st) (timers st) c.

Definition consoleError (msg : string) (st : State) : State :=
  setConsole (console st ++ [LogError msg]) st.

Definition consoleWarn (msg : string) (st : State) : State :=
  setConsole (console st ++ [LogWarn msg]) st.

(** Result of a function of the module: it returns, an exception leaves
    it (with the state at that point), or it leaves the fragment. *)
Inductive outcome : Type :=
| Ok (st : State)
| Throws (st : State)
| Beyond.

(** [dispatchDataLayerEvent(eventType)]: the event carries a JSON copy of
    the tree. *)
Definition dispatchDataLayerEvent (eventType : string) (st : State) : State :=
  setDispatched (dispatched st ++ [(eventType, jsonClone (dataLayer st))]) st.

(** The [try { setItem; setItem } catch { warn }] block that persists the
    tree with its write timestamp. *)
Definition persist (warning : string) (st : State) : State :=
  if storageFull st then consoleWarn warning st
  else
    setLocalStorage
      (setProp STORAGE_TIMESTAMP_KEY (SNum (now st))
         (setProp STORAGE_KEY (stringify (dataLayer st)) (localStorage st)))
      st.

(** The two merge modes of [updateDataLayer] and of the queue drain. *)
Definition applyUpdate (tree updates : value) (merge : bool) : value :=
  if merge then deepMerge tree updates else VObj (spread2 tree updates).

(** [processDataLayerQueue()] *)
Definition processDataLayerQueue (st : State) : State :=
  if (0 <? List.length (dataLayerQueue st))%nat then
    let tree :=
      fold_left (fun t queuedUpdate => applyUpdate t (fst queuedUpdate) (snd queuedUpdate))
        (dataLayerQueue st) (dataLayer st) in
    let st1 := setDataLayer tree st in
    let st2 := persist "Could not persist dataLayer" st1 in
    let st3 := setDataLayerQueue [] st2 in
    dispatchDataLayerEvent "updated" st3
  else st.

(** *** The cart writer *)

(** The cart literal [{ productCount: 0, products: {}, subTotal: 0, total: 0 }]. *)
Definition emptyCart : props :=
  [("productCount", VNum 0); ("products", VObj []); ("subTotal", VNum 0);
   ("total", VNum 0)].

(** Property assignment [v.k = x] in strict mode (the files are modules):
    a TypeError on [undefined], [null] and primitives. *)
Definition assignProp (v : value) (k : string) (x : value) : comp value :=
  match v with
  | VObj o => Val (VObj (setProp k x o))
  | VArr _ => Unrep
  | _ => Exn
  end.

(** A value used as a property key. *)
Definition propertyKey (v : value) : comp string :=
  match v with
  | VStr s => Val s
  | _ => Unrep
  end.

(** The choice of [currentCart] in [executeAddToCart]: the cart of the
    tree when it has at least one key (then [currentCart] aliases it), else
    the fresh literal. *)
Definition selectCart (tree : value) : comp (bool * value) :=
  cart <- readProp tree "cart" ;;
  match objectKeys cart with
  | None => Exn
  | Some ks =>
      if (0 <? List.length ks)%nat then Val (true, cart)
      else Val (false, VObj emptyCart)
  end.

(** The [if (currentCart.products[productKey]) ... else ...] statement of
    [executeAddToCart]: the products mapping after it. *)
Definition addLineItem (productData : value) (products : value) : comp props :=
  id <- readProp productData "id" ;;
  productKey <- propertyKey id ;;
  existing <- readProp products productKey ;;
  match products with
  | VObj ps =>
      if truthy existing then
        match existing with
        | VObj item =>
            requested <- readProp productData "quantity" ;;
            quantity <- jsAdd (getOwn "quantity" item) (orElse requested (VNum 1)) ;;
            let item1 := setProp "quantity" quantity item in
            subTotal <- jsMul quantity (getOwn "price" item1) ;;
            let item2 := setProp "subTotal" subTotal item1 in
            let item3 := setProp "total" subTotal item2 in
            Val (setProp productKey (VObj item3) ps)
        | _ => Unrep
        end
      else
        name <- readProp productData "name" ;;
        image <- readProp productData "image" ;;
        thumbnail <- readProp productData "thumbnail" ;;
        category <- readProp productData "category" ;;
        description <- readProp productData "description" ;;
        requested <- readProp productData "quantity" ;;
        price <- readProp productData "price" ;;
        subTotal <- jsMul price (orElse requested (VNum 1)) ;;
        Val (setProp productKey
               (VObj [("id", id); ("sku", id); ("name", name); ("image", image);
                      ("thumbnail", thumbnail); ("category", category);
                      ("description", description);
                      ("quantity", orElse requested (VNum 1));
                      ("price", price); ("subTotal", subTotal);
                      ("total", subTotal)])
               ps)
  | _ => Unrep
  end.

(** The aggregates written after a change of the products mapping [ps]
    of the cart [cart]. *)
Definition recompute (cart : props) (ps : props) : comp props :=
  productCount <- reduceField "quantity" (values ps) ;;
  let cart1 := setProp "productCount" productCount cart in
  subTotal <- reduceField "subTotal" (values ps) ;;
  let cart2 := setProp "subTotal" subTotal cart1 in
  Val (setProp "total" subTotal cart2).

(** [executeAddToCart(productData)].  When [currentCart] aliases the cart
    of the tree, the line item is written into the tree before the
    aggregates are folded: an exception of the fold leaves it there. *)
Definition executeAddToCart (productData : value) (st : State) : outcome :=
  if negb (truthy (dataLayer st)) then
    Ok (consoleError "DataLayer not available for cart operation" st)
  else
    match selectCart (dataLayer st) with
    | Exn => Throws st
    | Unrep => Beyond
    | Val (aliased, VObj cart) =>
        match addLineItem productData (getOwn "products" cart) with
        | Exn => Throws st
        | Unrep => Beyond
        | Val ps =>
            let cart1 := setProp "products" (VObj ps) cart in
            match recompute cart1 ps with
            | Exn =>
                if aliased then
                  match assignProp (dataLayer st) "cart" (VObj cart1) with
                  | Val tree => Throws (setDataLayer tree st)
                  | _ => Beyond
                  end
                else Throws st
            | Unrep => Beyond
            | Val cart2 =>
                match assignProp (dataLayer st) "cart" (VObj cart2) with
                | Val tree =>
                    Ok (dispatchDataLayerEvent "updated"
                          (persist "Could not persist cart" (setDataLayer tree st)))
                | Exn => Throws st
                | Unrep => Beyond
                end
            end
        end
    | Val (_, _) => Beyond
    end.

(** [window._cartQueue.forEach(executeAddToCart)] *)
Fixpoint forEachCart (queue : list value) (st : State) : outcome :=
  match queue with
  | [] => Ok st
  | cartOperation :: rest =>
      match executeAddToCart cartOperation st with
      | Ok st' => forEachCart rest st'
      | r => r
      end
  end.

(** [processCartQueue()] *)
Definition processCartQueue (st : State) : outcome :=
  if (0 <? List.length (cartQueue st))%nat then
    match forEachCart (cartQueue st) st with
    | Ok st' => Ok (setCartQueue [] st')
    | r => r
    end
  else Ok st.

(** *** Startup *)

Definition obj (o : props) : value := VObj o.

Definition projectSection : value :=
  obj [("id", VStr "luma3"); ("title", VStr "Luma Website v3");
       ("template", VStr "web-modular/empty-website-v2");
       ("locale", VStr "en-US"); ("currency", VStr "USD");
       ("projectName", VStr "luma3")].

Definition profileSections : props :=
  [("personalEmail", obj [("address", VStr "")]);
   ("mobilePhone", obj [("number", VStr "")]);
   ("homeAddress",
     obj [("street1", VStr ""); ("city", VStr ""); ("postalCode", VStr "")]);
   ("person",
     obj [("gender", VStr ""); ("birthDayAndMonth", VStr "");
          ("loyaltyConsent", VBool false);
          ("name", obj [("firstName", VStr ""); ("lastName", VStr "")])]);
   ("individualCharacteristics",
     obj [("retail",
           obj [("shoeSize", VStr ""); ("shirtSize", VStr "");
                ("favoriteColor", VStr "")])]);
   ("consents",
     obj [("marketing",
           obj [("call", obj [("val", VBool true)]);
                ("email", obj [("val", VBool true)]);
                ("sms", obj [("val", VBool true)])])])].

(** The tree built when nothing valid is stored. *)
Definition initialDataLayer : value :=
  obj ([("projectName", VStr "luma3");
        ("project", projectSection);
        ("page", obj [("name", VStr "home"); ("title", VStr "HOME")]);
        ("cart", obj []);
        ("product", obj []);
        ("partnerData",
          obj [("PartnerID", VStr "Partner456"); ("BrandLoyalist", VNum 88);
               ("Seasonality", VStr "Fall")])]
       ++ profileSections)%list.

(** The tree of the [catch] branch. *)
Definition fallbackDataLayer : value :=
  obj ([("projectName", VStr "luma3");
        ("project", projectSection);
        ("page", obj []);
        ("cart", obj []);
        ("product", obj []);
        ("partnerData", obj [])]
       ++ profileSections)%list.

(** The TTL test of [buildCustomDataLayer]: [isDataValid], and the storage
    after the removal of an expired record. *)
Definition checkSaved (st : State) : bool * State :=
  let savedDataLayer := lookup STORAGE_KEY (localStorage st) in
  let savedTimestamp := lookup STORAGE_TIMESTAMP_KEY (localStorage st) in
  if present savedDataLayer && present savedTimestamp then
    match savedTimestamp with
    | Some ts =>
        match parseInt ts with
        | Some t =>
            if now st - t <=? STORAGE_TTL then (true, st)
            else (false,
                  setLocalStorage
                    (deleteProp STORAGE_TIMESTAMP_KEY
                       (deleteProp STORAGE_KEY (localStorage st))) st)
        | None =>
            (false,
             setLocalStorage
               (deleteProp STORAGE_TIMESTAMP_KEY
                  (deleteProp STORAGE_KEY (localStorage st))) st)
        end
    | None => (false, st)
    end
  else (false, st).

(** [if (!_dataLayer.page) _dataLayer.page = {}; _dataLayer.page.title =
    document.title; _dataLayer.page.name = document.title.toLowerCase();] *)
Definition refreshPage (title : string) (tree : value) : comp value :=
  page <- readProp tree "page" ;;
  tree1 <- (if truthy page then Val tree else assignProp tree "page" (obj [])) ;;
  page1 <- readProp tree1 "page" ;;
  page2 <- assignProp page1 "title" (VStr title) ;;
  page3 <- assignProp page2 "name" (VStr (toLowerCase title)) ;;
  assignProp tree1 "page" page3.

(** [Object.defineProperty(window, "dataLayer", ...)]: the property is not
    configurable, a second definition throws. *)
Definition defineAccessor (st : State) : outcome :=
  if accessorDefined st then Throws st else Ok (setAccessorDefined true st).

(** The [try] block of [buildCustomDataLayer]. *)
Definition buildMain (st : State) : outcome :=
  let savedDataLayer := lookup STORAGE_KEY (localStorage st) in
  let '(isDataValid, st1) := checkSaved st in
  let restored :=
    if present savedDataLayer && isDataValid then
      match savedDataLayer with
      | Some text => match jsonParse text with Some v => Val v | None => Exn end
      | None => Exn
      end
    else Val initialDataLayer in
  match restored with
  | Exn => Throws st1
  | Unrep => Beyond
  | Val tree =>
      match refreshPage (documentTitle st) tree with
      | Exn => Throws (setDataLayer tree st1)
      | Unrep => Beyond
      | Val tree1 =>
          let st2 := persist "Could not persist dataLayer" (setDataLayer tree1 st1) in
          match defineAccessor st2 with
          | Ok st3 =>
              let st4 := processDataLayerQueue (setReady true st3) in
              match processCartQueue st4 with
              | Ok st5 =>
                  Ok (setTimers
                        (timers st5 ++
                         [if present savedDataLayer then "restored" else "initialized"])
                        st5)
              | r => r
              end
          | r => r
          end
      end
  end.

(** The [catch] block of [buildCustomDataLayer]. *)
Definition buildFallback (st : State) : outcome :=
  let st1 := consoleError "Error initializing dataLayer" st in
  let st2 := setDataLayer fallbackDataLayer st1 in
  match defineAccessor st2 with
  | Ok st3 => Ok (processDataLayerQueue (setReady true st3))
  | r => r
  end.

(** [buildCustomDataLayer()] *)
Definition buildCustomDataLayer (st : State) : outcome :=
  match buildMain st with
  | Ok st' => Ok st'
  | Throws st' => buildFallback st'
  | Beyond => Beyond
  end.

(** The callback of [setTimeout(..., 0)] registered at startup. *)
Definition fireTimer (st : State) : State :=
  match timers st with
  | [] => st
  | eventType :: rest => dispatchDataLayerEvent eventType (setTimers rest st)
  end.

(** *** The public operations *)

(** [window.updateDataLayer(updates, merge = true)] *)
Definition updateDataLayer (updates : value) (merge : bool) (st : State) : State :=
  if negb (truthy updates) || negb (typeofObject updates) then
    consoleError "Invalid updates provided to updateDataLayer" st
  else if negb (dataLayerReady st) || negb (truthy (dataLayer st)) then
    setDataLayerQueue (dataLayerQueue st ++ [(updates, merge)]) st
  else
    let st1 := setUpdating true st in
    let st2 := setDataLayer (applyUpdate (dataLayer st1) updates merge) st1 in
    let st3 := persist "Could not persist dataLayer" st2 in
    let st4 := setUpdating false st3 in
    dispatchDataLayerEvent "updated" st4.

(** [path.split(".")] *)
Fixpoint splitDot (cur : string) (s : string) : list string :=
  match s with
  | EmptyString => [cur]
  | String c rest =>
      if Ascii.eqb c "."%char then cur :: splitDot "" rest
      else splitDot (cur ++ String c EmptyString) rest
  end.

(** The [for (const key of keys)] loop of [getDataLayerProperty]; [None]
    is the early [return undefined]. *)
Fixpoint walk (value0 : value) (path : list string) : option value :=
  match path with
  | [] => Some value0
  | key :: rest =>
      if truthy value0 && typeofObject value0 then
        match lookup key (spread value0) with
        | Some next => walk next rest
        | None =>
            if isArray value0 && (key =? "length")%string then
              match getProp value0 key with
              | Some next => walk next rest
              | None => None
              end
            else None
        end
      else None
  end.

(** [window.getDataLayerProperty(path)]; [path] is [None] when the argument
    is omitted. *)
Definition getDataLayerProperty (path : option string) (st : State) : value :=
  if negb (truthy (dataLayer st)) then VUndef
  else
    match path with
    | None => jsonClone (dataLayer st)
    | Some p =>
        if (p =? "")%string then jsonClone (dataLayer st)
        else
          match walk (dataLayer st) (splitDot "" p) with
          | Some v => if typeofObject v then jsonClone v else v
          | None => VUndef
          end
    end.

(** [window.clearDataLayer()] *)
Definition clearDataLayer (st : State) : State :=
  let st1 := setDataLayerQueue [] st in
  let st2 := setCartQueue [] st1 in
  setLocalStorage
    (deleteProp STORAGE_TIMESTAMP_KEY (deleteProp STORAGE_KEY (localStorage st2)))
    st2.

(** [window.saveCheckoutData(formData)] *)
Definition saveCheckoutData (formData : value) (st : State) : State :=
  if negb (truthy formData) || negb (typeofObject formData) then
    consoleError "Invalid checkout data provided" st
  else if storageFull st then consoleWarn "Could not save checkout data" st
  else
    setLocalStorage
      (setProp CHECKOUT_TIMESTAMP_KEY (SNum (now st))
         (setProp CHECKOUT_STORAGE_KEY (stringify formData) (localStorage st)))
      st.

(** [window.loadCheckoutData()]: the returned value ([VNull] for [null])
    and the state. *)
Definition loadCheckoutData (st : State) : value * State :=
  let savedData := lookup CHECKOUT_STORAGE_KEY (localStorage st) in
  let savedTimestamp := lookup CHECKOUT_TIMESTAMP_KEY (localStorage st) in
  let parsed (st' : State) :=
    match savedData with
    | Some text =>
        match jsonParse text with
        | Some v => (v, st')
        | None => (VNull, consoleError "Error loading checkout data" st')
        end
    | None => (VNull, st')
    end in
  if negb (present savedData) then (VNull, st)
  else if present savedTimestamp then
    match savedTimestamp with
    | Some ts =>
        match parseInt ts with
        | Some t =>
            if CHECKOUT_TTL <? now st - t then
              (VNull,
               setLocalStorage
                 (deleteProp CHECKOUT_TIMESTAMP_KEY
                    (deleteProp CHECKOUT_STORAGE_KEY (localStorage st))) st)
            else parsed st
        | None => parsed st
        end
    | None => parsed st
    end
  else parsed st.

(** [window.clearCheckoutData()] *)
Definition clearCheckoutData (st : State) : State :=
  setLocalStorage
    (deleteProp CHECKOUT_TIMESTAMP_KEY
       (deleteProp CHECKOUT_STORAGE_KEY (localStorage st))) st.

(** [window.addToCart(productData)] *)
Definition addToCart (productData : value) (st : State) : outcome :=
  if negb (truthy productData)
     || negb (truthy (match getProp productData "id" with
                      | Some id => id
                      | None => VUndef
                      end)) then
    Ok (consoleError "Invalid product data provided to addToCart" st)
  else if negb (dataLayerReady st) || negb (truthy (dataLayer st)) then
    Ok (setCartQueue (cartQueue st ++ [productData]) st)
  else executeAddToCart productData st.

(** The object returned by [window.getDataLayerQueueStatus()].
    [checkoutDataAge] is [None] for [null], else the number printed before
    " days" ([None] inside for [NaN]). *)
Record queueStatus : Type := mkQueueStatus {
  ready : bool;
  dataLayerQueueLength : nat;
  cartQueueLength : nat;
  queuedUpdates : list (value * bool);
  queuedCartOperations : list value;
  checkoutDataSaved : bool;
  checkoutDataAge : option (option Z)
}.

(** [window.getDataLayerQueueStatus()] *)
Definition getDataLayerQueueStatus (st : State) : queueStatus :=
  let checkoutData := lookup CHECKOUT_STORAGE_KEY (localStorage st) in
  let checkoutTimestamp := lookup CHECKOUT_TIMESTAMP_KEY (localStorage st) in
  let checkoutAge :=
    if present checkoutTimestamp then
      match checkoutTimestamp with
      | Some ts =>
          match parseInt ts with
          | Some t => Some (Some ((now st - t) / (24 * 60 * 60 * 1000)))
          | None => Some None
          end
      | None => None
      end
    else None in
  mkQueueStatus (dataLayerReady st) (List.length (dataLayerQueue st))
    (List.length (cartQueue st)) (dataLayerQueue st) (cartQueue st)
    (present checkoutData) checkoutAge.

End DataLayer.

(** ** The cart block: [removeFromCart] and [updateQuantity]

    The block reads a copy of the cart with [getDataLayerProperty("cart")]
    and writes it back with [updateDataLayer({ cart }, false)]; the
    rendering that follows touches the document only. *)

Module CartBlock.
Import DataLayer.

Definition liftC (c : comp State) (st : State) : outcome :=
  match c with
  | Val st' => Ok st'
  | Exn => Throws st
  | Unrep => Beyond
  end.

(** [window.getDataLayerProperty("cart") || { productCount: 0, ... }] *)
Definition readCart (st : State) : value :=
  orElse (getDataLayerProperty (Some "cart") st) (VObj emptyCart).

(** [removeFromCart(productId, block)] *)
Definition removeFromCart (productId : string) (st : State) : outcome :=
  let currentCart := readCart st in
  liftC
    (products <- readProp currentCart "products" ;;
     existing <- readProp products productId ;;
     if truthy existing then
       match currentCart, products with
       | VObj cart, VObj ps =>
           let ps1 := deleteProp productId ps in
           let cart1 := setProp "products" (VObj ps1) cart in
           cart2 <- recompute cart1 ps1 ;;
           Val (updateDataLayer (VObj [("cart", VObj cart2)]) false st)
       | _, _ => Unrep
       end
     else Val st)
    st.

(** [updateQuantity(productId, newQuantity, block)]; [quantity] is
    [parseInt(newQuantity, 10)], [None] for [NaN]. *)
Definition updateQuantity (productId : string) (quantity : option Z)
    (st : State) : outcome :=
  if match quantity with Some q => q <? 1 | None => false end then
    removeFromCart productId st
  else
    let currentCart := readCart st in
    liftC
      (products <- readProp currentCart "products" ;;
       existing <- readProp products productId ;;
       if truthy existing then
         match currentCart, products, quantity with
         | VObj cart, VObj ps, Some q =>
             item1 <- assignProp existing "quantity" (VNum q) ;;
             price <- readProp item1 "price" ;;
             subTotal <- jsMul (VNum q) price ;;
             item2 <- assignProp item1 "subTotal" subTotal ;;
             item3 <- assignProp item2 "total" subTotal ;;
             let ps1 := setProp productId item3 ps in
             let cart1 := setProp "products" (VObj ps1) cart in
             cart2 <- recompute cart1 ps1 ;;
             Val (updateDataLayer (VObj [("cart", VObj cart2)]) false st)
         | _, _, _ => Unrep
         end
       else Val st)
      st.

End CartBlock.

(** ** The order confirmation block: [resetCart] *)

Module OrderConfirmation.
Import DataLayer.

Definition PURCHASE_ORDER_KEY := "luma_purchase_order_number".

(** [resetCart()]: the cart, the product and the commerce sections are
    replaced, then the stored purchase order number is removed. *)
Definition resetCart (st : State) : State :=
  let defaultCart := VObj emptyCart in
  let st1 :=
    updateDataLayer
      (VObj [("cart", defaultCart); ("product", VObj []); ("commerce", VObj [])])
      false st in
  setLocalStorage (deleteProp PURCHASE_ORDER_KEY (localStorage st1)) st1.

End OrderConfirmation.

(** ** custom-events.js: the trigger engine

    A rule is an entry of [config.data]; a missing key is [None].  What the
    engine does to the page is a list of [action]s.  [RegExp] is taken as
    a parameter [regexTest source subject]: [None] when the pattern does
    not compile (a SyntaxError), else the result of [test]. *)

Module CustomEvents.

Record eventConfig : Type := mkEventConfig {
  page : option string;
  excludes : option string;
  event : option string;
  trigger : option string;
  element : option string;
  preventDefaultAction : option bool;
  beaconDelay : option Z
}.




Unset Elimination Schemes.
Inductive action : Type :=
| Dispatch (eventName : string)
| PreventDefault
| StopPropagation
| Navigate (href : string)
| OpenWindow (href : string)
| SubmitForm (form : string)
| Warn (msg : string)
| SetTimeout (delay : Z) (callback : list action)
| OnLoad (callback : list action)
| AddClickListener (listenerKey : string)
| RemoveClickListener (listenerKey : string)
| Retry (delay : Z)
| AwaitUpdate.
Set Elimination Schemes.

(** *** Strings *)

Definition isSpace (c : ascii) : bool :=
  let n := nat_of_ascii c in
  (Nat.eqb n 32 || (Nat.leb 9 n && Nat.leb n 13))%bool.

Fixpoint trimStart (s : string) : string :=
  match s with
  | EmptyString => EmptyString
  | String c rest => if isSpace c then trimStart rest else s
  end.

Fixpoint trimEnd (s : string) : string :=
  match s with
  | EmptyString => EmptyString
  | String c rest =>
      let rest' := trimEnd rest in
      if (isSpace c && (rest' =? ""))%string%bool then EmptyString
      else String c rest'
  end.

(** [s.trim()], on ASCII white space. *)
Definition trim (s : string) : string := trimEnd (trimStart s).

(** [s.includes(c)] for a one-character [c]. *)
Fixpoint includes (c : ascii) (s : string) : bool :=
  match s with
  | EmptyString => false
  | String c' rest => (Ascii.eqb c c' || includes c rest)%bool
  end.

(** [s.replace(/c/g, by)] for a one-character pattern. *)
Fixpoint replaceAll (c : ascii) (by_ : string) (s : string) : string :=
  match s with
  | EmptyString => EmptyString
  | String c' rest =>
      if Ascii.eqb c c' then by_ ++ replaceAll c by_ rest
      else String c' (replaceAll c by_ rest)
  end.

(** [s.split(",")] *)
Fixpoint splitComma (cur : string) (s : string) : list string :=
  match s with
  | EmptyString => [cur]
  | String c rest =>
      if Ascii.eqb c ","%char then cur :: splitComma "" rest
      else splitComma (cur ++ String c EmptyString) rest
  end.

(** Truthiness of an optional string. *)
Definition given (s : option string) : bool :=
  match s with
  | Some x => negb (x =? "")%string
  | None => false
  end.

Definition text (s : option string) : string :=
  match s with Some x => x | None => "" end.

(** *** The rule set and its cache *)

Definition EVENTS_STORAGE_KEY := "luma_customEventsConfig".
Definition EVENTS_LAST_MODIFIED_KEY := "luma_customEventsConfig_lastModified".
Definition EVENTS_TIMESTAMP_KEY := "luma_customEventsConfig_timestamp".

(** What [fetch("/custom-events.json", fetchOptions)] brings: a rejection,
    or a response with its status, the result of [response.json()] ([None]
    when it rejects) and its [Last-Modified] header. *)
Inductive response : Type :=
| NetworkError
| Response (status : Z) (body : option value) (lastModified : option string).

(** [response.ok] *)
Definition responseOk (status : Z) : bool := (200 <=? status) && (status <=? 299).

(** The [If-Modified-Since] header of the request, if any. *)
Definition ifModifiedSince (st : DataLayer.State) : option DataLayer.sval :=
  let cachedConfig := lookup EVENTS_STORAGE_KEY (DataLayer.localStorage st) in
  let cachedLastModified :=
    lookup EVENTS_LAST_MODIFIED_KEY (DataLayer.localStorage st) in
  if DataLayer.present cachedConfig && DataLayer.present cachedLastModified
  then cachedLastModified else None.

(** [JSON.parse(cachedConfig)] on what [getItem] returned: [null] reads as
    [null]; [None] is the SyntaxError. *)
Definition parseCached (cachedConfig : option DataLayer.sval) : option value :=
  match cachedConfig with
  | None => Some VNull
  | Some s => DataLayer.jsonParse s
  end.

(** The [try { setItem; setItem; setItem } catch { warn }] block that
    caches a fetched rule set. *)
Definition cacheConfig (config : value) (lastModified : option string)
    (st : DataLayer.State) : DataLayer.State :=
  if DataLayer.storageFull st then
    DataLayer.consoleWarn "Could not cache to localStorage" st
  else
    let l1 :=
      setProp EVENTS_STORAGE_KEY (DataLayer.stringify config)
        (DataLayer.localStorage st) in
    let l2 := setProp EVENTS_TIMESTAMP_KEY (DataLayer.SNum (DataLayer.now st)) l1 in
    let l3 :=
      if given lastModified
      then setProp EVENTS_LAST_MODIFIED_KEY (DataLayer.SRaw (text lastModified)) l2
      else l2 in
    DataLayer.setLocalStorage l3 st.

(** The [try] block of [loadCustomEventsConfig]: the returned value, or
    [None] when an exception reaches the [catch], with the state then. *)
Definition fetchConfig (r : response) (st : DataLayer.State)
  : option value * DataLayer.State :=
  let cachedConfig := lookup EVENTS_STORAGE_KEY (DataLayer.localStorage st) in
  match r with
  | NetworkError => (None, st)
  | Response status body lastModified =>
      if status =? 304 then
        if DataLayer.storageFull st then (None, st)
        else
          (parseCached cachedConfig,
           DataLayer.setLocalStorage
             (setProp EVENTS_TIMESTAMP_KEY (DataLayer.SNum (DataLayer.now st))
                (DataLayer.localStorage st)) st)
      else if negb (responseOk status) then
        let st1 := DataLayer.consoleWarn "Failed to fetch config" st in
        if DataLayer.present cachedConfig then
          (parseCached cachedConfig,
           DataLayer.consoleWarn "Using cached version as fallback" st1)
        else (Some VNull, DataLayer.consoleWarn "No cached config available" st1)
      else
        match body with
        | None =>
            let st1 := DataLayer.consoleError "JSON parsing error" st in
            if DataLayer.present cachedConfig then
              (parseCached cachedConfig,
               DataLayer.consoleWarn "Using cached version due to parsing error" st1)
            else (None, st1)
        | Some config =>
            if negb (truthy config) || negb (typeofObject config) then
              let st1 :=
                DataLayer.consoleError "Invalid config structure received" st in
              if DataLayer.present cachedConfig then
                (parseCached cachedConfig,
                 DataLayer.consoleWarn
                   "Using cached version due to invalid structure" st1)
              else (Some VNull, st1)
            else (Some config, cacheConfig config lastModified st)
        end
  end.

(** The [catch] block of [loadCustomEventsConfig]. *)
Definition cachedFallback (st : DataLayer.State) : value * DataLayer.State :=
  let st1 := DataLayer.consoleError "Error loading custom events config" st in
  let cachedConfig := lookup EVENTS_STORAGE_KEY (DataLayer.localStorage st1) in
  if DataLayer.present cachedConfig then
    match cachedConfig with
    | Some s =>
        match DataLayer.jsonParse s with
        | Some v => (v, st1)
        | None => (VNull, DataLayer.consoleError "Failed to parse cached config" st1)
        end
    | None => (VNull, st1)
    end
  else (VNull, st1).

(** [loadCustomEventsConfig()], [r] being what the request brings: the
    rule set ([VNull] for [null]) and the state. *)
Definition loadCustomEventsConfig (r : response) (st : DataLayer.State)
  : value * DataLayer.State :=
  match fetchConfig r st with
  | (Some config, st') => (config, st')
  | (None, st') => cachedFallback st'
  end.

(** [cleanupCustomEventListeners()]: every stored handler is removed from
    the document, then the map is cleared. *)
Definition cleanupCustomEventListeners (listeners : list string)
  : list string * list action :=
  ([], map RemoveClickListener listeners).

Section Engine.
Variable regexTest : string -> string -> option bool.

(** The source of the [RegExp] built from a wildcard pattern. *)
Definition regexSource (pattern : string) : string :=
  "^" ++ replaceAll "/" "\/" (replaceAll "?" "\?" (replaceAll "*" ".*" pattern)) ++ "$".

(** The shared test of a pattern against the path and the path with its
    query string; [None] is the SyntaxError of [new RegExp]. *)
Definition patternMatches (pattern currentPath currentFullPath : string)
  : option bool :=
  if ((pattern =? currentPath) || (pattern =? currentFullPath))%string%bool
  then Some true
  else if (includes "*" pattern || includes "?" pattern)%bool then
    match regexTest (regexSource pattern) currentPath with
    | Some true => Some true
    | Some false => regexTest (regexSource pattern) currentFullPath
    | None => None
    end
  else Some false.

(** [matchesPagePattern(pagePattern, currentPath)] *)
Definition matchesPagePattern (pagePattern : option string)
    (currentPath currentFullPath : string) : option bool :=
  if (negb (given pagePattern) || (text pagePattern =? "*")%string)%bool
  then Some true
  else patternMatches (text pagePattern) currentPath currentFullPath.

(** [excludeList.some(...)] *)
Fixpoint someExcluded (excludeList : list string)
    (currentPath currentFullPath : string) : option bool :=
  match excludeList with
  | [] => Some false
  | excludePath :: rest =>
      match patternMatches excludePath currentPath currentFullPath with
      | Some true => Some true
      | Some false => someExcluded rest currentPath currentFullPath
      | None => None
      end
  end.

(** [isPageExcluded(excludes, currentPath)] *)
Definition isPageExcluded (excludes_ : option string)
    (currentPath currentFullPath : string) : option bool :=
  if negb (given excludes_) then Some false
  else someExcluded (map trim (splitComma "" (text excludes_)))
         currentPath currentFullPath.




(** [dispatchCustomEvent(eventName, ..., callback)]: the event, then the
    callback at once. *)
Definition dispatchCustomEvent (eventName : string) (callback : list action)
  : list action :=
  Dispatch eventName :: callback.



(** The [element] variable of the rule: [""] when the key is missing. *)
Definition elementOf (cfg : eventConfig) : string := text (element cfg).


(** The trigger chosen for a rule. *)
Definition inferTrigger (cfg : eventConfig) : string :=
  if (given (trigger cfg) && negb (trim (text (trigger cfg)) =? "")%string)%bool
  then text (trigger cfg)
  else if (given (element cfg) && negb (trim (elementOf cfg) =? "")%string)%bool
  then "click"
  else if given (page cfg) then "pageload"
  else "pageload".

Definition listenerKey (cfg : eventConfig) (index : nat) : string :=
  text (event cfg) ++ "_" ++ indexKey index ++ "_" ++ elementOf cfg.

(** The body of [config.data.forEach((eventConfig, index) => ...)]: the
    listeners stored in [window._customEventListeners] and the actions;
    [None] is an exception. *)
Definition processRule (listeners : list string) (readyStateComplete : bool)
    (pagePath currentFullPath : string) (cfg : eventConfig) (index : nat)
  : option (list string * list action) :=
  let trigger_ := inferTrigger cfg in
  if negb (given (event cfg)) then
    Some (listeners, [Warn "Event name not defined in config"])
  else
    match isPageExcluded (excludes cfg) pagePath currentFullPath with
    | None => None
    | Some true => Some (listeners, [])
    | Some false =>
        match matchesPagePattern (page cfg) pagePath currentFullPath with
        | None => None
        | Some false => Some (listeners, [])
        | Some true =>
            let kind := toLowerCase trigger_ in
            if ((kind =? "pageload") || (kind =? "domcontentloaded"))%string%bool then
              Some (listeners, dispatchCustomEvent (text (event cfg)) [])
            else if (kind =? "click")%string then
              if negb (given (element cfg)) then
                Some (listeners, [Warn "Click trigger requires 'element' selector"])
              else
                let key := listenerKey cfg index in
                if existsb (String.eqb key) listeners then
                  Some (listeners, [RemoveClickListener key; AddClickListener key])
                else Some ((listeners ++ [key])%list, [AddClickListener key])
            else if (kind =? "load")%string then
              if readyStateComplete then
                Some (listeners, dispatchCustomEvent (text (event cfg)) [])
              else
                Some (listeners, [OnLoad (dispatchCustomEvent (text (event cfg)) [])])
            else Some (listeners, [Warn "Unknown trigger type"])
        end
    end.

(** [config.data.forEach(...)] *)
Fixpoint processRules (listeners : list string) (readyStateComplete : bool)
    (pagePath currentFullPath : string) (rules : list eventConfig) (index : nat)
  : option (list string * list action) :=
  match rules with
  | [] => Some (listeners, [])
  | cfg :: rest =>
      match processRule listeners readyStateComplete pagePath currentFullPath
              cfg index with
      | None => None
      | Some (listeners1, acts) =>
          match processRules listeners1 readyStateComplete pagePath
                  currentFullPath rest (S index) with
          | None => None
          | Some (listeners2, acts') => Some (listeners2, (acts ++ acts')%list)
          end
      end
  end.

(** [triggerCustomEvents(config, currentPath)] on the container [st], for
    a configuration that is given: the three waits, then the rules. *)
Definition triggerCustomEvents (st : DataLayer.State) (listeners : list string)
    (readyStateComplete : bool) (pathname search : string)
    (rules : list eventConfig) (currentPath : option string)
  : option (list string * list action) :=
  if (negb (DataLayer.accessorDefined st
            && truthy (jsonClone (DataLayer.dataLayer st)))
      || negb (DataLayer.dataLayerReady st))%bool
  then Some (listeners, [Warn "DataLayer not ready yet, waiting..."; Retry 100])
  else if (0 <? List.length (DataLayer.dataLayerQueue st))%nat
  then Some (listeners, [Retry 100])
  else if DataLayer.dataLayerUpdating st then Some (listeners, [AwaitUpdate])
  else
    let pagePath := if given currentPath then text currentPath else pathname in
    processRules listeners readyStateComplete pagePath (pathname ++ search)
      rules 0.

(** The test of [checkDataLayerReady] in [initializeCustomEvents]. *)
Definition dataLayerStable (st : DataLayer.State) : bool :=
  (DataLayer.accessorDefined st && truthy (jsonClone (DataLayer.dataLayer st))
   && DataLayer.dataLayerReady st
   && (List.length (DataLayer.dataLayerQueue st) =? 0)%nat
   && negb (DataLayer.dataLayerUpdating st))%bool.

(** One run of [checkDataLayerReady()], for a rule set that was loaded:
    the engine is started, or the check is scheduled again. *)
Definition checkDataLayerReady (st : DataLayer.State) (listeners : list string)
    (readyStateComplete : bool) (pathname search : string)
    (rules : list eventConfig) : option (list string * list action) :=
  if dataLayerStable st then
    triggerCustomEvents st listeners readyStateComplete pathname search rules None
  else Some (listeners, [Retry 50]).
End Engine.

(** *** Timers

    The page as the engine acts on it: a clock, the pending timers, and the
    actions performed so far, each with its time and with the timer whose
    callback performed it ([None] for an action of the running handler). *)

Record timer : Type := mkTimer {
  timerId : nat;
  due : Z;
  callback : list action
}.

Record entry : Type := mkEntry {
  time : Z;
  source : option nat;
  done : action
}.

Record world : Type := mkWorld {
  clock : Z;
  nextTimer : nat;
  pending : list timer;
  performed : list entry
}.

(** One action at the current time, [src] being the timer that runs:
    [setTimeout] registers its callback under a fresh identifier, due after
    the delay (a negative delay counts as 0); anything else is performed. *)
Definition act (src : option nat) (w : world) (a : action) : world :=
  match a with
  | SetTimeout delay cb =>
      mkWorld (clock w) (S (nextTimer w))
        (pending w ++ [mkTimer (nextTimer w) (clock w + Z.max 0 delay) cb])%list
        (performed w)
  | _ =>
      mkWorld (clock w) (nextTimer w) (pending w)
        (performed w ++ [mkEntry (clock w) src a])%list
  end.

Definition run (src : option nat) (acts : list action) (w : world) : world :=
  fold_left (act src) acts w.

(** The page goes on: time passes, or a timer that is due runs. *)
Inductive step : world -> world -> Prop :=
| Tick w t :
    clock w <= t -> step w (mkWorld t (nextTimer w) (pending w) (performed w))
| Fire w before tm rest :
    pending w = (before ++ tm :: rest)%list ->
    due tm <= clock w ->
    step w
      (run (Some (timerId tm)) (callback tm)
         (mkWorld (clock w) (nextTimer w) (before ++ rest)%list (performed w))).

Inductive steps : world -> world -> Prop :=
| StepsRefl w : steps w w
| StepsNext w1 w2 w3 : steps w1 w2 -> step w2 w3 -> steps w1 w3.

(** Timer identifiers are issued in order: those in use are below the
    next one. *)
Definition issued (w : world) : Prop :=
  Forall (fun tm => (timerId tm < nextTimer w)%nat) (pending w)
  /\ Forall (fun e => match source e with
                      | Some i => (i < nextTimer w)%nat
                      | None => True
                      end) (performed w).

End CustomEvents.

(** * Notions used by the statements *)

(** An association list stands for an object when its keys are distinct,
    at every depth. *)
Fixpoint distinct (l : list string) : bool :=
  match l with
  | [] => true
  | k :: rest => negb (existsb (String.eqb k) rest) && distinct rest
  end.

Fixpoint wellFormed (v : value) : bool :=
  match v with
  | VObj o =>
      distinct (map fst o) && forallb (fun kv => let '(_, x) := kv in wellFormed x) o
  | VArr l => forallb wellFormed l
  | _ => true
  end.

(** The names that a plain object inherits from [Object.prototype]: the
    code's [o[k]] and [k in o] find them when [o] has no own property [k],
    where the embedding reads own properties only. *)
Definition inheritedName (k : string) : bool :=
  existsb (String.eqb k)
    ["constructor"; "hasOwnProperty"; "isPrototypeOf"; "propertyIsEnumerable";
     "toLocaleString"; "toString"; "valueOf"; "__proto__"; "__defineGetter__";
     "__defineSetter__"; "__lookupGetter__"; "__lookupSetter__"].

(** No mapping of [v], at any depth, has a key named "__proto__": an
    assignment [o["__proto__"] = x] sets the prototype of [o] (or does
    nothing) instead of writing a key. *)
Fixpoint protoFree (v : value) : bool :=
  match v with
  | VObj o =>
      forallb (fun kv => let '(k, x) := kv in
                         negb (k =? "__proto__")%string && protoFree x) o
  | _ => true
  end.

(** The value found by following [path] through nested mappings. *)
Fixpoint valueAt (v : value) (path : list string) : option value :=
  match path with
  | [] => Some v
  | k :: rest =>
      match v with
      | VObj o =>
          match lookup k o with
          | Some x => valueAt x rest
          | None => None
          end
      | _ => None
      end
  end.

(** The value that the loop of [deepMerge] assigns to [key]. *)
Definition mergedValue (target : value) (key : string) (sv : value) : value :=
  let tv := getOwn key (spread target) in
  if DataLayer.isObject sv then
    if negb (truthy tv) || negb (DataLayer.isObject tv) then VObj (spread sv)
    else DataLayer.deepMerge tv sv
  else sv.

(** What a deep merge leaves at a place where the payload holds [x] and
    the tree held [old] ([None]: nothing reachable through mappings). *)
Definition mergedAt (old : option value) (x : value) : value :=
  match old with
  | Some tx =>
      if DataLayer.isObject tx && DataLayer.isObject x
      then DataLayer.deepMerge tx x else x
  | None => x
  end.

(** *** Carts *)

Definition isNum (v : value) (n : Z) : bool :=
  match v with VNum m => m =? n | _ => false end.

Definition numOf (v : value) : Z :=
  match v with VNum n => n | _ => 0 end.

Definition quantityOf (item : value) : Z := numOf (getOwn "quantity" (spread item)).
Definition priceOf (item : value) : Z := numOf (getOwn "price" (spread item)).
Definition subTotalOf (item : value) : Z := numOf (getOwn "subTotal" (spread item)).

(** A line item: a mapping with a numeric quantity and price, whose
    subtotal is price x quantity. *)
Definition lineItem (v : value) : bool :=
  match v with
  | VObj o =>
      match getOwn "quantity" o, getOwn "price" o with
      | VNum q, VNum p => isNum (getOwn "subTotal" o) (p * q)
      | _, _ => false
      end
  | _ => false
  end.

(** Sum of [f] over the line items, in the order of [reduce]. *)
Definition sumBy (f : value -> Z) (items : list value) : Z :=
  fold_left (fun acc item => acc + f item) items 0.

(** A cart whose aggregates have been written: its products are line
    items, [productCount] is the sum of their quantities, [subTotal] the
    sum of their subtotals and [total] equals [subTotal]. *)
Definition cartWritten (cart : value) : bool :=
  match cart with
  | VObj c =>
      match getOwn "products" c with
      | VObj ps =>
          forallb lineItem (values ps)
          && isNum (getOwn "productCount" c) (sumBy quantityOf (values ps))
          && isNum (getOwn "subTotal" c) (sumBy subTotalOf (values ps))
          && isNum (getOwn "total" c) (sumBy subTotalOf (values ps))
      | _ => false
      end
  | _ => false
  end.

(** The cart as its consumers read it: [cartData.products || {}],
    [cartData.productCount || 0], [cartData.subTotal || 0],
    [cartData.total || 0]. *)
Definition cartAggregates (cart : value) : bool :=
  match cart with
  | VObj c =>
      match orElse (getOwn "products" c) (VObj []) with
      | VObj ps =>
          forallb lineItem (values ps)
          && isNum (orElse (getOwn "productCount" c) (VNum 0))
               (sumBy quantityOf (values ps))
          && isNum (orElse (getOwn "subTotal" c) (VNum 0))
               (sumBy subTotalOf (values ps))
          && isNum (orElse (getOwn "total" c) (VNum 0))
               (numOf (orElse (getOwn "subTotal" c) (VNum 0)))
      | _ => false
      end
  | _ => false
  end.

(** The cart section of the tree of a state. *)
Definition cartOf (st : DataLayer.State) : value :=
  getOwn "cart" (spread (DataLayer.dataLayer st)).

(** The initial cart [{}], or a written cart. *)
Definition cartGood (cart : value) : bool :=
  match cart with
  | VObj [] => true
  | _ => cartWritten cart
  end.

(** The container is ready and its cart is the initial [{}] or a written
    cart. *)
Definition cartReady (st : DataLayer.State) : bool :=
  DataLayer.dataLayerReady st
  && match DataLayer.dataLayer st with
     | VObj t => cartGood (getOwn "cart" t)
     | _ => false
     end.

(** A product as [addToCart] documents it: a mapping with a string id (or
    none), a numeric price and a numeric quantity (or none). *)
Definition typedProduct (productData : value) : bool :=
  match productData with
  | VObj o =>
      match getOwn "id" o with
      | VStr _ | VUndef | VNull => true
      | _ => false
      end
      && match getOwn "price" o with VNum _ => true | _ => false end
      && match getOwn "quantity" o with VNum _ | VUndef => true | _ => false end
  | _ => false
  end.

(** The three cart operations. *)
Inductive cartOp : Type :=
| Add (productData : value)
| Remove (productId : string)
| SetQuantity (productId : string) (quantity : Z).

Definition isAddition (op : cartOp) : bool :=
  match op with Add _ => true | _ => false end.

Definition typedOp (op : cartOp) : bool :=
  match op with
  | Add productData => typedProduct productData
  | _ => true
  end.

Definition perform (op : cartOp) (st : DataLayer.State) : DataLayer.outcome :=
  match op with
  | Add productData => DataLayer.addToCart productData st
  | Remove productId => CartBlock.removeFromCart productId st
  | SetQuantity productId quantity =>
      CartBlock.updateQuantity productId (Some quantity) st
  end.

(** The state the caller is left with: an exception reaches the event
    handler that called the operation, and the page goes on. *)
Definition after (o : DataLayer.outcome) : option DataLayer.State :=
  match o with
  | DataLayer.Ok st => Some st
  | DataLayer.Throws st => Some st
  | DataLayer.Beyond => None
  end.

(** The states after each operation of a sequence. *)
Fixpoint history (ops : list cartOp) (st : DataLayer.State)
  : option (list DataLayer.State) :=
  match ops with
  | [] => Some []
  | op :: rest =>
      match after (perform op st) with
      | Some st' =>
          match history rest st' with
          | Some states => Some (st' :: states)
          | None => None
          end
      | None => None
      end
  end.

(** The properties of a mapping after [JSON.parse(JSON.stringify(...))]. *)
Definition cloneProps (o : props) : props :=
  fold_right
    (fun kv acc => let '(k, x) := kv in
       match x with VUndef => acc | _ => (k, jsonClone x) :: acc end)
    [] o.

(** The cart [cart] with the aggregates of the line items [ps] written
    into it. *)
Definition withAggregates (cart : props) (ps : props) : props :=
  setProp "total" (VNum (sumBy subTotalOf (values ps)))
    (setProp "subTotal" (VNum (sumBy subTotalOf (values ps)))
       (setProp "productCount" (VNum (sumBy quantityOf (values ps))) cart)).

(** The line items of a cart, none for the initial [{}]. *)
Definition productsOf (cart : value) : props :=
  match getOwn "products" (spread cart) with
  | VObj ps => ps
  | _ => []
  end.

(** The quantity requested by a product: [productData.quantity || 1]. *)
Definition requestedQuantity (productData : value) : value :=
  orElse (getOwn "quantity" (spread productData)) (VNum 1).

(** *** Whole amounts in the range of doubles

    The numbers of the code are IEEE doubles; those of the embedding are
    integers, with exact sums and products.  The two agree on the integers
    of magnitude up to 2^53, as long as no sum and no product leaves that
    range. *)

Definition MAX_SAFE : Z := 2 ^ 53.

Definition sumAbs (f : value -> Z) (items : list value) : Z :=
  fold_left (fun acc item => acc + Z.abs (f item)) items 0.

(** A cart whose amounts are in that range, in whatever order its line
    items are summed. *)
Definition exactCart (cart : value) : bool :=
  let items := values (productsOf cart) in
  (sumAbs quantityOf items <=? MAX_SAFE)
  && (sumAbs subTotalOf items <=? MAX_SAFE)
  && forallb (fun item => Z.abs (priceOf item) <=? MAX_SAFE) items.

Definition exactProduct (productData : value) : bool :=
  (Z.abs (numOf (getOwn "price" (spread productData))) <=? MAX_SAFE)
  && (Z.abs (numOf (requestedQuantity productData)) <=? MAX_SAFE).

(** An id that is not the name of an inherited property. *)
Definition plainId (productData : value) : bool :=
  match getOwn "id" (spread productData) with
  | VStr k => negb (inheritedName k)
  | _ => true
  end.

(** An operation whose id names no inherited property and whose amounts
    are in the range. *)
Definition exactOp (op : cartOp) : bool :=
  match op with
  | Add productData => exactProduct productData && plainId productData
  | Remove productId => negb (inheritedName productId)
  | SetQuantity productId quantity =>
      negb (inheritedName productId) && (Z.abs quantity <=? MAX_SAFE)
  end.

(** A run of operations all of whose carts, from the first to the last,
    have their amounts in the range. *)
Definition exactRun (ops : list cartOp) (st : DataLayer.State) : bool :=
  exactCart (cartOf st)
  && match history ops st with
     | Some states => forallb (fun s => exactCart (cartOf s)) states
     | None => false
     end.

(** *** Dropped operations *)

(** An operation that is logged as an error and dropped: the tree, the
    stored records, the notifications and both queues are as before, and
    the console has one more error. *)
Definition dropped (before after : DataLayer.State) : Prop :=
  DataLayer.dataLayer after = DataLayer.dataLayer before
  /\ DataLayer.localStorage after = DataLayer.localStorage before
  /\ DataLayer.dispatched after = DataLayer.dispatched before
  /\ DataLayer.dataLayerQueue after = DataLayer.dataLayerQueue before
  /\ DataLayer.cartQueue after = DataLayer.cartQueue before
  /\ exists msg,
       DataLayer.console after
       = (DataLayer.console before ++ [DataLayer.LogError msg])%list.

(** *** Example data *)

(** A page load with nothing stored. *)
Definition exampleBoot : DataLayer.State :=
  DataLayer.mkState VNull false false [] [] false [] false 1000 "Cart" [] [] [].

(** The container after its startup on [exampleBoot]. *)
Definition exampleReady : DataLayer.State :=
  match DataLayer.buildCustomDataLayer exampleBoot with
  | DataLayer.Ok st => st
  | _ => exampleBoot
  end.

Definition exampleTee : value :=
  VObj [("id", VStr "tee"); ("name", VStr "Tee"); ("price", VNum 1500);
        ("quantity", VNum 2)].

Definition exampleCap : value :=
  VObj [("id", VStr "cap"); ("name", VStr "Cap"); ("price", VNum 900)].

(** [exampleReady] after [addToCart(exampleTee)]. *)
Definition exampleWithTee : DataLayer.State :=
  match DataLayer.addToCart exampleTee exampleReady with
  | DataLayer.Ok st => st
  | _ => exampleReady
  end.




(** Startup on a first call with both queues empty: the state reached from
    the tree chosen by the TTL test, at the state [st1] left by that test. *)
Definition started (savedPresent : bool) (tree : value) (st1 : DataLayer.State)
  : DataLayer.State :=
  let st4 :=
    DataLayer.setReady true
      (DataLayer.setAccessorDefined true
         (DataLayer.persist "Could not persist dataLayer"
            (DataLayer.setDataLayer tree st1))) in
  DataLayer.setTimers
    (DataLayer.timers st4 ++ [if savedPresent then "restored" else "initialized"])%list
    st4.

(** *** Startup and the queues *)

Definition mapOutcome (f : DataLayer.State -> DataLayer.State)
    (o : DataLayer.outcome) : DataLayer.outcome :=
  match o with
  | DataLayer.Ok st => DataLayer.Ok (f st)
  | DataLayer.Throws st => DataLayer.Throws (f st)
  | DataLayer.Beyond => DataLayer.Beyond
  end.

Definition bindOutcome (o : DataLayer.outcome)
    (f : DataLayer.State -> DataLayer.outcome) : DataLayer.outcome :=
  match o with
  | DataLayer.Ok st => f st
  | r => r
  end.

(** The type tag of the notification scheduled at the end of startup. *)
Definition startTag (st : DataLayer.State) : string :=
  if DataLayer.present (lookup DataLayer.STORAGE_KEY (DataLayer.localStorage st))
  then "restored" else "initialized".

(** The [try] block of [buildCustomDataLayer] up to the drain of the cart
    queue (excluded). *)
Definition beforeCartQueue (st : DataLayer.State) : DataLayer.outcome :=
  let savedDataLayer := lookup DataLayer.STORAGE_KEY (DataLayer.localStorage st) in
  let '(isDataValid, st1) := DataLayer.checkSaved st in
  let restored :=
    if DataLayer.present savedDataLayer && isDataValid then
      match savedDataLayer with
      | Some text =>
          match DataLayer.jsonParse text with Some v => Val v | None => Exn end
      | None => Exn
      end
    else Val DataLayer.initialDataLayer in
  match restored with
  | Exn => DataLayer.Throws st1
  | Unrep => DataLayer.Beyond
  | Val tree =>
      match DataLayer.refreshPage (DataLayer.documentTitle st) tree with
      | Exn => DataLayer.Throws (DataLayer.setDataLayer tree st1)
      | Unrep => DataLayer.Beyond
      | Val tree1 =>
          let st2 :=
            DataLayer.persist "Could not persist dataLayer"
              (DataLayer.setDataLayer tree1 st1) in
          match DataLayer.defineAccessor st2 with
          | DataLayer.Ok st3 =>
              DataLayer.Ok
                (DataLayer.processDataLayerQueue (DataLayer.setReady true st3))
          | r => r
          end
      end
  end.

(** The cart additions of a queue issued one after the other. *)
Fixpoint issueAll (products : list value) (st : DataLayer.State)
  : DataLayer.outcome :=
  match products with
  | [] => DataLayer.Ok st
  | productData :: rest =>
      bindOutcome (DataLayer.addToCart productData st) (issueAll rest)
  end.

(** The number of notifications of type "updated" in a log. *)
Definition updatedCount (log : list (string * value)) : nat :=
  List.length (filter (fun e => (fst e =? "updated")%string) log).

(** A product that passes the check of [addToCart]. *)
Definition validProduct (productData : value) : bool :=
  typedProduct productData && truthy (getOwn "id" (spread productData)).



(** A payload that passes the check of [updateDataLayer]. *)
Definition validUpdate (updates : value) : bool :=
  truthy updates && typeofObject updates.

(** The writes of a queue issued one after the other. *)
Definition issueUpdates (queue : list (value * bool)) (st : DataLayer.State)
  : DataLayer.State :=
  fold_left (fun s e => DataLayer.updateDataLayer (fst e) (snd e) s) queue st.

(** Two cart additions queued before startup. *)
Definition exampleQueued : DataLayer.State :=
  DataLayer.setCartQueue [exampleTee; exampleCap] exampleBoot.

(** *** Trigger rules *)



















(** A payload with a nested leaf, a nested mapping and a new key. *)
Definition examplePayload : value :=
  VObj [("page", VObj [("title", VNull)]);
        ("cart", VObj [("total", VNum 0)]);
        ("extra", VStr "")].





(** *** Paths *)

(** [keys.join(".")]: the dotted path of a list of keys. *)
Fixpoint joinDot (path : list string) : string :=
  match path with
  | [] => ""
  | k :: rest =>
      match rest with
      | [] => k
      | _ :: _ => k ++ "." ++ joinDot rest
      end
  end.

(** A key with no dot in it. *)
Definition dotFree (k : string) : bool := negb (CustomEvents.includes "."%char k).

(** What [getDataLayerProperty] returns for the value found at a path. *)
Definition copyOf (v : value) : value :=
  if typeofObject v then jsonClone v else v.

(** A page load on a snapshot that is not JSON text, with one cart
    addition queued. *)
Definition exampleCorrupt : DataLayer.State :=
  DataLayer.mkState VNull false false [] [exampleTee] false
    [(DataLayer.STORAGE_KEY, DataLayer.SRaw "{oops");
     (DataLayer.STORAGE_TIMESTAMP_KEY, DataLayer.SNum 0)]
    false 1000 "Cart" [] [] [].

(** A page with a checkout record that is not JSON text, written 90 days
    and one millisecond ago. *)
Definition exampleStaleCheckout : DataLayer.State :=
  DataLayer.mkState VNull false false [] [] false
    [(DataLayer.CHECKOUT_STORAGE_KEY, DataLayer.SRaw "{oops");
     (DataLayer.CHECKOUT_TIMESTAMP_KEY, DataLayer.SNum 0)]
    false 7776000001 "Checkout" [] [] [].

(** The next page load after [exampleWithTee], one second later. *)
Definition exampleReload : DataLayer.State :=
  DataLayer.mkState VNull false false [] [] false
    (DataLayer.localStorage exampleWithTee) false 2000 "Checkout" [] [] [].

(** [exampleQueued] after its startup. *)
Definition exampleDrained : DataLayer.State :=
  match DataLayer.buildCustomDataLayer exampleQueued with
  | DataLayer.Ok st => st
  | _ => exampleQueued
  end.

(** * Properties *)

(** ** Records as association lists *)

Section AssocFacts.
Context {A : Type}.
Implicit Types (o : list (string * A)) (k : string).

Lemma lookup_setProp_eq k (v : A) o : lookup k (setProp k v o) = Some v.
Proof.
  induction o as [|[k' v'] rest IH]; simpl.
  - now rewrite String.eqb_refl.
  - destruct (String.eqb_spec k k') as [->|ne]; simpl.
    + now rewrite String.eqb_refl.
    + destruct (String.eqb_spec k k'); [contradiction|exact IH].
Qed.

Lemma lookup_setProp_ne k k' (v : A) o :
  k <> k' -> lookup k' (setProp k v o) = lookup k' o.
Proof.
  intros ne. induction o as [|[k0 v0] rest IH]; simpl.
  - destruct (String.eqb_spec k' k); [congruence|reflexivity].
  - destruct (String.eqb_spec k k0) as [->|ne0]; simpl.
    + destruct (String.eqb_spec k' k0); [congruence|reflexivity].
    + destruct (String.eqb_spec k' k0); [reflexivity|exact IH].
Qed.

Lemma lookup_deleteProp_eq k o : lookup k (deleteProp k o) = None.
Proof.
  induction o as [|[k' v'] rest IH]; simpl; [reflexivity|].
  destruct (String.eqb_spec k k') as [->|ne]; simpl; [exact IH|].
  destruct (String.eqb_spec k k'); [contradiction|exact IH].
Qed.

Lemma lookup_deleteProp_ne k k' o :
  k <> k' -> lookup k' (deleteProp k o) = lookup k' o.
Proof.
  intros ne. induction o as [|[k0 v0] rest IH]; simpl; [reflexivity|].
  destruct (String.eqb_spec k k0) as [->|ne0]; simpl.
  - destruct (String.eqb_spec k' k0); [congruence|exact IH].
  - destruct (String.eqb_spec k' k0); [reflexivity|exact IH].
Qed.

Lemma lookup_None_notin k o : lookup k o = None <-> ~ In k (keys o).
Proof.
  induction o as [|[k' v'] rest IH]; simpl.
  - tauto.
  - destruct (String.eqb_spec k k') as [->|ne].
    + split; [discriminate|intros H; exfalso; apply H; now left].
    + rewrite IH. split; [intros H [e|i]; [congruence|contradiction]|tauto].
Qed.

Lemma lookup_In k (v : A) o :
  NoDup (keys o) -> In (k, v) o -> lookup k o = Some v.
Proof.
  induction o as [|[k' v'] rest IH]; simpl; [contradiction|].
  intros nd [e|i].
  - inversion e; subst. now rewrite String.eqb_refl.
  - inversion nd as [|? ? notin nd']; subst.
    destruct (String.eqb_spec k k') as [->|ne]; [|now apply IH].
    exfalso. apply notin. change (In (fst (k', v)) (map fst rest)).
    now apply in_map.
Qed.

End AssocFacts.

(** A loop of assignments [out[key] = f key x] over the entries of a record
    with distinct keys. *)
Lemma lookup_fold_assign {A B : Type} (f : string -> B -> A)
    (s : list (string * B)) (o : list (string * A)) (k : string) :
    NoDup (keys s) ->
    lookup k (fold_left (fun out kv => setProp (fst kv) (f (fst kv) (snd kv)) out) s o)
    = match lookup k s with
      | Some x => Some (f k x)
      | None => lookup k o
      end.
  Proof.
    revert o. induction s as [|[k' x] rest IH]; intros o nd; simpl; [reflexivity|].
    inversion nd as [|? ? notin nd']; subst.
    rewrite (IH _ nd'). destruct (String.eqb_spec k k') as [->|ne].
    - assert (lookup k' rest = None) as -> by now apply lookup_None_notin.
      apply lookup_setProp_eq.
    - destruct (lookup k rest); [reflexivity|].
      apply lookup_setProp_ne. congruence.
  Qed.

(** ** The merge algorithm *)

Section DeepMerge.
Import DataLayer.

Lemma isObject_inv v : isObject v = true -> exists o, v = VObj o.
Proof.
  unfold isObject. destruct v; simpl; rewrite ?andb_false_r; try discriminate.
  eauto.
Qed.

Lemma distinct_NoDup l : distinct l = true -> NoDup l.
Proof.
  induction l as [|k rest IH]; simpl; [constructor|].
  intros H. apply andb_prop in H as [notin d]. constructor; [|now apply IH].
  intros i. apply negb_true_iff in notin.
  assert (existsb (String.eqb k) rest = true); [|congruence].
  apply existsb_exists. exists k. split; [exact i|apply String.eqb_refl].
Qed.

Lemma lookup_Some_In {A} k (v : A) o : lookup k o = Some v -> In (k, v) o.
Proof.
  induction o as [|[k' v'] rest IH]; simpl; [discriminate|].
  destruct (String.eqb_spec k k') as [->|ne].
  - intros [= ->]. now left.
  - intros H. right. now apply IH.
Qed.

Lemma wellFormed_keys o : wellFormed (VObj o) = true -> NoDup (keys o).
Proof.
  simpl. intros H. apply andb_prop in H as [d _]. now apply distinct_NoDup.
Qed.

Lemma wellFormed_lookup o k x :
  wellFormed (VObj o) = true -> lookup k o = Some x -> wellFormed x = true.
Proof.
  simpl. intros H L. apply andb_prop in H as [_ all].
  rewrite forallb_forall in all. exact (all _ (lookup_Some_In _ _ _ L)).
Qed.

Lemma mergeKey_assign target out key sv :
  mergeKey deepMerge target out key sv
  = setProp key (mergedValue target key sv) out.
Proof.
  unfold mergeKey, mergedValue.
  destruct (isObject sv); [|reflexivity].
  now destruct (negb (truthy (getOwn key (spread target)))
                || negb (isObject (getOwn key (spread target)))).
Qed.

Lemma fold_left_pointwise {A B} (f g : A -> B -> A) l a :
  (forall x y, f x y = g x y) -> fold_left f l a = fold_left g l a.
Proof.
  intros e. revert a. induction l as [|y rest IH]; intros a; simpl; [reflexivity|].
  now rewrite e, IH.
Qed.

Lemma deepMerge_objects t s :
  deepMerge (VObj t) (VObj s)
  = VObj (fold_left
            (fun out kv => setProp (fst kv) (mergedValue (VObj t) (fst kv) (snd kv)) out)
            s t).
Proof.
  simpl. f_equal. apply fold_left_pointwise. intros out [key sv].
  apply mergeKey_assign.
Qed.

Lemma lookup_deepMerge t s k :
  NoDup (keys s) ->
  lookup k (spread (deepMerge (VObj t) (VObj s)))
  = match lookup k s with
    | Some sv => Some (mergedValue (VObj t) k sv)
    | None => lookup k t
    end.
Proof.
  intros nd. rewrite deepMerge_objects. simpl.
  exact (lookup_fold_assign (mergedValue (VObj t)) s t k nd).
Qed.

Lemma valueAt_deepMerge_step t s k rest :
  NoDup (keys s) ->
  valueAt (deepMerge (VObj t) (VObj s)) (k :: rest)
  = match lookup k s with
    | Some sv => valueAt (mergedValue (VObj t) k sv) rest
    | None => match lookup k t with
              | Some tv => valueAt tv rest
              | None => None
              end
    end.
Proof.
  intros nd. pose proof (lookup_deepMerge t s k nd) as L.
  rewrite deepMerge_objects in *. simpl in *. rewrite L.
  now destruct (lookup k s).
Qed.

Lemma valueAt_not_mapping v k rest :
  isObject v = false -> valueAt v (k :: rest) = None.
Proof. now destruct v. Qed.

(** Every place of the payload, at any depth. *)
Lemma valueAt_deepMerge path : forall t s x,
  wellFormed (VObj s) = true -> path <> [] ->
  valueAt (VObj s) path = Some x ->
  valueAt (deepMerge (VObj t) (VObj s)) path
  = Some (mergedAt (valueAt (VObj t) path) x).
Proof.
  induction path as [|k rest IH]; intros t s x wf ne H; [contradiction|].
  rewrite valueAt_deepMerge_step by now apply wellFormed_keys.
  simpl in H. destruct (lookup k s) as [sv|] eqn:Ls; [|discriminate].
  pose proof (wellFormed_lookup _ _ _ wf Ls) as wfsv.
  unfold mergedValue. simpl spread. unfold getOwn.
  destruct rest as [|k' rest'].
  - simpl in H. injection H as ->. simpl.
    destruct (lookup k t) as [tv|]; simpl.
    + destruct (isObject x) eqn:ox.
      * destruct (isObject_inv _ ox) as [sx ->]. simpl.
        destruct (isObject tv) eqn:otv.
        -- destruct (isObject_inv _ otv) as [tx ->]. reflexivity.
        -- rewrite orb_true_r. reflexivity.
      * now rewrite andb_false_r.
    + destruct (isObject x) eqn:ox; [|reflexivity].
      now destruct (isObject_inv _ ox) as [sx ->].
  - destruct sv as [| | | | | |sx]; try discriminate. simpl isObject.
    change (isObject (VObj sx)) with true. cbv iota.
    change (valueAt (VObj t) (k :: k' :: rest'))
      with (match lookup k t with
            | Some tv => valueAt tv (k' :: rest')
            | None => None
            end).
    destruct (lookup k t) as [tv|].
    + destruct (isObject tv) eqn:otv.
      * destruct (isObject_inv _ otv) as [tx ->]. simpl negb. simpl orb.
        cbv iota. apply IH; [exact wfsv|discriminate|exact H].
      * rewrite orb_true_r. simpl spread.
        now rewrite (valueAt_not_mapping tv k' rest' otv).
    + simpl. exact H.
Qed.

(** Keys absent from the payload, at any depth. *)
Lemma valueAt_deepMerge_absent path : forall t s tp sp k,
  wellFormed (VObj s) = true ->
  valueAt (VObj t) path = Some (VObj tp) ->
  valueAt (VObj s) path = Some (VObj sp) ->
  lookup k sp = None ->
  exists rp,
    valueAt (deepMerge (VObj t) (VObj s)) path = Some (VObj rp)
    /\ lookup k rp = lookup k tp.
Proof.
  induction path as [|k0 rest IH]; intros t s tp sp k wf Ht Hs absent.
  - simpl in Ht, Hs. injection Ht as ->. injection Hs as ->.
    rewrite deepMerge_objects. simpl. eexists. split; [reflexivity|].
    pose proof (lookup_deepMerge tp sp k (wellFormed_keys _ wf)) as L.
    rewrite deepMerge_objects in L. simpl in L. now rewrite L, absent.
  - rewrite valueAt_deepMerge_step by now apply wellFormed_keys.
    simpl in Ht, Hs.
    destruct (lookup k0 s) as [sv|] eqn:Ls; [|discriminate].
    destruct (lookup k0 t) as [tv|] eqn:Lt; [|discriminate].
    pose proof (wellFormed_lookup _ _ _ wf Ls) as wfsv.
    assert (exists sx, sv = VObj sx) as [sx ->].
    { destruct rest; [simpl in Hs; injection Hs as ->; eauto|].
      destruct sv; try discriminate; eauto. }
    assert (exists tx, tv = VObj tx) as [tx ->].
    { destruct rest; [simpl in Ht; injection Ht as ->; eauto|].
      destruct tv; try discriminate; eauto. }
    unfold mergedValue. simpl spread. unfold getOwn. rewrite Lt.
    change (isObject (VObj sx)) with true. change (isObject (VObj tx)) with true.
    simpl negb. simpl orb. cbv iota.
    now apply (IH tx sx tp sp k).
Qed.
End DeepMerge.

Section Write.
Import DataLayer.

Lemma updateDataLayer_ready updates merge st :
  truthy updates = true -> typeofObject updates = true ->
  dataLayerReady st = true -> truthy (dataLayer st) = true ->
  updateDataLayer updates merge st
  = dispatchDataLayerEvent "updated"
      (setUpdating false
         (persist "Could not persist dataLayer"
            (setDataLayer (applyUpdate (dataLayer st) updates merge)
               (setUpdating true st)))).
Proof.
  intros tu ou r td. unfold updateDataLayer. now rewrite tu, ou, r, td.
Qed.

Lemma dataLayer_persist w st : dataLayer (persist w st) = dataLayer st.
Proof. unfold persist. now destruct (storageFull st). Qed.

Lemma dataLayer_updateDataLayer_ready updates merge st :
  truthy updates = true -> typeofObject updates = true ->
  dataLayerReady st = true -> truthy (dataLayer st) = true ->
  dataLayer (updateDataLayer updates merge st)
  = applyUpdate (dataLayer st) updates merge.
Proof.
  intros tu ou r td. rewrite updateDataLayer_ready by assumption.
  simpl. now rewrite dataLayer_persist.
Qed.
End Write.

(** C1.  A write in deep-merge mode, on a ready container holding the tree
    [t], with a payload [P] that is a plain mapping, none of whose mappings
    has a key named "__proto__": the new tree keeps, at
    every depth, each key that the payload does not mention; each leaf of
    the payload (any value that is not a plain mapping: [null], [""],
    [undefined], an array) is found at its place in the new tree; and a
    nested mapping of the payload is merged with the mapping the tree holds
    at that place, or stands alone when the tree holds no mapping there. *)
Theorem deep_merge_write (st : DataLayer.State) (t : props) (P : value) :
  DataLayer.dataLayerReady st = true ->
  DataLayer.dataLayer st = VObj t ->
  DataLayer.isObject P = true ->
  wellFormed P = true ->
  protoFree P = true ->
  let T' := DataLayer.dataLayer (DataLayer.updateDataLayer P true st) in
  (forall path tp sp k,
      valueAt (VObj t) path = Some (VObj tp) ->
      valueAt P path = Some (VObj sp) ->
      lookup k sp = None ->
      exists rp, valueAt T' path = Some (VObj rp) /\ lookup k rp = lookup k tp)
  /\ (forall path v,
      path <> [] -> valueAt P path = Some v -> DataLayer.isObject v = false ->
      valueAt T' path = Some v)
  /\ (forall path sp,
      path <> [] -> valueAt P path = Some (VObj sp) ->
      valueAt T' path
      = Some (match valueAt (VObj t) path with
              | Some (VObj tp) => DataLayer.deepMerge (VObj tp) (VObj sp)
              | _ => VObj sp
              end)).
Proof.
  intros ready tree mapping wf _ T'.
  destruct (isObject_inv _ mapping) as [s ->].
  assert (T' = DataLayer.deepMerge (VObj t) (VObj s)) as ->.
  { unfold T'. rewrite dataLayer_updateDataLayer_ready; rewrite ?tree; reflexivity || assumption. }
  split; [|split].
  - intros path tp sp k Ht Hs absent.
    exact (valueAt_deepMerge_absent path t s tp sp k wf Ht Hs absent).
  - intros path v ne Hs leaf.
    rewrite (valueAt_deepMerge path t s v wf ne Hs). f_equal.
    unfold mergedAt. destruct (valueAt (VObj t) path); [|reflexivity].
    now rewrite leaf, andb_false_r.
  - intros path sp ne Hs.
    rewrite (valueAt_deepMerge path t s (VObj sp) wf ne Hs). f_equal.
    unfold mergedAt. destruct (valueAt (VObj t) path) as [tx|]; [|reflexivity].
    destruct (DataLayer.isObject tx) eqn:otx.
    + now destruct (isObject_inv _ otx) as [tp ->].
    + destruct tx; try reflexivity. discriminate.
Qed.

(** ** Copies through JSON *)

Section Clone.

Lemma jsonClone_obj o : jsonClone (VObj o) = VObj (cloneProps o).
Proof. reflexivity. Qed.

Lemma cloneProps_cons k x o :
  cloneProps ((k, x) :: o)
  = match x with VUndef => cloneProps o | _ => (k, jsonClone x) :: cloneProps o end.
Proof. reflexivity. Qed.

Lemma lookup_cloneProps k o v :
  lookup k o = Some v -> v <> VUndef ->
  lookup k (cloneProps o) = Some (jsonClone v).
Proof.
  intros L ne. induction o as [|[k' x] rest IH]; [discriminate|].
  rewrite cloneProps_cons. simpl in L.
  destruct (String.eqb_spec k k') as [->|nk].
  - injection L as ->. destruct v; try contradiction;
      simpl lookup; now rewrite String.eqb_refl.
  - specialize (IH L).
    destruct x; simpl lookup; try exact IH;
      (destruct (String.eqb_spec k k'); [contradiction|exact IH]).
Qed.

Lemma lookup_cloneProps_None k o :
  lookup k o = None -> lookup k (cloneProps o) = None.
Proof.
  induction o as [|[k' x] rest IH]; [reflexivity|].
  rewrite cloneProps_cons. simpl.
  destruct (String.eqb_spec k k') as [->|nk]; [discriminate|].
  intros L. specialize (IH L).
  destruct x; simpl lookup; try exact IH;
    (destruct (String.eqb_spec k k'); [contradiction|exact IH]).
Qed.

Lemma getOwn_num_clone k o n :
  getOwn k o = VNum n -> getOwn k (cloneProps o) = VNum n.
Proof.
  unfold getOwn. destruct (lookup k o) as [v|] eqn:L; [|discriminate].
  intros ->. now rewrite (lookup_cloneProps k o (VNum n) L).
Qed.

Lemma getOwn_obj_clone k o x :
  getOwn k o = VObj x -> getOwn k (cloneProps o) = VObj (cloneProps x).
Proof.
  unfold getOwn. destruct (lookup k o) as [v|] eqn:L; [|discriminate].
  intros ->. now rewrite (lookup_cloneProps k o (VObj x) L).
Qed.

Lemma lineItem_inv v :
  lineItem v = true ->
  exists o q p, v = VObj o /\ getOwn "quantity" o = VNum q
                /\ getOwn "price" o = VNum p
                /\ getOwn "subTotal" o = VNum (p * q).
Proof.
  destruct v as [| | | | | |o]; try discriminate. simpl.
  destruct (getOwn "quantity" o) as [| | |q| | |] eqn:Q; try discriminate.
  destruct (getOwn "price" o) as [| | |p| | |] eqn:P; try discriminate.
  destruct (getOwn "subTotal" o) as [| | |s| | |] eqn:S; try discriminate.
  simpl. intros e. apply Z.eqb_eq in e. subst s. now exists o, q, p.
Qed.

Lemma lineItem_intro o q p :
  getOwn "quantity" o = VNum q -> getOwn "price" o = VNum p ->
  getOwn "subTotal" o = VNum (p * q) -> lineItem (VObj o) = true.
Proof. intros Q P S. simpl. rewrite Q, P, S. simpl. apply Z.eqb_refl. Qed.

Lemma lineItem_clone v :
  lineItem v = true ->
  lineItem (jsonClone v) = true
  /\ quantityOf (jsonClone v) = quantityOf v
  /\ subTotalOf (jsonClone v) = subTotalOf v.
Proof.
  intros H. destruct (lineItem_inv v H) as (o & q & p & -> & Q & P & S).
  rewrite jsonClone_obj. unfold quantityOf, subTotalOf. simpl spread.
  rewrite (getOwn_num_clone _ _ _ Q), (getOwn_num_clone _ _ _ S), Q, S.
  split; [|split]; try reflexivity.
  apply (lineItem_intro _ q p); now apply getOwn_num_clone.
Qed.

Lemma cloneProps_lineItems ps :
  forallb lineItem (values ps) = true ->
  cloneProps ps = map (fun kv => (fst kv, jsonClone (snd kv))) ps.
Proof.
  induction ps as [|[k x] rest IH]; [reflexivity|].
  simpl values. simpl forallb. intros H. apply andb_prop in H as [Hx Hr].
  rewrite cloneProps_cons, (IH Hr). simpl.
  destruct x; try discriminate. reflexivity.
Qed.

Lemma values_cloneProps ps :
  forallb lineItem (values ps) = true ->
  values (cloneProps ps) = map jsonClone (values ps).
Proof.
  intros H. rewrite (cloneProps_lineItems ps H). unfold values.
  rewrite !map_map. reflexivity.
Qed.

Lemma forallb_lineItem_clone vals :
  forallb lineItem vals = true -> forallb lineItem (map jsonClone vals) = true.
Proof.
  induction vals as [|v rest IH]; [reflexivity|]. simpl. intros H.
  apply andb_prop in H as [Hv Hr].
  rewrite (proj1 (lineItem_clone v Hv)). now apply IH.
Qed.

Lemma sumBy_from (f : value -> Z) vals a :
  fold_left (fun acc item => acc + f item) vals a = a + sumBy f vals.
Proof.
  unfold sumBy. revert a. induction vals as [|v rest IH]; intros a; simpl.
  - lia.
  - rewrite IH, (IH (f v)). lia.
Qed.

Lemma sumBy_cons (f : value -> Z) v vals : sumBy f (v :: vals) = f v + sumBy f vals.
Proof. unfold sumBy at 1. simpl. apply sumBy_from. Qed.

Lemma sumBy_clone vals :
  forallb lineItem vals = true ->
  sumBy quantityOf (map jsonClone vals) = sumBy quantityOf vals
  /\ sumBy subTotalOf (map jsonClone vals) = sumBy subTotalOf vals.
Proof.
  induction vals as [|v rest IH]; [split; reflexivity|]. simpl. intros H.
  apply andb_prop in H as [Hv Hr]. destruct (IH Hr) as [IQ IS].
  destruct (lineItem_clone v Hv) as (_ & Q & S).
  rewrite !sumBy_cons, IQ, IS, Q, S. split; reflexivity.
Qed.
End Clone.

(** ** Cart aggregates *)

Section Aggregates.
Import DataLayer.

Lemma getOwn_setProp_eq k v o : getOwn k (setProp k v o) = v.
Proof. unfold getOwn. now rewrite lookup_setProp_eq. Qed.

Lemma getOwn_setProp_ne k k' v o :
  k <> k' -> getOwn k' (setProp k v o) = getOwn k' o.
Proof. intros ne. unfold getOwn. now rewrite lookup_setProp_ne. Qed.

Lemma reduceField_nums field (f : value -> Z) vals :
  Forall (fun v => readProp v field = Val (VNum (f v))) vals ->
  reduceField field vals = Val (VNum (sumBy f vals)).
Proof.
  unfold reduceField, sumBy. generalize 0.
  induction vals as [|v rest IH]; intros a H; [reflexivity|].
  inversion H as [|? ? Hv Hr]; subst. simpl. rewrite Hv. simpl.
  now apply IH.
Qed.

Lemma lineItems_quantity vals :
  forallb lineItem vals = true ->
  Forall (fun v => readProp v "quantity" = Val (VNum (quantityOf v))) vals.
Proof.
  intros H. apply Forall_forall. intros v i.
  rewrite forallb_forall in H.
  destruct (lineItem_inv v (H v i)) as (o & q & p & -> & Q & P & S).
  unfold readProp, quantityOf. simpl. now rewrite Q.
Qed.

Lemma lineItems_subTotal vals :
  forallb lineItem vals = true ->
  Forall (fun v => readProp v "subTotal" = Val (VNum (subTotalOf v))) vals.
Proof.
  intros H. apply Forall_forall. intros v i.
  rewrite forallb_forall in H.
  destruct (lineItem_inv v (H v i)) as (o & q & p & -> & Q & P & S).
  unfold readProp, subTotalOf. simpl. now rewrite S.
Qed.

(** The aggregates written by the three operations. *)
Lemma recompute_lineItems cart ps :
  forallb lineItem (values ps) = true ->
  recompute cart ps = Val (withAggregates cart ps).
Proof.
  intros H. unfold recompute.
  rewrite (reduceField_nums _ quantityOf _ (lineItems_quantity _ H)).
  rewrite (reduceField_nums _ subTotalOf _ (lineItems_subTotal _ H)).
  reflexivity.
Qed.

Lemma cartWritten_recomputed cart ps :
  forallb lineItem (values ps) = true ->
  getOwn "products" cart = VObj ps ->
  cartWritten (VObj (withAggregates cart ps)) = true.
Proof.
  intros H P. unfold cartWritten, withAggregates.
  rewrite !getOwn_setProp_eq.
  rewrite (getOwn_setProp_ne "total" "products") by discriminate.
  rewrite (getOwn_setProp_ne "subTotal" "products") by discriminate.
  rewrite (getOwn_setProp_ne "productCount" "products") by discriminate.
  rewrite P, H.
  rewrite (getOwn_setProp_ne "total" "productCount") by discriminate.
  rewrite (getOwn_setProp_ne "subTotal" "productCount") by discriminate.
  rewrite (getOwn_setProp_ne "total" "subTotal") by discriminate.
  rewrite !getOwn_setProp_eq. simpl. now rewrite !Z.eqb_refl.
Qed.

Lemma values_setProp_forallb {A} (f : A -> bool) k v (o : list (string * A)) :
  forallb f (values o) = true -> f v = true ->
  forallb f (values (setProp k v o)) = true.
Proof.
  intros H fv. induction o as [|[k' v'] rest IH]; simpl.
  - now rewrite fv.
  - simpl in H. apply andb_prop in H as [Hv Hr].
    destruct (k =? k')%string; simpl.
    + now rewrite fv, Hr.
    + now rewrite Hv, IH.
Qed.

Lemma values_deleteProp_forallb {A} (f : A -> bool) k (o : list (string * A)) :
  forallb f (values o) = true -> forallb f (values (deleteProp k o)) = true.
Proof.
  intros H. induction o as [|[k' v'] rest IH]; simpl; [reflexivity|].
  simpl in H. apply andb_prop in H as [Hv Hr].
  destruct (k =? k')%string; simpl; [now apply IH|].
  now rewrite Hv, IH.
Qed.

Lemma lookup_forallb {A} (f : A -> bool) k v (o : list (string * A)) :
  forallb f (values o) = true -> lookup k o = Some v -> f v = true.
Proof.
  intros H L. rewrite forallb_forall in H. apply H.
  apply lookup_Some_In in L. unfold values.
  change v with (snd (k, v)). now apply in_map.
Qed.

Lemma getOwn_products_withAggregates cart ps :
  getOwn "products" (withAggregates cart ps) = getOwn "products" cart.
Proof.
  unfold withAggregates.
  rewrite (getOwn_setProp_ne "total" "products") by discriminate.
  rewrite (getOwn_setProp_ne "subTotal" "products") by discriminate.
  now rewrite (getOwn_setProp_ne "productCount" "products") by discriminate.
Qed.

Lemma cartWritten_inv cart :
  cartWritten cart = true ->
  exists c ps, cart = VObj c /\ getOwn "products" c = VObj ps
               /\ forallb lineItem (values ps) = true
               /\ getOwn "productCount" c = VNum (sumBy quantityOf (values ps))
               /\ getOwn "subTotal" c = VNum (sumBy subTotalOf (values ps))
               /\ getOwn "total" c = VNum (sumBy subTotalOf (values ps)).
Proof.
  destruct cart as [| | | | | |c]; try discriminate. simpl.
  destruct (getOwn "products" c) as [| | | | | |ps] eqn:P; try discriminate.
  intros H. apply andb_prop in H as [H T]. apply andb_prop in H as [H S].
  apply andb_prop in H as [L Q].
  exists c, ps. repeat split; auto.
  - destruct (getOwn "productCount" c); try discriminate.
    simpl in Q. apply Z.eqb_eq in Q. now subst.
  - destruct (getOwn "subTotal" c); try discriminate.
    simpl in S. apply Z.eqb_eq in S. now subst.
  - destruct (getOwn "total" c); try discriminate.
    simpl in T. apply Z.eqb_eq in T. now subst.
Qed.

Lemma cartWritten_aggregates cart :
  cartWritten cart = true -> cartAggregates cart = true.
Proof.
  intros H. destruct (cartWritten_inv cart H) as (c & ps & -> & P & L & Q & S & T).
  unfold cartAggregates. rewrite P, Q, S, T. unfold orElse at 1.
  simpl truthy. cbv iota. rewrite L.
  assert (forall n, isNum (orElse (VNum n) (VNum 0)) n = true) as E.
  { intros n. unfold orElse. simpl. destruct (Z.eqb_spec n 0) as [->|ne]; simpl.
    - reflexivity.
    - apply Z.eqb_refl. }
  rewrite !E. simpl.
  assert (forall n, numOf (orElse (VNum n) (VNum 0)) = n) as N.
  { intros n. unfold orElse. simpl. now destruct (Z.eqb_spec n 0) as [->|ne]. }
  rewrite N. apply E.
Qed.
End Aggregates.

(** ** The cart operations on a ready container *)

Section CartOperations.
Import DataLayer.

Lemma typedProduct_inv pd :
  typedProduct pd = true ->
  exists o p r,
    pd = VObj o /\ getOwn "price" o = VNum p /\ requestedQuantity pd = VNum r
    /\ (truthy (getOwn "id" o) = true -> exists k, getOwn "id" o = VStr k).
Proof.
  destruct pd as [| | | | | |o]; try discriminate. simpl. intros H.
  apply andb_prop in H as [H Q]. apply andb_prop in H as [I P].
  destruct (getOwn "price" o) as [| | |p| | |] eqn:Pe; try discriminate.
  assert (exists r, requestedQuantity (VObj o) = VNum r) as [r R].
  { unfold requestedQuantity, orElse. simpl spread.
    destruct (getOwn "quantity" o) as [| | |n| | |]; try discriminate; simpl.
    - eauto.
    - destruct (n =? 0); simpl; eauto. }
  exists o, p, r. repeat split; auto.
  destruct (getOwn "id" o); try discriminate; eauto.
Qed.

(** The products mapping after [executeAddToCart] has set the line item. *)
Lemma addLineItem_typed o k p r ps :
  getOwn "id" o = VStr k -> getOwn "price" o = VNum p ->
  requestedQuantity (VObj o) = VNum r ->
  forallb lineItem (values ps) = true ->
  exists item,
    addLineItem (VObj o) (VObj ps) = Val (setProp k item ps)
    /\ lineItem item = true
    /\ (lookup k ps = None -> quantityOf item = r)
    /\ (forall old, lookup k ps = Some old -> quantityOf item = quantityOf old + r).
Proof.
  intros I P R L. unfold addLineItem, readProp. simpl getProp.
  rewrite I. simpl bindC. unfold requestedQuantity in R. simpl spread in R.
  destruct (lookup k ps) as [old|] eqn:Lk.
  - pose proof (lookup_forallb lineItem k old ps L Lk) as Lo.
    destruct (lineItem_inv old Lo) as (io & q & pr & -> & Q & Pr & S).
    assert (getOwn k ps = VObj io) as -> by (unfold getOwn; now rewrite Lk).
    simpl truthy. cbv iota. rewrite Q, R. simpl bindC.
    rewrite (getOwn_setProp_ne "quantity" "price") by discriminate.
    rewrite Pr. simpl bindC. eexists. split; [reflexivity|]. split; [|split].
    + apply (lineItem_intro _ (q + r) pr).
      * rewrite (getOwn_setProp_ne "total" "quantity") by discriminate.
        rewrite (getOwn_setProp_ne "subTotal" "quantity") by discriminate.
        apply getOwn_setProp_eq.
      * rewrite (getOwn_setProp_ne "total" "price") by discriminate.
        rewrite (getOwn_setProp_ne "subTotal" "price") by discriminate.
        rewrite (getOwn_setProp_ne "quantity" "price") by discriminate.
        exact Pr.
      * rewrite (getOwn_setProp_ne "total" "subTotal") by discriminate.
        rewrite getOwn_setProp_eq. f_equal. apply Z.mul_comm.
    + discriminate.
    + intros old' [= <-]. unfold quantityOf. simpl spread.
      rewrite (getOwn_setProp_ne "total" "quantity") by discriminate.
      rewrite (getOwn_setProp_ne "subTotal" "quantity") by discriminate.
      rewrite getOwn_setProp_eq, Q. reflexivity.
  - assert (getOwn k ps = VUndef) as -> by (unfold getOwn; now rewrite Lk).
    simpl truthy. cbv iota. rewrite P, R. simpl bindC.
    eexists. split; [reflexivity|]. split; [|split].
    + apply (lineItem_intro _ r p); reflexivity.
    + reflexivity.
    + discriminate.
Qed.

Lemma cartGood_inv cart :
  cartGood cart = true -> cart = VObj [] \/ cartWritten cart = true.
Proof. destruct cart as [| | | | | |[|e c]]; simpl; auto. Qed.

Lemma cartGood_written cart : cartWritten cart = true -> cartGood cart = true.
Proof. destruct cart as [| | | | | |[|e c]]; simpl; auto. Qed.

Lemma cartReady_inv st :
  cartReady st = true ->
  dataLayerReady st = true
  /\ exists t, dataLayer st = VObj t /\ cartGood (getOwn "cart" t) = true.
Proof.
  unfold cartReady. intros H. apply andb_prop in H as [R C]. split; [exact R|].
  destruct (dataLayer st); try discriminate. eauto.
Qed.

(** The cart that [executeAddToCart] works on, and its line items. *)
Lemma selectCart_good t :
  cartGood (getOwn "cart" t) = true ->
  exists aliased c,
    selectCart (VObj t) = Val (aliased, VObj c)
    /\ getOwn "products" c = VObj (productsOf (getOwn "cart" t))
    /\ forallb lineItem (values (productsOf (getOwn "cart" t))) = true.
Proof.
  intros G. unfold selectCart, readProp. simpl getProp. simpl bindC.
  destruct (cartGood_inv _ G) as [E|W].
  - rewrite E. simpl. exists false, emptyCart. repeat split.
  - destruct (cartWritten_inv _ W) as (c & ps & E & P & L & _).
    rewrite E. unfold productsOf. simpl spread. rewrite P.
    destruct c as [|e c]; [discriminate|]. simpl.
    exists true, (e :: c). repeat split; assumption.
Qed.

Lemma dataLayerReady_persist w st : dataLayerReady (persist w st) = dataLayerReady st.
Proof. unfold persist. now destruct (storageFull st). Qed.

(** [executeAddToCart] on a ready container with a typed product. *)
Lemma executeAddToCart_ready st t o k p r :
  dataLayer st = VObj t ->
  cartGood (getOwn "cart" t) = true ->
  getOwn "id" o = VStr k -> getOwn "price" o = VNum p ->
  requestedQuantity (VObj o) = VNum r ->
  exists item cart',
    executeAddToCart (VObj o) st
    = Ok (dispatchDataLayerEvent "updated"
            (persist "Could not persist cart"
               (setDataLayer (VObj (setProp "cart" cart' t)) st)))
    /\ cartWritten cart' = true
    /\ productsOf cart' = setProp k item (productsOf (getOwn "cart" t))
    /\ lineItem item = true
    /\ (lookup k (productsOf (getOwn "cart" t)) = None -> quantityOf item = r)
    /\ (forall old, lookup k (productsOf (getOwn "cart" t)) = Some old ->
        quantityOf item = quantityOf old + r).
Proof.
  intros D G I P R.
  destruct (selectCart_good t G) as (aliased & c & Sel & Pc & L).
  destruct (addLineItem_typed o k p r _ I P R L) as (item & A & Li & Qn & Qo).
  unfold executeAddToCart. rewrite D. simpl truthy. simpl negb. cbv iota.
  rewrite Sel, Pc, A.
  assert (forallb lineItem
            (values (setProp k item (productsOf (getOwn "cart" t)))) = true) as L'.
  { now apply values_setProp_forallb. }
  rewrite (recompute_lineItems _ _ L'). simpl assignProp.
  eexists item, _. split; [reflexivity|]. split; [|split; [|auto]].
  - apply cartWritten_recomputed; [exact L'|apply getOwn_setProp_eq].
  - unfold productsOf. simpl spread.
    now rewrite getOwn_products_withAggregates, getOwn_setProp_eq.
Qed.

Lemma getOwn_obj_lookup k o x : getOwn k o = VObj x -> lookup k o = Some (VObj x).
Proof. unfold getOwn. destruct (lookup k o); [now intros ->|discriminate]. Qed.

(** The copy of the cart that the cart block works on. *)
Lemma readCart_obj st t c :
  dataLayer st = VObj t -> getOwn "cart" t = VObj c ->
  CartBlock.readCart st = VObj (cloneProps c).
Proof.
  intros D C. unfold CartBlock.readCart, getDataLayerProperty. rewrite D.
  simpl truthy. simpl negb. cbv iota.
  change (splitDot "" "cart") with ["cart"].
  change ("cart" =? "")%string with false. cbv iota.
  unfold walk. simpl truthy. simpl typeofObject. simpl andb. cbv iota.
  simpl spread. rewrite (getOwn_obj_lookup _ _ _ C). reflexivity.
Qed.

(** A write of the whole cart key on a ready container. *)
Lemma replaceCart_ready st t cart :
  dataLayerReady st = true -> dataLayer st = VObj t ->
  dataLayerReady (updateDataLayer (VObj [("cart", cart)]) false st) = true
  /\ dataLayer (updateDataLayer (VObj [("cart", cart)]) false st)
     = VObj (setProp "cart" cart t).
Proof.
  intros R D.
  rewrite updateDataLayer_ready; try reflexivity; try assumption;
    [|now rewrite D].
  simpl. rewrite dataLayerReady_persist, dataLayer_persist. simpl.
  rewrite D. split; [assumption|reflexivity].
Qed.

Lemma cartReady_replaceCart st t cart :
  dataLayerReady st = true -> dataLayer st = VObj t ->
  cartWritten cart = true ->
  cartReady (updateDataLayer (VObj [("cart", cart)]) false st) = true.
Proof.
  intros R D W. destruct (replaceCart_ready st t cart R D) as [R' D'].
  unfold cartReady. rewrite R', D', getOwn_setProp_eq. simpl.
  now apply cartGood_written.
Qed.

Lemma written_clone c ps :
  getOwn "products" c = VObj ps -> forallb lineItem (values ps) = true ->
  getOwn "products" (cloneProps c) = VObj (cloneProps ps)
  /\ forallb lineItem (values (cloneProps ps)) = true.
Proof.
  intros P L. split; [now apply getOwn_obj_clone|].
  rewrite (values_cloneProps ps L). now apply forallb_lineItem_clone.
Qed.

Lemma removeFromCart_initial productId st t :
  dataLayer st = VObj t -> getOwn "cart" t = VObj [] ->
  CartBlock.removeFromCart productId st = Throws st.
Proof.
  intros D C. unfold CartBlock.removeFromCart.
  now rewrite (readCart_obj st t [] D C).
Qed.

Lemma removeFromCart_written productId st t c ps :
  dataLayer st = VObj t -> getOwn "cart" t = VObj c ->
  getOwn "products" c = VObj ps -> forallb lineItem (values ps) = true ->
  (lookup productId ps = None -> CartBlock.removeFromCart productId st = Ok st)
  /\ (forall item, lookup productId ps = Some item ->
       exists cart',
         CartBlock.removeFromCart productId st
         = Ok (updateDataLayer (VObj [("cart", cart')]) false st)
         /\ cartWritten cart' = true
         /\ productsOf cart' = deleteProp productId (cloneProps ps)).
Proof.
  intros D C P L. destruct (written_clone c ps P L) as [P' L'].
  unfold CartBlock.removeFromCart. rewrite (readCart_obj st t c D C).
  unfold readProp. simpl getProp. simpl bindC. rewrite !P'.
  simpl getProp. simpl bindC. split.
  - intros N. unfold getOwn. now rewrite (lookup_cloneProps_None _ _ N).
  - intros item Li.
    pose proof (lookup_forallb lineItem _ _ _ L Li) as Hi.
    destruct (lineItem_inv item Hi) as (io & q & pr & -> & _).
    unfold getOwn at 1.
    rewrite (lookup_cloneProps _ _ _ Li) by discriminate.
    simpl truthy. cbv iota.
    assert (forallb lineItem (values (deleteProp productId (cloneProps ps))) = true)
      as Ld by now apply values_deleteProp_forallb.
    rewrite (recompute_lineItems _ _ Ld). simpl.
    eexists. split; [reflexivity|]. split.
    + apply cartWritten_recomputed; [exact Ld|apply getOwn_setProp_eq].
    + unfold productsOf. simpl spread.
      now rewrite getOwn_products_withAggregates, getOwn_setProp_eq.
Qed.

Lemma updateQuantity_below productId q st :
  q < 1 ->
  CartBlock.updateQuantity productId (Some q) st
  = CartBlock.removeFromCart productId st.
Proof.
  intros lt. unfold CartBlock.updateQuantity.
  now destruct (Z.ltb_spec q 1); [|lia].
Qed.

Lemma updateQuantity_initial productId q st t :
  dataLayer st = VObj t -> getOwn "cart" t = VObj [] ->
  CartBlock.updateQuantity productId (Some q) st = Throws st.
Proof.
  intros D C. unfold CartBlock.updateQuantity.
  destruct (q <? 1); [now apply (removeFromCart_initial productId st t)|].
  now rewrite (readCart_obj st t [] D C).
Qed.

Lemma updateQuantity_written productId q st t c ps :
  1 <= q ->
  dataLayer st = VObj t -> getOwn "cart" t = VObj c ->
  getOwn "products" c = VObj ps -> forallb lineItem (values ps) = true ->
  (lookup productId ps = None ->
   CartBlock.updateQuantity productId (Some q) st = Ok st)
  /\ (forall item, lookup productId ps = Some item ->
       exists cart' item',
         CartBlock.updateQuantity productId (Some q) st
         = Ok (updateDataLayer (VObj [("cart", cart')]) false st)
         /\ cartWritten cart' = true
         /\ productsOf cart' = setProp productId item' (cloneProps ps)
         /\ lineItem item' = true
         /\ quantityOf item' = q).
Proof.
  intros ge D C P L. destruct (written_clone c ps P L) as [P' L'].
  unfold CartBlock.updateQuantity.
  destruct (Z.ltb_spec q 1) as [lt|_]; [lia|].
  rewrite (readCart_obj st t c D C).
  unfold readProp. simpl getProp. simpl bindC. rewrite !P'.
  simpl getProp. simpl bindC. split.
  - intros N. unfold getOwn. now rewrite (lookup_cloneProps_None _ _ N).
  - intros item Li.
    pose proof (lookup_forallb lineItem _ _ _ L Li) as Hi.
    destruct (lineItem_clone item Hi) as (Hc & _).
    destruct (lineItem_inv _ Hc) as (io & q0 & pr & E & Q & Pr & S).
    assert (getOwn productId (cloneProps ps) = VObj io) as ->.
    { unfold getOwn. rewrite (lookup_cloneProps _ _ _ Li); [exact E|].
      intros ->. discriminate. }
    simpl truthy. cbv iota. simpl assignProp. simpl bindC. simpl getProp.
    rewrite (getOwn_setProp_ne "quantity" "price") by discriminate.
    rewrite Pr. simpl bindC.
    set (item' := VObj (setProp "total" (VNum (q * pr))
                          (setProp "subTotal" (VNum (q * pr))
                             (setProp "quantity" (VNum q) io)))).
    assert (lineItem item' = true) as Hi'.
    { apply (lineItem_intro _ q pr).
      - rewrite (getOwn_setProp_ne "total" "quantity") by discriminate.
        rewrite (getOwn_setProp_ne "subTotal" "quantity") by discriminate.
        apply getOwn_setProp_eq.
      - rewrite (getOwn_setProp_ne "total" "price") by discriminate.
        rewrite (getOwn_setProp_ne "subTotal" "price") by discriminate.
        rewrite (getOwn_setProp_ne "quantity" "price") by discriminate.
        exact Pr.
      - rewrite (getOwn_setProp_ne "total" "subTotal") by discriminate.
        rewrite getOwn_setProp_eq. f_equal. apply Z.mul_comm. }
    assert (forallb lineItem (values (setProp productId item' (cloneProps ps))) = true)
      as Ls by now apply values_setProp_forallb.
    rewrite (recompute_lineItems _ _ Ls). simpl.
    eexists _, item'. split; [reflexivity|]. split; [|split; [|split]].
    + apply cartWritten_recomputed; [exact Ls|apply getOwn_setProp_eq].
    + unfold productsOf. simpl spread.
      now rewrite getOwn_products_withAggregates, getOwn_setProp_eq.
    + exact Hi'.
    + unfold quantityOf, item'. simpl spread.
      rewrite (getOwn_setProp_ne "total" "quantity") by discriminate.
      rewrite (getOwn_setProp_ne "subTotal" "quantity") by discriminate.
      now rewrite getOwn_setProp_eq.
Qed.

Lemma cartReady_added st t cart' :
  dataLayerReady st = true -> cartWritten cart' = true ->
  cartReady (dispatchDataLayerEvent "updated"
               (persist "Could not persist cart"
                  (setDataLayer (VObj (setProp "cart" cart' t)) st))) = true.
Proof.
  intros R W. unfold cartReady. simpl.
  rewrite dataLayerReady_persist, dataLayer_persist. simpl.
  rewrite R, getOwn_setProp_eq. now apply cartGood_written.
Qed.

Lemma addToCart_invalid productData st :
  truthy productData = true ->
  truthy (getOwn "id" (spread productData)) = false ->
  addToCart productData st
  = Ok (consoleError "Invalid product data provided to addToCart" st).
Proof.
  intros T I. unfold addToCart. rewrite T. simpl negb. simpl orb.
  destruct productData; try discriminate; simpl in *.
  - reflexivity.
  - reflexivity.
  - unfold getOwn in I. destruct (lookup "id" (chars 0 s)) eqn:L;
      simpl; rewrite ?L; unfold getOwn; rewrite ?L; now rewrite ?I.
  - unfold getOwn in I. destruct (lookup "id" (indexed 0 elems)) eqn:L;
      simpl; unfold getOwn; rewrite ?L; now rewrite ?I.
  - now rewrite I.
Qed.

Lemma addToCart_ready o k st :
  getOwn "id" o = VStr k -> k <> "" ->
  dataLayerReady st = true -> truthy (dataLayer st) = true ->
  addToCart (VObj o) st = executeAddToCart (VObj o) st.
Proof.
  intros I ne R T. unfold addToCart. simpl. rewrite I, R, T. simpl.
  destruct (String.eqb_spec k ""); [contradiction|reflexivity].
Qed.

(** One operation on a ready container: it returns and leaves the container
ready with a good cart, or it is a removal or a change of quantity on the
initial cart [{}], which raises a TypeError and changes nothing. *)
Lemma perform_outcome op st :
cartReady st = true -> typedOp op = true ->
(exists st', perform op st = Ok st' /\ cartReady st' = true)
\/ (perform op st = Throws st /\ cartOf st = VObj [] /\ isAddition op = false).
Proof.
intros G Ty. destruct (cartReady_inv st G) as (R & t & D & Gc).
assert (getOwn "cart" t = VObj [] -> cartOf st = VObj []) as Emp.
{ intros E. unfold cartOf. now rewrite D. }
destruct op as [pd|productId|productId q]; simpl perform.
- left. destruct (typedProduct_inv pd Ty) as (o & p & r & -> & P & Rq & I).
  destruct (truthy (getOwn "id" o)) eqn:Tid.
  + destruct (I eq_refl) as [k Ik].
    assert (k <> "") as ne.
    { intros ->. rewrite Ik in Tid. discriminate. }
    rewrite (addToCart_ready o k st Ik ne R) by now rewrite D.
    destruct (executeAddToCart_ready st t o k p r D Gc Ik P Rq)
      as (item & cart' & E & W & _).
    rewrite E. eexists. split; [reflexivity|].
    now apply cartReady_added.
  + rewrite addToCart_invalid by (reflexivity || assumption).
    eexists. split; [reflexivity|exact G].
- destruct (cartGood_inv _ Gc) as [E|W].
  + right. rewrite (removeFromCart_initial productId st t D E). auto.
  + left. destruct (cartWritten_inv _ W) as (c & ps & C & P & L & _).
    destruct (removeFromCart_written productId st t c ps D C P L) as [N S].
    destruct (lookup productId ps) as [item|].
    * destruct (S item eq_refl) as (cart' & E & W' & _). rewrite E.
      eexists. split; [reflexivity|].
      now apply (cartReady_replaceCart st t).
    * rewrite (N eq_refl). eauto.
- destruct (cartGood_inv _ Gc) as [E|W].
  + right. rewrite (updateQuantity_initial productId q st t D E). auto.
  + left. destruct (cartWritten_inv _ W) as (c & ps & C & P & L & _).
    destruct (Z.lt_ge_cases q 1) as [lt|ge].
    * rewrite (updateQuantity_below productId q st lt).
      destruct (removeFromCart_written productId st t c ps D C P L) as [N S].
      destruct (lookup productId ps) as [item|].
      -- destruct (S item eq_refl) as (cart' & E & W' & _). rewrite E.
         eexists. split; [reflexivity|].
         now apply (cartReady_replaceCart st t).
      -- rewrite (N eq_refl). eauto.
    * destruct (updateQuantity_written productId q st t c ps ge D C P L) as [N S].
      destruct (lookup productId ps) as [item|].
      -- destruct (S item eq_refl) as (cart' & item' & E & W' & _).
         rewrite E. eexists. split; [reflexivity|].
         now apply (cartReady_replaceCart st t).
      -- rewrite (N eq_refl). eauto.
Qed.

Lemma perform_cartReady op st :
cartReady st = true -> typedOp op = true ->
exists st', after (perform op st) = Some st' /\ cartReady st' = true.
Proof.
intros G Ty.
destruct (perform_outcome op st G Ty) as [(st' & E & G')|(E & _ & _)];
  rewrite E; simpl; eauto.
Qed.


Lemma cartGood_aggregates cart : cartGood cart = true -> cartAggregates cart = true.
Proof.
  intros G. destruct (cartGood_inv _ G) as [->|W]; [reflexivity|].
  now apply cartWritten_aggregates.
Qed.





End CartOperations.




(** ** Validation *)

(** C7, as stated, fails on an array: [typeof [1] === "object"], so the
    write is applied, persisted and notified. *)
Lemma array_payload_not_dropped :
  DataLayer.isObject (VArr [VNum 1]) = false
  /\ ~ dropped exampleReady
         (DataLayer.updateDataLayer (VArr [VNum 1]) false exampleReady).
Proof.
  split; [reflexivity|]. intros (H & _). vm_compute in H. discriminate H.
Qed.

(** C7, amended.  A payload of [updateDataLayer] that is falsy or whose
    [typeof] is not "object" (every non-mapping except an array), in either
    merge mode and ready or not, and a product of [addToCart] that is falsy
    or whose id is falsy (missing, [null], [""]), is logged as an error and
    dropped: no change of the tree, nothing persisted, nothing queued, no
    notification. *)
Theorem invalid_input_dropped (st : DataLayer.State) :
  (forall P merge,
      DataLayer.isObject P = false -> isArray P = false ->
      dropped st (DataLayer.updateDataLayer P merge st))
  /\ (forall productData,
      truthy productData = false
      \/ truthy (getOwn "id" (spread productData)) = false ->
      exists st', DataLayer.addToCart productData st = DataLayer.Ok st'
                  /\ dropped st st').
Proof.
  assert (forall msg, dropped st (DataLayer.consoleError msg st)) as Dr.
  { intros msg. unfold dropped. simpl. repeat split. now exists msg. }
  split.
  - intros P merge notObj notArr.
    assert (negb (truthy P) || negb (typeofObject P) = true) as E.
    { unfold DataLayer.isObject in notObj. rewrite notArr in notObj. simpl in notObj.
      rewrite andb_true_r in notObj. rewrite <- negb_andb. now rewrite notObj. }
    unfold DataLayer.updateDataLayer. rewrite E. apply Dr.
  - intros productData [F|I].
    + unfold DataLayer.addToCart. rewrite F. simpl. eauto.
    + destruct (truthy productData) eqn:T.
      * rewrite (addToCart_invalid productData st T I). eauto.
      * unfold DataLayer.addToCart. rewrite T. simpl. eauto.
Qed.

(** ** Clearing *)

(** C5, as stated, fails on the in-memory tree: after [clearDataLayer()]
    the container still holds the tree, here with its cart of two tees. *)
Lemma clear_keeps_tree :
  DataLayer.dataLayer (DataLayer.clearDataLayer exampleWithTee)
  = DataLayer.dataLayer exampleWithTee
  /\ DataLayer.getDataLayerProperty (Some "cart.productCount")
       (DataLayer.clearDataLayer exampleWithTee) = VNum 2
  /\ DataLayer.getDataLayerProperty (Some "cart.products.tee.quantity")
       (DataLayer.clearDataLayer exampleWithTee) = VNum 2.
Proof. repeat split; vm_compute; reflexivity. Qed.

(** C5, amended.  [clearDataLayer()] empties both startup queues and
    removes the persisted record of the tree (snapshot and write
    timestamp); it leaves the in-memory tree as it is, and leaves every
    other stored key, in particular the checkout snapshot and its
    timestamp, unchanged, so that [loadCheckoutData()] returns what it
    returned before. *)
Theorem clear_effect (st : DataLayer.State) :
  let st' := DataLayer.clearDataLayer st in
  DataLayer.dataLayer st' = DataLayer.dataLayer st
  /\ DataLayer.dataLayerQueue st' = []
  /\ DataLayer.cartQueue st' = []
  /\ lookup DataLayer.STORAGE_KEY (DataLayer.localStorage st') = None
  /\ lookup DataLayer.STORAGE_TIMESTAMP_KEY (DataLayer.localStorage st') = None
  /\ (forall k,
        k <> DataLayer.STORAGE_KEY -> k <> DataLayer.STORAGE_TIMESTAMP_KEY ->
        lookup k (DataLayer.localStorage st') = lookup k (DataLayer.localStorage st))
  /\ lookup DataLayer.CHECKOUT_STORAGE_KEY (DataLayer.localStorage st')
     = lookup DataLayer.CHECKOUT_STORAGE_KEY (DataLayer.localStorage st)
  /\ lookup DataLayer.CHECKOUT_TIMESTAMP_KEY (DataLayer.localStorage st')
     = lookup DataLayer.CHECKOUT_TIMESTAMP_KEY (DataLayer.localStorage st)
  /\ fst (DataLayer.loadCheckoutData st') = fst (DataLayer.loadCheckoutData st).
Proof.
  assert (forall k,
             k <> DataLayer.STORAGE_KEY -> k <> DataLayer.STORAGE_TIMESTAMP_KEY ->
             lookup k (DataLayer.localStorage (DataLayer.clearDataLayer st))
             = lookup k (DataLayer.localStorage st)) as Frame.
  { intros k n1 n2. simpl.
    rewrite lookup_deleteProp_ne by congruence.
    now rewrite lookup_deleteProp_ne by congruence. }
  assert (lookup DataLayer.CHECKOUT_STORAGE_KEY
            (DataLayer.localStorage (DataLayer.clearDataLayer st))
          = lookup DataLayer.CHECKOUT_STORAGE_KEY (DataLayer.localStorage st)) as F1.
  { apply Frame; discriminate. }
  assert (lookup DataLayer.CHECKOUT_TIMESTAMP_KEY
            (DataLayer.localStorage (DataLayer.clearDataLayer st))
          = lookup DataLayer.CHECKOUT_TIMESTAMP_KEY (DataLayer.localStorage st)) as F2.
  { apply Frame; discriminate. }
  cbv zeta. repeat split; try assumption.
  - simpl. rewrite lookup_deleteProp_ne by discriminate.
    apply lookup_deleteProp_eq.
  - simpl. apply lookup_deleteProp_eq.
  - unfold DataLayer.loadCheckoutData. rewrite F1, F2.
    change (DataLayer.now (DataLayer.clearDataLayer st)) with (DataLayer.now st).
    destruct (lookup DataLayer.CHECKOUT_STORAGE_KEY (DataLayer.localStorage st))
      as [data|]; [|reflexivity].
    destruct (DataLayer.present (Some data)); [|reflexivity]. simpl negb. cbv iota.
    destruct (lookup DataLayer.CHECKOUT_TIMESTAMP_KEY (DataLayer.localStorage st))
      as [ts|].
    + destruct (DataLayer.present (Some ts)).
      * destruct (DataLayer.parseInt ts) as [n|].
        -- destruct (DataLayer.CHECKOUT_TTL <? DataLayer.now st - n); [reflexivity|].
           now destruct (DataLayer.jsonParse data).
        -- now destruct (DataLayer.jsonParse data).
      * now destruct (DataLayer.jsonParse data).
    + simpl. now destruct (DataLayer.jsonParse data).
Qed.

(** ** Startup from the persisted record *)

Section Startup.
Import DataLayer.


Lemma setProp_twice {A} k (v1 v2 : A) o :
  setProp k v2 (setProp k v1 o) = setProp k v2 o.
Proof.
  induction o as [|[k' v'] rest IH]; cbn [setProp].
  - now rewrite String.eqb_refl.
  - destruct (String.eqb_spec k k') as [->|ne]; cbn [setProp].
    + now rewrite String.eqb_refl.
    + destruct (String.eqb_spec k k'); [contradiction|now rewrite IH].
Qed.

(** The page section after the refresh from the document title. *)
Lemma refreshPage_mapping title t pg :
  orElse (getOwn "page" t) (VObj []) = VObj pg ->
  refreshPage title (VObj t)
  = Val (VObj (setProp "page"
                 (VObj (setProp "name" (VStr (toLowerCase title))
                          (setProp "title" (VStr title) pg))) t)).
Proof.
  unfold orElse, refreshPage, readProp. simpl getProp. simpl bindC.
  destruct (truthy (getOwn "page" t)) eqn:T.
  - intros E. simpl bindC. simpl getProp. rewrite E. reflexivity.
  - intros [= <-]. cbn [assignProp bindC getProp].
    rewrite getOwn_setProp_eq. cbn [assignProp bindC obj].
    now rewrite setProp_twice.
Qed.

Lemma finish_startup (savedPresent : bool) tree st1 :
  dataLayerQueue st1 = [] -> cartQueue st1 = [] -> accessorDefined st1 = false ->
  match defineAccessor
          (persist "Could not persist dataLayer" (setDataLayer tree st1)) with
  | Ok st3 =>
      match processCartQueue (processDataLayerQueue (setReady true st3)) with
      | Ok st5 =>
          Ok (setTimers
                (timers st5 ++ [if savedPresent then "restored" else "initialized"])%list
                st5)
      | r => r
      end
  | r => r
  end = Ok (started savedPresent tree st1).
Proof.
  intros Q C A. destruct st1; simpl in *; subst.
  unfold persist, defineAccessor, processDataLayerQueue, processCartQueue, started.
  simpl. destruct storageFull0; reflexivity.
Qed.

Lemma build_within_ttl st t ts pg :
  lookup STORAGE_KEY (localStorage st) = Some (SJson (VObj t)) ->
  lookup STORAGE_TIMESTAMP_KEY (localStorage st) = Some (SNum ts) ->
  dataLayerQueue st = [] -> cartQueue st = [] -> accessorDefined st = false ->
  now st - ts <= STORAGE_TTL ->
  orElse (getOwn "page" t) (VObj []) = VObj pg ->
  buildCustomDataLayer st
  = Ok (started true
          (VObj (setProp "page"
                   (VObj (setProp "name" (VStr (toLowerCase (documentTitle st)))
                            (setProp "title" (VStr (documentTitle st)) pg))) t))
          st).
Proof.
  intros S T Q C A le Pg.
  unfold buildCustomDataLayer, buildMain, checkSaved. rewrite S, T.
  cbn [present parseInt andb].
  destruct (Z.leb_spec (now st - ts) STORAGE_TTL) as [_|gt]; [|lia].
  cbn [jsonParse]. rewrite (refreshPage_mapping _ t pg Pg).
  now rewrite (finish_startup true _ st Q C A).
Qed.

End Startup.



(** ** The startup queues *)

Section Queues.
Import DataLayer.

Lemma buildMain_split st :
  buildMain st
  = bindOutcome (beforeCartQueue st)
      (fun st4 =>
         bindOutcome (processCartQueue st4)
           (fun st5 => Ok (setTimers (timers st5 ++ [startTag st])%list st5))).
Proof.
  unfold buildMain, beforeCartQueue, startTag.
  destruct (checkSaved st) as [isDataValid st1].
  destruct (if present (lookup STORAGE_KEY (localStorage st)) && isDataValid
            then _ else _) as [tree| |]; try reflexivity.
  destruct (refreshPage (documentTitle st) tree) as [tree1| |]; try reflexivity.
  destruct (defineAccessor _) as [st3|st3|]; try reflexivity.
  cbn [bindOutcome]. destruct (processCartQueue _); reflexivity.
Qed.

(** [executeAddToCart] neither reads nor writes the cart queue and the
    pending timers. *)
Lemma executeAddToCart_setCartQueue productData q st :
  executeAddToCart productData (setCartQueue q st)
  = mapOutcome (setCartQueue q) (executeAddToCart productData st).
Proof.
  unfold executeAddToCart. destruct st. cbn [dataLayer setCartQueue].
  destruct (negb (truthy dataLayer0)); [reflexivity|].
  destruct (selectCart dataLayer0) as [[aliased cart]| |]; try reflexivity.
  destruct cart; try reflexivity.
  destruct (addLineItem _ _); try reflexivity.
  destruct (recompute _ _).
  - destruct (assignProp _ _ _); try reflexivity.
    unfold persist. cbn. destruct storageFull0; reflexivity.
  - destruct aliased; [|reflexivity].
    destruct (assignProp _ _ _); reflexivity.
  - reflexivity.
Qed.

Lemma executeAddToCart_setTimers productData ts st :
  executeAddToCart productData (setTimers ts st)
  = mapOutcome (setTimers ts) (executeAddToCart productData st).
Proof.
  unfold executeAddToCart. destruct st. cbn [dataLayer setTimers].
  destruct (negb (truthy dataLayer0)); [reflexivity|].
  destruct (selectCart dataLayer0) as [[aliased cart]| |]; try reflexivity.
  destruct cart; try reflexivity.
  destruct (addLineItem _ _); try reflexivity.
  destruct (recompute _ _).
  - destruct (assignProp _ _ _); try reflexivity.
    unfold persist. cbn. destruct storageFull0; reflexivity.
  - destruct aliased; [|reflexivity].
    destruct (assignProp _ _ _); reflexivity.
  - reflexivity.
Qed.

(** What [executeAddToCart] preserves when it returns. *)
Lemma executeAddToCart_frame productData st st' :
  executeAddToCart productData st = Ok st' ->
  dataLayerReady st' = dataLayerReady st
  /\ timers st' = timers st
  /\ cartQueue st' = cartQueue st
  /\ (truthy (dataLayer st) = true -> truthy (dataLayer st') = true).
Proof.
  unfold executeAddToCart. destruct st. cbn [dataLayer].
  destruct (negb (truthy dataLayer0)).
  { intros [= <-]. cbn. auto. }
  destruct (selectCart dataLayer0) as [[aliased cart]| |]; try discriminate.
  destruct cart; try discriminate.
  destruct (addLineItem _ _); try discriminate.
  destruct (recompute _ _).
  - destruct (assignProp _ _ _) as [tree| |] eqn:A; try discriminate.
    intros [= <-]. unfold persist. cbn. destruct storageFull0; cbn.
    + repeat split. intros _. destruct dataLayer0; try discriminate.
      injection A as <-. reflexivity.
    + repeat split. intros _. destruct dataLayer0; try discriminate.
      injection A as <-. reflexivity.
  - destruct aliased; [|discriminate].
    destruct (assignProp _ _ _); discriminate.
  - discriminate.
Qed.

Lemma forEachCart_app q productData : forall st,
  forEachCart (q ++ [productData]) st
  = bindOutcome (forEachCart q st) (executeAddToCart productData).
Proof.
  induction q as [|x rest IH]; intros st; simpl.
  - now destruct (executeAddToCart productData st).
  - destruct (executeAddToCart x st); try reflexivity. apply IH.
Qed.

Lemma forEachCart_setCartQueue l q : forall st,
  forEachCart l (setCartQueue q st)
  = mapOutcome (setCartQueue q) (forEachCart l st).
Proof.
  induction l as [|x rest IH]; intros st; simpl; [reflexivity|].
  rewrite executeAddToCart_setCartQueue.
  destruct (executeAddToCart x st); simpl; try reflexivity. apply IH.
Qed.

Lemma forEachCart_frame l : forall st st',
  forEachCart l st = Ok st' ->
  dataLayerReady st' = dataLayerReady st
  /\ timers st' = timers st
  /\ cartQueue st' = cartQueue st
  /\ (truthy (dataLayer st) = true -> truthy (dataLayer st') = true).
Proof.
  induction l as [|x rest IH]; intros st st'; simpl.
  - intros [= <-]. auto.
  - destruct (executeAddToCart x st) as [s| |] eqn:E; try discriminate.
    intros H. destruct (executeAddToCart_frame _ _ _ E) as (R & T & C & Tr).
    destruct (IH _ _ H) as (R' & T' & C' & Tr').
    rewrite R', T', C', R, T, C. repeat split. auto.
Qed.

Lemma checkSaved_setCartQueue q st :
  checkSaved (setCartQueue q st)
  = (fst (checkSaved st), setCartQueue q (snd (checkSaved st))).
Proof.
  unfold checkSaved. destruct st. cbn [localStorage setCartQueue now].
  destruct (present _ && present _); [|reflexivity].
  destruct (lookup STORAGE_TIMESTAMP_KEY localStorage0) as [ts|]; [|reflexivity].
  destruct (parseInt ts) as [n|]; [|reflexivity].
  destruct (now0 - n <=? STORAGE_TTL); reflexivity.
Qed.

Lemma processDataLayerQueue_setCartQueue q st :
  processDataLayerQueue (setCartQueue q st)
  = setCartQueue q (processDataLayerQueue st).
Proof.
  unfold processDataLayerQueue. destruct st. cbn [dataLayerQueue setCartQueue].
  destruct (0 <? List.length dataLayerQueue0)%nat; [|reflexivity].
  unfold persist. cbn. destruct storageFull0; reflexivity.
Qed.

Lemma beforeCartQueue_setCartQueue q st :
  beforeCartQueue (setCartQueue q st)
  = mapOutcome (setCartQueue q) (beforeCartQueue st).
Proof.
  unfold beforeCartQueue. rewrite checkSaved_setCartQueue.
  destruct (checkSaved st) as [isDataValid st1]. cbn [fst snd].
  change (localStorage (setCartQueue q st)) with (localStorage st).
  change (documentTitle (setCartQueue q st)) with (documentTitle st).
  destruct (if present (lookup STORAGE_KEY (localStorage st)) && isDataValid
            then _ else _) as [tree| |]; try reflexivity.
  destruct (refreshPage (documentTitle st) tree) as [tree1| |]; try reflexivity.
  assert (forall s, persist "Could not persist dataLayer" (setDataLayer tree1 (setCartQueue q s))
                    = setCartQueue q (persist "Could not persist dataLayer" (setDataLayer tree1 s))) as Pc.
  { intros s. destruct s. unfold persist. cbn. destruct storageFull0; reflexivity. }
  rewrite Pc. unfold defineAccessor.
  change (accessorDefined (setCartQueue q ?s)) with (accessorDefined s).
  destruct (accessorDefined _); [reflexivity|].
  cbn [mapOutcome]. f_equal.
  rewrite <- processDataLayerQueue_setCartQueue. reflexivity.
Qed.

Lemma applyUpdate_truthy tree updates merge :
  truthy tree = true -> truthy (applyUpdate tree updates merge) = true.
Proof.
  intros T. unfold applyUpdate. destruct merge; [|reflexivity].
  destruct updates; cbn [deepMerge]; rewrite T; cbn [negb];
    match goal with
    | |- context [if ?b then _ else _] => destruct b; reflexivity
    end.
Qed.

Lemma fold_applyUpdate_truthy queue : forall tree,
  truthy tree = true ->
  truthy (fold_left (fun t e => applyUpdate t (fst e) (snd e)) queue tree) = true.
Proof.
  induction queue as [|e rest IH]; intros tree T; simpl; [exact T|].
  apply IH. now apply applyUpdate_truthy.
Qed.

Lemma processDataLayerQueue_frame st :
  dataLayerReady (processDataLayerQueue st) = dataLayerReady st
  /\ cartQueue (processDataLayerQueue st) = cartQueue st
  /\ (truthy (dataLayer st) = true ->
      truthy (dataLayer (processDataLayerQueue st)) = true).
Proof.
  unfold processDataLayerQueue.
  destruct (0 <? List.length (dataLayerQueue st))%nat; [|auto].
  destruct st. unfold persist. cbn. destruct storageFull0; cbn;
    repeat split; apply fold_applyUpdate_truthy.
Qed.

Lemma refreshPage_truthy title tree tree1 :
  refreshPage title tree = Val tree1 -> truthy tree1 = true.
Proof.
  unfold refreshPage. destruct (readProp tree "page") as [page| |]; try discriminate.
  cbn [bindC]. destruct (if truthy page then _ else _) as [t1| |]; try discriminate.
  cbn [bindC]. destruct (readProp t1 "page") as [p1| |]; try discriminate.
  cbn [bindC]. destruct (assignProp p1 _ _) as [p2| |]; try discriminate.
  cbn [bindC]. destruct (assignProp p2 _ _) as [p3| |]; try discriminate.
  cbn [bindC]. destruct t1; try discriminate. now intros [= <-].
Qed.

Lemma checkSaved_cartQueue st : cartQueue (snd (checkSaved st)) = cartQueue st.
Proof.
  unfold checkSaved.
  destruct (present _ && present _); [|reflexivity].
  destruct (lookup STORAGE_TIMESTAMP_KEY (localStorage st)) as [ts|]; [|reflexivity].
  destruct (parseInt ts) as [n|]; [|reflexivity].
  destruct (now st - n <=? STORAGE_TTL); reflexivity.
Qed.

Lemma beforeCartQueue_frame st st4 :
  beforeCartQueue st = Ok st4 ->
  dataLayerReady st4 = true
  /\ truthy (dataLayer st4) = true
  /\ cartQueue st4 = cartQueue st.
Proof.
  unfold beforeCartQueue. pose proof (checkSaved_cartQueue st) as Cq.
  destruct (checkSaved st) as [isDataValid st1]. cbn [snd] in Cq.
  destruct (if present (lookup STORAGE_KEY (localStorage st)) && isDataValid
            then _ else _) as [tree| |]; try discriminate.
  destruct (refreshPage (documentTitle st) tree) as [tree1| |] eqn:Rp;
    try discriminate.
  unfold defineAccessor. destruct (accessorDefined _); [discriminate|].
  intros [= <-].
  destruct (processDataLayerQueue_frame
              (setReady true
                 (setAccessorDefined true
                    (persist "Could not persist dataLayer" (setDataLayer tree1 st1)))))
    as (R & C & T).
  rewrite R, C. split; [reflexivity|]. split.
  - apply T. cbn. rewrite dataLayer_persist. cbn.
    exact (refreshPage_truthy _ _ _ Rp).
  - rewrite <- Cq. destruct st1. unfold persist. cbn.
    now destruct storageFull0.
Qed.

Lemma setCartQueue_idem q q' st :
  setCartQueue q (setCartQueue q' st) = setCartQueue q st.
Proof. now destruct st. Qed.

Lemma setCartQueue_same st : setCartQueue (cartQueue st) st = st.
Proof. now destruct st. Qed.

(** The drain of the cart queue, from a state whose queue is [q]. *)
Lemma processCartQueue_drain st :
  processCartQueue st
  = bindOutcome (forEachCart (cartQueue st) st) (fun s => Ok (setCartQueue [] s)).
Proof.
  unfold processCartQueue. destruct (cartQueue st) as [|x rest] eqn:Q.
  - simpl. f_equal. rewrite <- Q. symmetry. apply setCartQueue_same.
  - cbn [List.length Nat.ltb Nat.leb]. unfold bindOutcome.
    now destruct (forEachCart (x :: rest) st).
Qed.

Lemma productId_spread productData :
  truthy productData = true ->
  match getProp productData "id" with Some id => id | None => VUndef end
  = getOwn "id" (spread productData).
Proof. destruct productData; try discriminate; reflexivity. Qed.

Lemma addToCart_valid productData st :
  truthy productData = true ->
  truthy (getOwn "id" (spread productData)) = true ->
  addToCart productData st
  = if negb (dataLayerReady st) || negb (truthy (dataLayer st))
    then Ok (setCartQueue (cartQueue st ++ [productData]) st)
    else executeAddToCart productData st.
Proof.
  intros T I. unfold addToCart.
  now rewrite (productId_spread _ T), T, I.
Qed.

(** An addition queued before startup and drained by it, against the same
    addition issued after startup. *)
Lemma queued_add_same_state st productData s1 :
  truthy productData = true ->
  truthy (getOwn "id" (spread productData)) = true ->
  buildMain (setCartQueue (cartQueue st ++ [productData]) st) = Ok s1 ->
  exists s0, buildMain st = Ok s0 /\ addToCart productData s0 = Ok s1.
Proof.
  intros T I. rewrite !buildMain_split, beforeCartQueue_setCartQueue.
  destruct (beforeCartQueue st) as [st4| |] eqn:B; try discriminate.
  destruct (beforeCartQueue_frame st st4 B) as (R4 & T4 & Q4).
  cbn [mapOutcome bindOutcome]. rewrite !processCartQueue_drain.
  cbn [cartQueue setCartQueue]. rewrite Q4.
  replace (cartQueue (setCartQueue (cartQueue st ++ [productData]) st4))
    with (cartQueue st ++ [productData])%list by now destruct st4.
  rewrite forEachCart_setCartQueue, forEachCart_app.
  destruct (forEachCart (cartQueue st) st4) as [sb| |] eqn:F; try discriminate.
  destruct (forEachCart_frame _ _ _ F) as (Rb & Tb & Qb & Trb).
  cbn [bindOutcome mapOutcome].
  destruct (executeAddToCart productData sb) as [sc| |] eqn:E; try discriminate.
  destruct (executeAddToCart_frame _ _ _ E) as (Rc & Tc & Qc & Trc).
  cbn [bindOutcome mapOutcome]. intros [= <-].
  eexists. split; [reflexivity|].
  rewrite (addToCart_valid _ _ T I).
  replace (dataLayerReady (setTimers _ (setCartQueue [] sb))) with true
    by (destruct sb; cbn in *; congruence).
  replace (dataLayer (setTimers (timers (setCartQueue [] sb) ++ [startTag st])
                        (setCartQueue [] sb)))
    with (dataLayer sb) by now destruct sb.
  rewrite (Trb T4). cbn [negb orb].
  rewrite executeAddToCart_setTimers, executeAddToCart_setCartQueue, E.
  cbn [mapOutcome]. f_equal.
  rewrite setCartQueue_idem.
  replace (startTag (setCartQueue (cartQueue st ++ [productData]) st))
    with (startTag st) by now destruct st.
  destruct sb, sc. cbn in *. now subst.
Qed.

Lemma updatedCount_snoc log v :
  updatedCount (log ++ [("updated", v)]) = S (updatedCount log).
Proof.
  unfold updatedCount. rewrite filter_app, length_app. simpl. lia.
Qed.

(** Each [executeAddToCart] that returns on a container holding a tree
    dispatches one notification of its own. *)
Lemma executeAddToCart_dispatches productData st st' :
  truthy (dataLayer st) = true ->
  executeAddToCart productData st = Ok st' ->
  dispatched st' = (dispatched st ++ [("updated", jsonClone (dataLayer st'))])%list.
Proof.
  intros T. unfold executeAddToCart. rewrite T. cbn [negb].
  destruct (selectCart (dataLayer st)) as [[aliased cart]| |]; try discriminate.
  destruct cart; try discriminate.
  destruct (addLineItem _ _); try discriminate.
  destruct (recompute _ _).
  - destruct (assignProp _ _ _) as [tree| |]; try discriminate.
    intros [= <-]. destruct st. unfold persist. cbn.
    destruct storageFull0; reflexivity.
  - destruct aliased; [|discriminate].
    destruct (assignProp _ _ _); discriminate.
  - discriminate.
Qed.

Lemma forEachCart_dispatches queue : forall st st',
  truthy (dataLayer st) = true ->
  forEachCart queue st = Ok st' ->
  updatedCount (dispatched st')
  = (updatedCount (dispatched st) + List.length queue)%nat.
Proof.
  induction queue as [|x rest IH]; intros st st' T; simpl.
  - intros [= <-]. lia.
  - destruct (executeAddToCart x st) as [s| |] eqn:E; try discriminate.
    intros F. destruct (executeAddToCart_frame _ _ _ E) as (_ & _ & _ & Tr).
    rewrite (IH s st' (Tr T) F).
    rewrite (executeAddToCart_dispatches x st s T E), updatedCount_snoc. lia.
Qed.

Lemma validProduct_inv productData :
  validProduct productData = true ->
  exists o k p r,
    productData = VObj o /\ getOwn "id" o = VStr k /\ k <> ""
    /\ getOwn "price" o = VNum p /\ requestedQuantity productData = VNum r.
Proof.
  unfold validProduct. intros H. apply andb_prop in H as [Ty I].
  destruct (typedProduct_inv _ Ty) as (o & p & r & -> & P & Rq & K).
  simpl spread in I. destruct (K I) as [k Ik].
  exists o, k, p, r. repeat split; auto.
  intros ->. rewrite Ik in I. discriminate.
Qed.

(** The drain of the cart queue on a ready container: it returns, and
    does what the same additions issued one by one do. *)
Lemma forEachCart_ready queue : forall st,
  cartReady st = true -> forallb validProduct queue = true ->
  exists st',
    forEachCart queue st = Ok st' /\ issueAll queue st = Ok st'
    /\ cartReady st' = true.
Proof.
  induction queue as [|x rest IH]; intros st G V; simpl.
  - eauto.
  - simpl in V. apply andb_prop in V as [Vx Vr].
    destruct (validProduct_inv x Vx) as (o & k & p & r & -> & I & ne & P & Rq).
    destruct (cartReady_inv st G) as (R & t & D & Gc).
    destruct (executeAddToCart_ready st t o k p r D Gc I P Rq)
      as (item & cart' & E & W & _).
    rewrite (addToCart_ready o k st I ne R) by now rewrite D.
    rewrite E. cbn [bindOutcome].
    apply IH; [|exact Vr]. now apply cartReady_added.
Qed.

Lemma cartReady_setCartQueue q st : cartReady (setCartQueue q st) = cartReady st.
Proof. now destruct st. Qed.

Lemma issueAll_setCartQueue queue q : forall st,
  dataLayerReady st = true -> truthy (dataLayer st) = true ->
  forallb validProduct queue = true ->
  issueAll queue (setCartQueue q st) = mapOutcome (setCartQueue q) (forEachCart queue st).
Proof.
  induction queue as [|x rest IH]; intros st R T V; simpl; [reflexivity|].
  simpl in V. apply andb_prop in V as [Vx Vr].
  destruct (validProduct_inv x Vx) as (o & k & p & r & -> & I & ne & _).
  rewrite (addToCart_ready o k _ I ne) by now destruct st.
  rewrite executeAddToCart_setCartQueue.
  destruct (executeAddToCart (VObj o) st) as [s| |] eqn:E; try reflexivity.
  destruct (executeAddToCart_frame _ _ _ E) as (Rs & _ & _ & Ts).
  cbn [mapOutcome bindOutcome]. apply IH; [congruence|auto|exact Vr].
Qed.

(** The writes of a queue, drained or issued one by one on a ready
    container, build the same tree. *)
Lemma issueUpdates_tree queue : forall st,
  dataLayerReady st = true -> truthy (dataLayer st) = true ->
  forallb (fun e => validUpdate (fst e)) queue = true ->
  dataLayer (issueUpdates queue st)
  = fold_left (fun t e => applyUpdate t (fst e) (snd e)) queue (dataLayer st).
Proof.
  unfold issueUpdates.
  induction queue as [|[u m] rest IH]; intros st R T V; simpl; [reflexivity|].
  simpl in V. apply andb_prop in V as [Vu Vr].
  unfold validUpdate in Vu. apply andb_prop in Vu as [Tu Ou].
  rewrite IH; [|
    rewrite (updateDataLayer_ready u m st Tu Ou R T); simpl;
    now rewrite dataLayerReady_persist |
    rewrite (dataLayer_updateDataLayer_ready u m st Tu Ou R T);
    now apply applyUpdate_truthy | exact Vr].
  now rewrite (dataLayer_updateDataLayer_ready u m st Tu Ou R T).
Qed.

(** The drain of the generic queue. *)
Lemma processDataLayerQueue_drain st :
  dataLayerQueue st <> [] ->
  dataLayer (processDataLayerQueue st)
  = fold_left (fun t e => applyUpdate t (fst e) (snd e))
      (dataLayerQueue st) (dataLayer st)
  /\ dataLayerQueue (processDataLayerQueue st) = []
  /\ dispatched (processDataLayerQueue st)
     = (dispatched st
        ++ [("updated", jsonClone (dataLayer (processDataLayerQueue st)))])%list.
Proof.
  intros ne. unfold processDataLayerQueue.
  destruct (dataLayerQueue st) as [|e rest] eqn:Q; [contradiction|].
  cbn [List.length Nat.ltb Nat.leb]. cbv iota.
  destruct st. unfold persist. cbn in *. subst.
  destruct storageFull0; cbn; auto.
Qed.
End Queues.

Section FreshStart.
Import DataLayer.

(** A page load with no stored snapshot, an empty generic queue and the
    accessor not yet defined: the startup reaches the drain of the cart
    queue with the default tree, whose cart is [{}]. *)
Lemma beforeCartQueue_fresh st :
  lookup STORAGE_KEY (localStorage st) = None ->
  dataLayerQueue st = [] -> accessorDefined st = false ->
  exists st4,
    beforeCartQueue st = Ok st4 /\ cartReady st4 = true
    /\ dispatched st4 = dispatched st.
Proof.
  intros S Q A. unfold beforeCartQueue, checkSaved. rewrite S.
  cbn [present andb].
  rewrite (refreshPage_mapping _ (spread initialDataLayer)
             [("name", VStr "home"); ("title", VStr "HOME")] eq_refl).
  unfold defineAccessor.
  replace (accessorDefined (persist _ _)) with false
    by (destruct st; unfold persist; cbn in *; now destruct storageFull0).
  eexists. split; [reflexivity|].
  unfold processDataLayerQueue.
  replace (dataLayerQueue (setReady true _)) with (@nil (value * bool))
    by (destruct st; unfold persist; cbn in *; now destruct storageFull0).
  cbn [List.length Nat.ltb Nat.leb]. cbv iota. split.
  - unfold cartReady. cbn. rewrite dataLayer_persist. reflexivity.
  - destruct st; unfold persist; cbn; now destruct storageFull0.
Qed.
End FreshStart.

(** C3, as stated, fails on the cart queue: two additions queued before
    startup are drained with two "updated" notifications, one per entry. *)
Lemma cart_queue_notifies_per_entry :
  DataLayer.cartQueue exampleQueued = [exampleTee; exampleCap]
  /\ match DataLayer.buildCustomDataLayer exampleQueued with
     | DataLayer.Ok st' =>
         DataLayer.cartQueue st' = []
         /\ updatedCount (DataLayer.dispatched st') = 2%nat
     | _ => False
     end.
Proof. split; [reflexivity|]. vm_compute. split; reflexivity. Qed.

(** C3, amended.  (1) The drain of a non-empty generic queue applies the
    entries in arrival order with the merge of [updateDataLayer] and emits
    one "updated" notification for the whole drain; the tree is the one
    that the same writes issued one by one after readiness build.  (2) The
    drain of the cart queue on a ready container runs [executeAddToCart] on
    the entries in arrival order, reaches the state that the same additions
    issued one by one after readiness reach, and emits one "updated"
    notification per entry.  (3) When startup completes through its [try]
    block, an addition queued before readiness leaves the state that the
    same addition issued after readiness leaves.  (4) On a page load with
    nothing stored and empty queues, an addition issued before readiness is
    queued, startup completes, the final state is the one of the addition
    issued after startup, with one "updated" notification. *)
Theorem queue_drains :
  (forall st,
      DataLayer.dataLayerQueue st <> [] ->
      let st' := DataLayer.processDataLayerQueue st in
      DataLayer.dataLayer st'
      = fold_left (fun t e => DataLayer.applyUpdate t (fst e) (snd e))
          (DataLayer.dataLayerQueue st) (DataLayer.dataLayer st)
      /\ DataLayer.dataLayerQueue st' = []
      /\ DataLayer.dispatched st'
         = (DataLayer.dispatched st
            ++ [("updated", jsonClone (DataLayer.dataLayer st'))])%list
      /\ (DataLayer.dataLayerReady st = true ->
          truthy (DataLayer.dataLayer st) = true ->
          forallb (fun e => validUpdate (fst e)) (DataLayer.dataLayerQueue st) = true ->
          DataLayer.dataLayer st'
          = DataLayer.dataLayer (issueUpdates (DataLayer.dataLayerQueue st) st)))
  /\ (forall st,
      cartReady st = true ->
      forallb validProduct (DataLayer.cartQueue st) = true ->
      exists st',
        DataLayer.processCartQueue st = DataLayer.Ok st'
        /\ DataLayer.cartQueue st' = []
        /\ issueAll (DataLayer.cartQueue st) (DataLayer.setCartQueue [] st)
           = DataLayer.Ok st'
        /\ updatedCount (DataLayer.dispatched st')
           = (updatedCount (DataLayer.dispatched st)
              + List.length (DataLayer.cartQueue st))%nat)
  /\ (forall st productData s1,
      truthy productData = true ->
      truthy (getOwn "id" (spread productData)) = true ->
      DataLayer.buildMain
        (DataLayer.setCartQueue (DataLayer.cartQueue st ++ [productData]) st)
      = DataLayer.Ok s1 ->
      exists s0,
        DataLayer.buildCustomDataLayer st = DataLayer.Ok s0
        /\ DataLayer.addToCart productData s0 = DataLayer.Ok s1)
  /\ (forall st productData,
      DataLayer.dataLayerReady st = false ->
      lookup DataLayer.STORAGE_KEY (DataLayer.localStorage st) = None ->
      DataLayer.dataLayerQueue st = [] ->
      DataLayer.cartQueue st = [] ->
      DataLayer.accessorDefined st = false ->
      validProduct productData = true ->
      exists queued s0 s1,
        DataLayer.addToCart productData st = DataLayer.Ok queued
        /\ DataLayer.cartQueue queued = [productData]
        /\ DataLayer.buildCustomDataLayer queued = DataLayer.Ok s1
        /\ DataLayer.buildCustomDataLayer st = DataLayer.Ok s0
        /\ DataLayer.addToCart productData s0 = DataLayer.Ok s1
        /\ updatedCount (DataLayer.dispatched s1)
           = S (updatedCount (DataLayer.dispatched st))).
Proof.
  split; [|split; [|split]].
  - intros st ne st'. destruct (processDataLayerQueue_drain st ne) as (T & Q & D).
    repeat split; try assumption.
    intros R Tr V. unfold st'. rewrite T. symmetry.
    now apply issueUpdates_tree.
  - intros st G V. destruct (cartReady_inv st G) as (R & t & D & _).
    destruct (forEachCart_ready _ st G V) as (sb & F & _ & _).
    rewrite processCartQueue_drain, F. cbn [bindOutcome].
    exists (DataLayer.setCartQueue [] sb). split; [reflexivity|].
    split; [now destruct sb|]. split.
    + rewrite issueAll_setCartQueue, F; try assumption; [reflexivity|].
      now rewrite D.
    + replace (DataLayer.dispatched (DataLayer.setCartQueue [] sb))
        with (DataLayer.dispatched sb) by now destruct sb.
      apply (forEachCart_dispatches _ st sb); [now rewrite D|exact F].
  - intros st productData s1 T I B.
    destruct (queued_add_same_state st productData s1 T I B) as (s0 & B0 & A0).
    exists s0. split; [|exact A0]. unfold DataLayer.buildCustomDataLayer.
    now rewrite B0.
  - intros st productData R Sk Q C A V.
    destruct (validProduct_inv _ V) as (o & k & p & r & -> & I & ne & P & Rq).
    assert (truthy (getOwn "id" (spread (VObj o))) = true) as Tid.
    { simpl. rewrite I. simpl. now destruct (String.eqb_spec k ""). }
    set (queued := DataLayer.setCartQueue [VObj o] st).
    assert (DataLayer.addToCart (VObj o) st = DataLayer.Ok queued) as Aq.
    { rewrite (addToCart_valid (VObj o) st eq_refl Tid), R, C. reflexivity. }
    destruct (beforeCartQueue_fresh st Sk Q A) as (st4 & B4 & G4 & D4).
    destruct (cartReady_inv st4 G4) as (R4 & t4 & E4 & Gc4).
    destruct (executeAddToCart_ready st4 t4 o k p r E4 Gc4 I P Rq)
      as (item & cart' & E & _).
    assert (exists s1, DataLayer.buildMain queued = DataLayer.Ok s1
                       /\ updatedCount (DataLayer.dispatched s1)
                          = S (updatedCount (DataLayer.dispatched st))) as (s1 & B1 & U1).
    { rewrite buildMain_split. unfold queued.
      rewrite beforeCartQueue_setCartQueue, B4. cbn [mapOutcome bindOutcome].
      rewrite processCartQueue_drain.
      replace (DataLayer.cartQueue (DataLayer.setCartQueue [VObj o] st4))
        with [VObj o] by now destruct st4.
      cbn [DataLayer.forEachCart].
      rewrite executeAddToCart_setCartQueue, E. cbn [mapOutcome bindOutcome].
      eexists. split; [reflexivity|].
      cbn. rewrite <- D4.
      destruct st4. unfold DataLayer.persist. cbn.
      destruct storageFull; cbn; apply updatedCount_snoc. }
    exists queued, (match DataLayer.buildCustomDataLayer st with
                    | DataLayer.Ok s0 => s0 | _ => st end), s1.
    assert (DataLayer.buildMain
              (DataLayer.setCartQueue (DataLayer.cartQueue st ++ [VObj o]) st)
            = DataLayer.Ok s1) as B1'.
    { rewrite C. exact B1. }
    destruct (queued_add_same_state st (VObj o) s1 eq_refl Tid B1')
      as (s0 & B0 & A0).
    unfold DataLayer.buildCustomDataLayer. rewrite B1, B0.
    repeat split; assumption.
Qed.

(** ** Trigger rules *)

Section Rules.
Import CustomEvents.
Variable regexTest : string -> string -> option bool.







End Rules.




(** ** Deferred default actions *)

Section Timers.
Import CustomEvents.

Lemma act_plain src w a :
  (forall delay cb, a <> SetTimeout delay cb) ->
  act src w a
  = mkWorld (clock w) (nextTimer w) (pending w)
      (performed w ++ [mkEntry (clock w) src a])%list.
Proof.
  destruct a; intros H; try reflexivity. exfalso. now apply (H delay callback0).
Qed.

Lemma action_cases (a : action) :
  (exists delay cb, a = SetTimeout delay cb)
  \/ (forall delay cb, a <> SetTimeout delay cb).
Proof. destruct a; try (right; intros; discriminate). left. eauto. Qed.

(** What a list of actions does to the page. *)
Lemma run_effect src acts : forall w,
  exists timers entries,
    run src acts w
    = mkWorld (clock w) (nextTimer w + List.length timers)
        (pending w ++ timers) (performed w ++ entries)
    /\ Forall (fun tm => (nextTimer w <= timerId tm)%nat
                         /\ (timerId tm < nextTimer w + List.length timers)%nat)
         timers
    /\ Forall (fun e => time e = clock w /\ source e = src /\ In (done e) acts)
         entries.
Proof.
  unfold run. induction acts as [|a rest IH]; intros w.
  - exists [], []. simpl. rewrite !app_nil_r, Nat.add_0_r.
    split; [now destruct w|]. split; constructor.
  - simpl fold_left.
    destruct (IH (act src w a)) as (timers & entries & E & Ft & Fe).
    assert (clock (act src w a) = clock w) as Ck by now destruct a.
    assert (Forall (fun e => time e = clock w /\ source e = src
                             /\ In (done e) (a :: rest)) entries) as Fe'.
    { eapply Forall_impl; [|exact Fe].
      intros e (T & S & I). rewrite Ck in T. repeat split; auto. now right. }
    rewrite E, Ck.
    destruct (action_cases a) as [(delay & cb & ->)|Plain].
    + simpl in *.
      exists (mkTimer (nextTimer w) (clock w + Z.max 0 delay) cb :: timers), entries.
      split; [|split; [|exact Fe']].
      * simpl List.length. f_equal; [lia|now rewrite <- app_assoc].
      * constructor; [simpl; lia|].
        eapply Forall_impl; [|exact Ft]. intros tm. simpl. lia.
    + rewrite (act_plain src w a Plain) in *. simpl in *.
      exists timers, (mkEntry (clock w) src a :: entries).
      split; [|split; [exact Ft|]].
      * f_equal. now rewrite <- app_assoc.
      * constructor; [simpl; repeat split; now left|exact Fe'].
Qed.

(** Identifiers stay issued in order along the life of the page. *)
Lemma issued_run src acts w :
  issued w ->
  match src with Some i => (i < nextTimer w)%nat | None => True end ->
  issued (run src acts w).
Proof.
  intros [Ids Srcs] Hsrc.
  destruct (run_effect src acts w) as (timers & entries & R & Ft & Fe).
  rewrite R. split; simpl.
  - apply Forall_app. split.
    + eapply Forall_impl; [|exact Ids]. intros tm. simpl. lia.
    + eapply Forall_impl; [|exact Ft]. intros tm. simpl. lia.
  - apply Forall_app. split.
    + eapply Forall_impl; [|exact Srcs]. intros e. cbv beta.
      destruct (source e); [lia|trivial].
    + eapply Forall_impl; [|exact Fe]. intros e (_ & -> & _).
      destruct src; [lia|trivial].
Qed.

Lemma issued_step w w' : issued w -> step w w' -> issued w'.
Proof.
  intros [Ids Srcs] St. destruct St as [w t Hle|w before tm rest E Hle].
  - split; assumption.
  - rewrite E in Ids. rewrite Forall_app in Ids. destruct Ids as [Ib Ir].
    inversion Ir as [|? ? Itm Irest]; subst.
    apply issued_run; [|exact Itm].
    split; [apply Forall_app; auto|exact Srcs].
Qed.

Lemma issued_steps w w' : issued w -> steps w w' -> issued w'.
Proof.
  intros I S. induction S as [w|w1 w2 w3 S IH St]; [exact I|].
  exact (issued_step _ _ (IH I) St).
Qed.









End Timers.


(** ** Instances *)

Lemma deep_merge_write_witness :
  DataLayer.dataLayerReady exampleReady = true
  /\ DataLayer.isObject examplePayload = true
  /\ wellFormed examplePayload = true
  /\ protoFree examplePayload = true
  /\ valueAt (DataLayer.dataLayer
                (DataLayer.updateDataLayer examplePayload true exampleReady))
       ["page"; "title"] = Some VNull.
Proof.
  split; [reflexivity|]. split; [reflexivity|]. split; [reflexivity|].
  split; [reflexivity|].
  refine (proj1 (proj2 (deep_merge_write exampleReady
                          (spread (DataLayer.dataLayer exampleReady))
                          examplePayload eq_refl eq_refl eq_refl eq_refl eq_refl))
            ["page"; "title"] VNull _ eq_refl eq_refl).
  discriminate.
Defined.


Lemma queue_drains_witness :
  validProduct exampleTee = true
  /\ exists queued s0 s1,
       DataLayer.addToCart exampleTee exampleBoot = DataLayer.Ok queued
       /\ DataLayer.cartQueue queued = [exampleTee]
       /\ DataLayer.buildCustomDataLayer queued = DataLayer.Ok s1
       /\ DataLayer.buildCustomDataLayer exampleBoot = DataLayer.Ok s0
       /\ DataLayer.addToCart exampleTee s0 = DataLayer.Ok s1
       /\ updatedCount (DataLayer.dispatched s1)
          = S (updatedCount (DataLayer.dispatched exampleBoot)).
Proof.
  split; [reflexivity|].
  exact (proj2 (proj2 (proj2 queue_drains)) exampleBoot exampleTee
           eq_refl eq_refl eq_refl eq_refl eq_refl eq_refl).
Defined.



Lemma invalid_input_witness :
  DataLayer.isObject (VStr "cart") = false
  /\ isArray (VStr "cart") = false
  /\ dropped exampleReady (DataLayer.updateDataLayer (VStr "cart") true exampleReady)
  /\ exists st',
       DataLayer.addToCart (VObj [("name", VStr "Tee")]) exampleReady
       = DataLayer.Ok st'
       /\ dropped exampleReady st'.
Proof.
  split; [reflexivity|]. split; [reflexivity|]. split.
  - exact (proj1 (invalid_input_dropped exampleReady) (VStr "cart") true
             eq_refl eq_refl).
  - exact (proj2 (invalid_input_dropped exampleReady)
             (VObj [("name", VStr "Tee")]) (or_intror eq_refl)).
Defined.




(** * Further properties

    Properties of the functions around those above: the two merge modes,
    reads by path, the checkout record, startup on a damaged record, the
    cart arithmetic, the rule cache and the click listeners. *)

(** ** Writes *)

Section Writes.
Import DataLayer.

Lemma deepMerge_not_mapping t source :
  isObject source = false -> deepMerge (VObj t) source = VObj t.
Proof.
  destruct source; intros H; try discriminate H;
    cbn [deepMerge truthy negb spread];
    try match goal with |- (if ?c then _ else _) = _ => destruct c end;
    reflexivity.
Qed.

(** A key that holds a value other than [undefined] holds one after a run
    of assignments that assign no [undefined] to it. *)
Lemma lookup_fold_setProp_defined {B : Type} (g : string * B -> value)
    (s : list (string * B)) : forall (o : props) k,
  (forall kv, In kv s -> fst kv = k -> g kv <> VUndef) ->
  (exists v, lookup k o = Some v /\ v <> VUndef) ->
  exists v,
    lookup k (fold_left (fun out kv => setProp (fst kv) (g kv) out) s o) = Some v
    /\ v <> VUndef.
Proof.
  induction s as [|[k' x] s IH]; intros o k G H; simpl; [exact H|].
  apply IH; [intros kv i; apply G; now right|].
  destruct (String.eqb_spec k' k) as [->|ne].
  - rewrite lookup_setProp_eq. eexists. split; [reflexivity|].
    apply (G (k, x)); [now left|reflexivity].
  - rewrite lookup_setProp_ne by exact ne. exact H.
Qed.

Lemma mergedValue_defined target key sv :
  sv <> VUndef -> mergedValue target key sv <> VUndef.
Proof.
  intros H. unfold mergedValue. destruct (isObject sv) eqn:S; [|exact H].
  destruct (negb (truthy (getOwn key (spread target)))
            || negb (isObject (getOwn key (spread target)))) eqn:T; [discriminate|].
  apply orb_false_iff in T as [_ T]. apply negb_false_iff in T.
  apply isObject_inv in T as [tv ->]. apply isObject_inv in S as [s ->].
  rewrite deepMerge_objects. discriminate.
Qed.

Lemma applyUpdate_keeps t updates merge k :
  ~ In (k, VUndef) (spread updates) ->
  (exists v, lookup k t = Some v /\ v <> VUndef) ->
  exists t' v',
    applyUpdate (VObj t) updates merge = VObj t'
    /\ lookup k t' = Some v' /\ v' <> VUndef.
Proof.
  intros U H. unfold applyUpdate. destruct merge.
  - destruct (isObject updates) eqn:O.
    2:{ rewrite deepMerge_not_mapping by exact O. destruct H as (v & L & Dv).
        exists t, v. split; [reflexivity|]. split; [exact L|exact Dv]. }
    apply isObject_inv in O as [s ->]. cbn [spread] in U.
    rewrite deepMerge_objects.
    destruct (lookup_fold_setProp_defined
                (fun kv => mergedValue (VObj t) (fst kv) (snd kv)) s t k)
      as (v' & L & Dv); [|exact H|].
    + intros [k' x] i e. cbn [fst snd] in *. subst k'.
      apply mergedValue_defined. intros ->. now apply U.
    + eexists. exists v'. split; [reflexivity|]. split; [exact L|exact Dv].
  - unfold spread2. cbn [spread].
    destruct (lookup_fold_setProp_defined (fun kv => snd kv) (spread updates) t k)
      as (v' & L & Dv); [|exact H|].
    + intros [k' x] i e. cbn [fst snd] in *. subst k'. intros ->. now apply U.
    + eexists. exists v'. split; [reflexivity|]. split; [exact L|exact Dv].
Qed.

Lemma updateDataLayer_tree updates merge st :
  dataLayer (updateDataLayer updates merge st) = dataLayer st
  \/ dataLayer (updateDataLayer updates merge st)
     = applyUpdate (dataLayer st) updates merge.
Proof.
  unfold updateDataLayer.
  destruct (negb (truthy updates) || negb (typeofObject updates)); [left; reflexivity|].
  destruct (negb (dataLayerReady st) || negb (truthy (dataLayer st)));
    [left; reflexivity|].
  right. cbn. rewrite dataLayer_persist. reflexivity.
Qed.

Lemma executeAddToCart_tree productData st st' t :
  dataLayer st = VObj t ->
  after (executeAddToCart productData st) = Some st' ->
  dataLayer st' = VObj t
  \/ exists cart, dataLayer st' = VObj (setProp "cart" (VObj cart) t).
Proof.
  intros D. unfold executeAddToCart. rewrite D. cbn [truthy negb].
  destruct (selectCart (VObj t)) as [[aliased cart]| |]; cbn [after];
    try discriminate; [|intros [= <-]; left; exact D].
  destruct cart; try discriminate.
  destruct (addLineItem _ _); cbn [after]; try discriminate;
    [|intros [= <-]; left; exact D].
  destruct (recompute _ _); cbn [assignProp after].
  - intros [= <-]. right. eexists. cbn. rewrite dataLayer_persist. reflexivity.
  - destruct aliased; cbn [after]; intros [= <-]; [right|left; exact D].
    eexists. reflexivity.
  - discriminate.
Qed.

End Writes.

(** X1.  No call of [updateDataLayer] or [addToCart] empties a top-level
    key of the tree unless the payload itself holds [undefined] under that
    key: when the tree is a mapping that holds a value other than
    [undefined] under a key other than "__proto__", then after
    [updateDataLayer], whatever the merge mode and whether the call is
    applied, queued or rejected, with a payload that holds no [undefined]
    under that key, and after every [addToCart] that returns or ends in an
    exception, the tree is a mapping that holds a value other than
    [undefined] under that key. *)
Theorem write_keeps_top_level_keys
    (st : DataLayer.State) (t : props) (k : string) (v : value) :
  DataLayer.dataLayer st = VObj t ->
  lookup k t = Some v ->
  v <> VUndef ->
  k <> "__proto__" ->
  (forall updates merge,
      ~ In (k, VUndef) (spread updates) ->
      exists t' v',
        DataLayer.dataLayer (DataLayer.updateDataLayer updates merge st) = VObj t'
        /\ lookup k t' = Some v' /\ v' <> VUndef)
  /\ (forall productData st',
      after (DataLayer.addToCart productData st) = Some st' ->
      exists t' v',
        DataLayer.dataLayer st' = VObj t' /\ lookup k t' = Some v' /\ v' <> VUndef).
Proof.
  intros D L Dv _. split.
  - intros updates merge U.
    destruct (updateDataLayer_tree updates merge st) as [E|E]; rewrite E, D.
    + exists t, v. split; [reflexivity|]. split; [exact L|exact Dv].
    + apply applyUpdate_keeps; [exact U|]. exists v. split; [exact L|exact Dv].
  - intros productData st'. unfold DataLayer.addToCart.
    destruct (negb (truthy productData) || _).
    { intros [= <-]. exists t, v. split; [exact D|]. split; [exact L|exact Dv]. }
    destruct (negb (DataLayer.dataLayerReady st) || _).
    { intros [= <-]. exists t, v. split; [exact D|]. split; [exact L|exact Dv]. }
    intros A. destruct (executeAddToCart_tree productData st st' t D A) as [E|[cart E]].
    + exists t, v. split; [exact E|]. split; [exact L|exact Dv].
    + destruct (String.eqb_spec "cart" k) as [<-|ne].
      * eexists. exists (VObj cart). split; [exact E|].
        split; [apply lookup_setProp_eq|discriminate].
      * eexists. exists v. split; [exact E|].
        split; [rewrite lookup_setProp_ne by exact ne; exact L|exact Dv].
Qed.

(** X2.  A write with [merge = false] on a ready container replaces the
    top-level keys of the payload wholesale and leaves every other
    top-level key as it was: below a replaced key the tree holds exactly
    what the payload holds, nothing of the old value is kept. *)
Theorem shallow_replace_write (st : DataLayer.State) (t p : props) :
  DataLayer.dataLayerReady st = true ->
  DataLayer.dataLayer st = VObj t ->
  NoDup (keys p) ->
  exists t',
    DataLayer.dataLayer (DataLayer.updateDataLayer (VObj p) false st) = VObj t'
    /\ (forall k v, lookup k p = Some v -> lookup k t' = Some v)
    /\ (forall k, lookup k p = None -> lookup k t' = lookup k t)
    /\ (forall k v rest,
          lookup k p = Some v -> valueAt (VObj t') (k :: rest) = valueAt v rest).
Proof.
  intros R D N.
  rewrite dataLayer_updateDataLayer_ready; try reflexivity; try exact R;
    [|rewrite D; reflexivity].
  rewrite D. unfold DataLayer.applyUpdate, spread2. cbn [spread].
  eexists. split; [reflexivity|].
  assert (forall k,
            lookup k (fold_left (fun out kv => setProp (fst kv) (snd kv) out) p t)
            = match lookup k p with Some x => Some x | None => lookup k t end) as L.
  { intros k. exact (lookup_fold_assign (fun _ x => x) p t k N). }
  split; [|split].
  - intros k v E. rewrite L, E. reflexivity.
  - intros k E. rewrite L, E. reflexivity.
  - intros k v rest E. cbn [valueAt]. rewrite L, E. reflexivity.
Qed.

(** X3.  A write that is applied is persisted and notified with one and
    the same JSON copy of the new tree: the update flag is down again, one
    notification of type "updated" is appended, and - unless the storage
    refuses the write - the stored snapshot parses to the payload of that
    notification and its timestamp is the time of the write.  When the
    storage refuses, the tree is updated and notified all the same, the
    storage is untouched and one warning is logged. *)
Theorem write_persists_and_notifies
    (st : DataLayer.State) (updates : value) (merge : bool) :
  validUpdate updates = true ->
  DataLayer.dataLayerReady st = true ->
  truthy (DataLayer.dataLayer st) = true ->
  let st' := DataLayer.updateDataLayer updates merge st in
  DataLayer.dataLayer st'
  = DataLayer.applyUpdate (DataLayer.dataLayer st) updates merge
  /\ DataLayer.dataLayerUpdating st' = false
  /\ DataLayer.dataLayerReady st' = true
  /\ DataLayer.dataLayerQueue st' = DataLayer.dataLayerQueue st
  /\ DataLayer.cartQueue st' = DataLayer.cartQueue st
  /\ DataLayer.dispatched st'
     = (DataLayer.dispatched st
        ++ [("updated", jsonClone (DataLayer.dataLayer st'))])%list
  /\ (DataLayer.storageFull st = false ->
      (exists stored,
          lookup DataLayer.STORAGE_KEY (DataLayer.localStorage st') = Some stored
          /\ DataLayer.jsonParse stored = Some (jsonClone (DataLayer.dataLayer st')))
      /\ lookup DataLayer.STORAGE_TIMESTAMP_KEY (DataLayer.localStorage st')
         = Some (DataLayer.SNum (DataLayer.now st))
      /\ (forall k,
            k <> DataLayer.STORAGE_KEY -> k <> DataLayer.STORAGE_TIMESTAMP_KEY ->
            lookup k (DataLayer.localStorage st')
            = lookup k (DataLayer.localStorage st))
      /\ DataLayer.console st' = DataLayer.console st)
  /\ (DataLayer.storageFull st = true ->
      DataLayer.localStorage st' = DataLayer.localStorage st
      /\ DataLayer.console st'
         = (DataLayer.console st
            ++ [DataLayer.LogWarn "Could not persist dataLayer"])%list).
Proof.
  intros V R T st'. unfold validUpdate in V. apply andb_prop in V as [V1 V2].
  assert (truthy (DataLayer.applyUpdate (DataLayer.dataLayer st) updates merge) = true)
    as TA by (apply applyUpdate_truthy; exact T).
  subst st'. rewrite updateDataLayer_ready by assumption.
  destruct st as [tree rdy upd q cq acc ls full nw title disp tm con].
  cbn in R, T, TA |- *. unfold DataLayer.persist. cbn.
  destruct full; cbn;
    repeat match goal with |- _ /\ _ => split end;
    try reflexivity; try exact R; try discriminate; intros _.
  - split; reflexivity.
  - split; [|split; [|split]]; try reflexivity.
    + eexists. split.
      * rewrite lookup_setProp_ne by discriminate.
        rewrite lookup_setProp_eq. reflexivity.
      * destruct (DataLayer.applyUpdate tree updates merge); try discriminate;
          reflexivity.
    + rewrite lookup_setProp_eq. reflexivity.
    + intros k n1 n2. rewrite !lookup_setProp_ne; auto.
Qed.
(** ** A write issued before startup *)

Section QueuedWrite.
Import DataLayer.

Lemma checkSaved_setDataLayerQueue q st :
  checkSaved (setDataLayerQueue q st)
  = (fst (checkSaved st), setDataLayerQueue q (snd (checkSaved st))).
Proof.
  unfold checkSaved. destruct st. cbn [localStorage setDataLayerQueue now].
  destruct (present _ && present _); [|reflexivity].
  destruct (lookup STORAGE_TIMESTAMP_KEY localStorage0) as [ts|]; [|reflexivity].
  destruct (parseInt ts) as [n|]; [|reflexivity].
  destruct (now0 - n <=? STORAGE_TTL); reflexivity.
Qed.

(** The TTL test changes the storage only. *)
Lemma checkSaved_state st : exists l, snd (checkSaved st) = setLocalStorage l st.
Proof.
  unfold checkSaved. destruct st. cbn [localStorage now].
  destruct (present _ && present _); [|eexists; reflexivity].
  destruct (lookup STORAGE_TIMESTAMP_KEY localStorage0) as [ts|];
    [|eexists; reflexivity].
  destruct (parseInt ts) as [n|]; [|eexists; reflexivity].
  destruct (now0 - n <=? STORAGE_TTL); eexists; reflexivity.
Qed.

Lemma validUpdate_inv updates :
  validUpdate updates = true ->
  negb (truthy updates) || negb (typeofObject updates) = false.
Proof.
  unfold validUpdate. intros V. apply andb_prop in V as [-> ->]. reflexivity.
Qed.

Lemma persist_setDataLayerQueue w q s :
  persist w (setDataLayerQueue q s) = setDataLayerQueue q (persist w s).
Proof. unfold persist. destruct s. cbn. destruct storageFull0; reflexivity. Qed.

Lemma persist_flags w s :
  dataLayerQueue (persist w s) = dataLayerQueue s
  /\ dataLayerUpdating (persist w s) = dataLayerUpdating s
  /\ accessorDefined (persist w s) = accessorDefined s.
Proof. unfold persist. destruct (storageFull s); auto. Qed.

Lemma processDataLayerQueue_empty s :
  dataLayerQueue s = [] -> processDataLayerQueue s = s.
Proof. intros Q. unfold processDataLayerQueue. rewrite Q. reflexivity. Qed.

(** The drain of a queue of one write is that write. *)
Lemma drain_one updates merge s :
  validUpdate updates = true ->
  dataLayerQueue s = [] -> dataLayerUpdating s = false ->
  dataLayerReady s = true -> truthy (dataLayer s) = true ->
  processDataLayerQueue (setDataLayerQueue [(updates, merge)] s)
  = updateDataLayer updates merge s.
Proof.
  intros V Q U R T. apply validUpdate_inv in V.
  unfold processDataLayerQueue, updateDataLayer. rewrite V, R, T.
  destruct s. cbn in Q, U. subst.
  unfold persist. cbn. destruct storageFull0; reflexivity.
Qed.

Lemma beforeCartQueue_queued updates merge st :
  validUpdate updates = true ->
  dataLayerQueue st = [] -> dataLayerUpdating st = false ->
  beforeCartQueue (setDataLayerQueue [(updates, merge)] st)
  = match beforeCartQueue st with
    | Ok s => Ok (updateDataLayer updates merge s)
    | Throws s => Throws (setDataLayerQueue [(updates, merge)] s)
    | Beyond => Beyond
    end.
Proof.
  intros V Q U.
  unfold beforeCartQueue. rewrite checkSaved_setDataLayerQueue.
  destruct (checkSaved_state st) as [l E].
  destruct (checkSaved st) as [isDataValid st1]. cbn [fst snd] in *. subst st1.
  change (localStorage (setDataLayerQueue [(updates, merge)] st))
    with (localStorage st).
  change (documentTitle (setDataLayerQueue [(updates, merge)] st))
    with (documentTitle st).
  destruct (if present (lookup STORAGE_KEY (localStorage st)) && isDataValid
            then _ else _) as [tree| |]; try reflexivity.
  destruct (refreshPage (documentTitle st) tree) as [tree1| |] eqn:Rp;
    try reflexivity.
  pose proof (refreshPage_truthy _ _ _ Rp) as T1.
  change (setDataLayer tree1
            (setDataLayerQueue [(updates, merge)] (setLocalStorage l st)))
    with (setDataLayerQueue [(updates, merge)]
            (setDataLayer tree1 (setLocalStorage l st))).
  rewrite persist_setDataLayerQueue.
  set (s2 := persist "Could not persist dataLayer"
               (setDataLayer tree1 (setLocalStorage l st))).
  assert (dataLayerQueue s2 = [] /\ dataLayerUpdating s2 = false
          /\ dataLayer s2 = tree1) as (Q2 & U2 & D2).
  { subst s2. destruct (persist_flags "Could not persist dataLayer"
                          (setDataLayer tree1 (setLocalStorage l st)))
      as (-> & -> & _).
    rewrite dataLayer_persist. repeat split; assumption. }
  clearbody s2. unfold defineAccessor.
  change (accessorDefined (setDataLayerQueue [(updates, merge)] s2))
    with (accessorDefined s2).
  destruct (accessorDefined s2); [reflexivity|].
  f_equal.
  rewrite (processDataLayerQueue_empty (setReady true (setAccessorDefined true s2)))
    by exact Q2.
  change (setReady true
            (setAccessorDefined true (setDataLayerQueue [(updates, merge)] s2)))
    with (setDataLayerQueue [(updates, merge)]
            (setReady true (setAccessorDefined true s2))).
  apply drain_one; try assumption; try reflexivity.
  cbn. rewrite D2. exact T1.
Qed.

Lemma beforeCartQueue_throws st s :
  beforeCartQueue st = Throws s ->
  dataLayerQueue s = dataLayerQueue st
  /\ dataLayerUpdating s = dataLayerUpdating st
  /\ cartQueue s = cartQueue st
  /\ dataLayerReady s = dataLayerReady st.
Proof.
  unfold beforeCartQueue. destruct (checkSaved_state st) as [l E].
  destruct (checkSaved st) as [isDataValid st1]. cbn [snd] in E. subst st1.
  destruct (if present (lookup STORAGE_KEY (localStorage st)) && isDataValid
            then _ else _) as [tree| |]; try discriminate.
  { destruct (refreshPage (documentTitle st) tree) as [tree1| |];
      try discriminate.
    - unfold defineAccessor, persist. destruct st. cbn.
      destruct storageFull0; cbn; destruct accessorDefined0; cbn;
        try discriminate; intros [= <-]; cbn; auto.
    - intros [= <-]. destruct st. cbn. auto. }
  intros [= <-]. destruct st. cbn. auto.
Qed.

End QueuedWrite.

(** X4.  A write issued before startup has the effect of the same write
    issued right after it: when the container starts (through the [try]
    block or through its fallback) with that one write queued, it ends in
    the very state - tree, stored record, notifications, timers, console -
    that startup followed by the write ends in. *)
Theorem queued_write_same_state
    (st s0 : DataLayer.State) (updates : value) (merge : bool) :
  validUpdate updates = true ->
  DataLayer.dataLayerReady st = false ->
  DataLayer.dataLayerUpdating st = false ->
  DataLayer.dataLayerQueue st = [] ->
  DataLayer.cartQueue st = [] ->
  DataLayer.buildCustomDataLayer st = DataLayer.Ok s0 ->
  DataLayer.dataLayerQueue (DataLayer.updateDataLayer updates merge st)
  = [(updates, merge)]
  /\ DataLayer.buildCustomDataLayer (DataLayer.updateDataLayer updates merge st)
     = DataLayer.Ok (DataLayer.updateDataLayer updates merge s0).
Proof.
  intros V R U Q C B.
  assert (DataLayer.updateDataLayer updates merge st
          = DataLayer.setDataLayerQueue [(updates, merge)] st) as E.
  { unfold DataLayer.updateDataLayer. rewrite (validUpdate_inv _ V), R, Q.
    reflexivity. }
  rewrite E. split; [reflexivity|].
  unfold DataLayer.buildCustomDataLayer in *. rewrite buildMain_split in *.
  rewrite beforeCartQueue_queued by assumption.
  change (startTag (DataLayer.setDataLayerQueue [(updates, merge)] st))
    with (startTag st).
  apply validUpdate_inv in V.
  destruct (beforeCartQueue st) as [s4|s4|] eqn:B4; cbn [bindOutcome] in *.
  - destruct (beforeCartQueue_frame _ _ B4) as (R4 & T4 & C4).
    rewrite C in C4. destruct s4. cbn in R4, T4, C4. subst.
    unfold DataLayer.processCartQueue in *. cbn in B. injection B as <-.
    unfold DataLayer.updateDataLayer. rewrite V. cbn. rewrite T4. cbn.
    unfold DataLayer.persist. cbn. destruct storageFull; reflexivity.
  - destruct (beforeCartQueue_throws _ _ B4) as (Q4 & U4 & _).
    rewrite Q in Q4. rewrite U in U4.
    destruct s4. cbn in Q4, U4. subst.
    unfold DataLayer.buildFallback, DataLayer.defineAccessor in *. cbn in *.
    destruct accessorDefined; [discriminate|]. cbn in *. injection B as <-.
    unfold DataLayer.processDataLayerQueue, DataLayer.updateDataLayer.
    cbn. rewrite V. cbn. unfold DataLayer.persist. cbn.
    destruct storageFull; reflexivity.
  - discriminate.
Qed.

Lemma write_keeps_top_level_keys_witness :
  lookup "cart" (spread (DataLayer.dataLayer exampleWithTee))
  = Some (cartOf exampleWithTee)
  /\ cartOf exampleWithTee <> VUndef
  /\ "cart" <> "__proto__"
  /\ ~ In ("cart", VUndef) (spread (VObj [("cart", VNull)]))
  /\ exists t' v',
       DataLayer.dataLayer
         (DataLayer.updateDataLayer (VObj [("cart", VNull)]) false exampleWithTee)
       = VObj t'
       /\ lookup "cart" t' = Some v' /\ v' <> VUndef.
Proof.
  assert (lookup "cart" (spread (DataLayer.dataLayer exampleWithTee))
          = Some (cartOf exampleWithTee)) as L by (vm_compute; reflexivity).
  assert (cartOf exampleWithTee <> VUndef) as Dv by (vm_compute; discriminate).
  assert ("cart" <> "__proto__") as ne by discriminate.
  assert (~ In ("cart", VUndef) (spread (VObj [("cart", VNull)]))) as U.
  { cbn. intros [e|[]]. discriminate e. }
  split; [exact L|]. split; [exact Dv|]. split; [exact ne|]. split; [exact U|].
  exact (proj1 (write_keeps_top_level_keys exampleWithTee
                  (spread (DataLayer.dataLayer exampleWithTee)) "cart"
                  (cartOf exampleWithTee) eq_refl L Dv ne)
           (VObj [("cart", VNull)]) false U).
Defined.

Lemma shallow_replace_write_witness :
  DataLayer.dataLayerReady exampleWithTee = true
  /\ NoDup (keys [("cart", VObj [("total", VNum 0)])])
  /\ exists t',
       DataLayer.dataLayer
         (DataLayer.updateDataLayer (VObj [("cart", VObj [("total", VNum 0)])])
            false exampleWithTee)
       = VObj t'
       /\ lookup "cart" t' = Some (VObj [("total", VNum 0)])
       /\ lookup "project" t'
          = lookup "project" (spread (DataLayer.dataLayer exampleWithTee)).
Proof.
  assert (NoDup (keys [("cart", VObj [("total", VNum 0)])])) as N
      by (constructor; [intros []|constructor]).
  split; [reflexivity|]. split; [exact N|].
  destruct (shallow_replace_write exampleWithTee
              (spread (DataLayer.dataLayer exampleWithTee))
              [("cart", VObj [("total", VNum 0)])] eq_refl eq_refl N)
    as (t' & D & In_ & Out & _).
  exists t'. split; [exact D|]. split.
  - apply In_. reflexivity.
  - apply Out. reflexivity.
Defined.

Lemma write_persists_and_notifies_witness :
  validUpdate examplePayload = true
  /\ DataLayer.dataLayerReady exampleReady = true
  /\ truthy (DataLayer.dataLayer exampleReady) = true
  /\ DataLayer.dispatched (DataLayer.updateDataLayer examplePayload true exampleReady)
     = (DataLayer.dispatched exampleReady
        ++ [("updated",
             jsonClone
               (DataLayer.dataLayer
                  (DataLayer.updateDataLayer examplePayload true exampleReady)))])%list.
Proof.
  split; [reflexivity|]. split; [reflexivity|]. split; [reflexivity|].
  exact (proj1 (proj2 (proj2 (proj2 (proj2 (proj2
           (write_persists_and_notifies exampleReady examplePayload true
              eq_refl eq_refl eq_refl))))))).
Defined.

Lemma queued_write_same_state_witness :
  validUpdate examplePayload = true
  /\ DataLayer.buildCustomDataLayer exampleBoot = DataLayer.Ok exampleReady
  /\ DataLayer.buildCustomDataLayer
       (DataLayer.updateDataLayer examplePayload true exampleBoot)
     = DataLayer.Ok (DataLayer.updateDataLayer examplePayload true exampleReady).
Proof.
  split; [reflexivity|]. split; [reflexivity|].
  exact (proj2 (queued_write_same_state exampleBoot exampleReady examplePayload true
                  eq_refl eq_refl eq_refl eq_refl eq_refl eq_refl)).
Defined.

(** ** Reads by path *)

Section Paths.
Import DataLayer.

Lemma string_app_assoc (a b c : string) : ((a ++ b) ++ c = a ++ (b ++ c))%string.
Proof. induction a as [|x a IH]; simpl; [reflexivity|]. rewrite IH. reflexivity. Qed.

Lemma string_app_nil_r (a : string) : (a ++ "" = a)%string.
Proof. induction a as [|x a IH]; simpl; [reflexivity|]. rewrite IH. reflexivity. Qed.

Lemma splitDot_app k : forall cur s,
  dotFree k = true -> splitDot cur (k ++ s) = splitDot (cur ++ k) s.
Proof.
  unfold dotFree. induction k as [|c k IH]; intros cur s F;
    cbn [append splitDot].
  - rewrite string_app_nil_r. reflexivity.
  - cbn [CustomEvents.includes] in F. apply negb_true_iff in F. apply orb_false_iff in F as [F1 F2].
    rewrite Ascii.eqb_sym, F1. rewrite IH by (rewrite F2; reflexivity).
    rewrite string_app_assoc. reflexivity.
Qed.

Lemma splitDot_joinDot rest : forall k cur,
  forallb dotFree (k :: rest) = true ->
  splitDot cur (joinDot (k :: rest)) = (cur ++ k)%string :: rest.
Proof.
  induction rest as [|k2 rest IH]; intros k cur F.
  - cbn [forallb] in F. apply andb_prop in F as [F _].
    cbn [joinDot]. rewrite <- (string_app_nil_r k) at 1.
    rewrite splitDot_app by exact F. reflexivity.
  - cbn [forallb] in F. apply andb_prop in F as [F F'].
    change (joinDot (k :: k2 :: rest))
      with (k ++ String "."%char (joinDot (k2 :: rest)))%string.
    rewrite splitDot_app by exact F. cbn [splitDot]. cbn [Ascii.eqb Bool.eqb].
    rewrite IH by exact F'. reflexivity.
Qed.

Lemma walk_valueAt path : forall v p2 x,
  valueAt v path = Some x -> walk v (path ++ p2) = walk x p2.
Proof.
  induction path as [|k path IH]; intros v p2 x H.
  - injection H as <-. reflexivity.
  - cbn [valueAt] in H. destruct v as [| | | | | |o]; try discriminate.
    destruct (lookup k o) as [y|] eqn:L; [|discriminate].
    cbn [app walk truthy typeofObject andb spread]. rewrite L.
    apply IH. exact H.
Qed.

Lemma walk_missing v k rest :
  isArray v = false ->
  lookup k (spread v) = None \/ typeofObject v = false ->
  walk v (k :: rest) = None.
Proof.
  intros A H. cbn [walk]. rewrite A. cbn [andb].
  destruct (truthy v && typeofObject v) eqn:C; [|reflexivity].
  destruct H as [H|H]; [rewrite H; reflexivity|].
  rewrite H, andb_false_r in C. discriminate.
Qed.

Lemma getDataLayerProperty_walk st t path :
  dataLayer st = VObj t -> path <> [] -> forallb dotFree path = true ->
  joinDot path <> "" ->
  getDataLayerProperty (Some (joinDot path)) st
  = match walk (VObj t) path with Some v => copyOf v | None => VUndef end.
Proof.
  intros D N F J. unfold getDataLayerProperty. rewrite D. cbn [truthy negb].
  destruct (String.eqb_spec (joinDot path) "") as [E|_]; [contradiction|].
  destruct path as [|k rest]; [contradiction|].
  rewrite splitDot_joinDot by exact F. reflexivity.
Qed.

End Paths.

(** X5.  [getDataLayerProperty] follows a dotted path through the nested
    mappings of the tree: when every key of the path is a key of the
    mapping reached so far, it returns a JSON copy of the value found there
    (the value itself for a primitive); and it returns [undefined] as soon
    as the way leads through a value that is no mapping and no array, or
    through a mapping that lacks the next key, when that key is not the
    name of a property that every object inherits ("constructor",
    "toString", "__proto__" and the like). *)
Theorem read_by_path (st : DataLayer.State) (t : props) :
  DataLayer.dataLayer st = VObj t ->
  (forall path v,
      path <> [] -> forallb dotFree path = true -> joinDot path <> "" ->
      valueAt (VObj t) path = Some v ->
      DataLayer.getDataLayerProperty (Some (joinDot path)) st = copyOf v)
  /\ (forall prefix x k rest,
      forallb dotFree (prefix ++ k :: rest) = true ->
      joinDot (prefix ++ k :: rest) <> "" ->
      valueAt (VObj t) prefix = Some x ->
      isArray x = false ->
      (lookup k (spread x) = None /\ inheritedName k = false)
      \/ typeofObject x = false ->
      DataLayer.getDataLayerProperty (Some (joinDot (prefix ++ k :: rest))) st
      = VUndef).
Proof.
  intros D. split.
  - intros path v N F J H.
    rewrite (getDataLayerProperty_walk st t path D N F J).
    rewrite <- (app_nil_r path), (walk_valueAt path (VObj t) [] v H).
    reflexivity.
  - intros prefix x k rest F J H A M.
    rewrite (getDataLayerProperty_walk st t _ D) by
      (try assumption; destruct prefix; discriminate).
    rewrite (walk_valueAt prefix (VObj t) (k :: rest) x H).
    rewrite walk_missing; [reflexivity|exact A|].
    destruct M as [[M _]|M]; [left|right]; exact M.
Qed.

(** X6.  What is written is what is read: after a write of [{ k: v }] on
    a ready container whose tree is a mapping - with [merge = false], or
    with [merge = true] when [v] is not a mapping - reading the path [k]
    returns a copy of [v]; [k] is any key without a dot other than the
    empty one and "__proto__". *)
Theorem read_after_write
    (st : DataLayer.State) (t : props) (k : string) (v : value) (merge : bool) :
  DataLayer.dataLayerReady st = true ->
  DataLayer.dataLayer st = VObj t ->
  dotFree k = true -> k <> "" -> k <> "__proto__" ->
  merge = false \/ DataLayer.isObject v = false ->
  DataLayer.getDataLayerProperty (Some k)
    (DataLayer.updateDataLayer (VObj [(k, v)]) merge st)
  = copyOf v.
Proof.
  intros R D F N _ M.
  assert (exists t',
            DataLayer.dataLayer (DataLayer.updateDataLayer (VObj [(k, v)]) merge st)
            = VObj t' /\ lookup k t' = Some v) as (t' & D' & L).
  { rewrite dataLayer_updateDataLayer_ready; try reflexivity; try exact R;
      [|rewrite D; reflexivity].
    rewrite D. unfold DataLayer.applyUpdate. destruct merge.
    - destruct M as [M|M]; [discriminate|].
      rewrite deepMerge_objects. eexists. split; [reflexivity|].
      cbn [fold_left fst snd]. rewrite lookup_setProp_eq.
      unfold mergedValue. rewrite M. reflexivity.
    - eexists. split; [reflexivity|]. unfold spread2. cbn [spread fold_left fst snd].
      apply lookup_setProp_eq. }
  assert (forallb dotFree [k] = true) as F1 by (cbn; rewrite F; reflexivity).
  change k with (joinDot [k]) at 1.
  rewrite (getDataLayerProperty_walk _ t' [k] D') by
    (try exact F1; try exact N; discriminate).
  cbn [DataLayer.walk truthy typeofObject andb spread]. rewrite L. reflexivity.
Qed.

Lemma read_by_path_witness :
  DataLayer.getDataLayerProperty (Some "cart.products.tee.quantity") exampleWithTee
  = VNum 2
  /\ lookup "cap" (spread (cartOf exampleWithTee)) = None
  /\ inheritedName "cap" = false
  /\ DataLayer.getDataLayerProperty (Some "cart.cap.quantity") exampleWithTee
     = VUndef.
Proof.
  split; [|split; [reflexivity|split; [reflexivity|]]].
  - refine (proj1 (read_by_path exampleWithTee
                     (spread (DataLayer.dataLayer exampleWithTee)) eq_refl)
              ["cart"; "products"; "tee"; "quantity"] (VNum 2) _ eq_refl _ eq_refl);
      discriminate.
  - refine (proj2 (read_by_path exampleWithTee
                     (spread (DataLayer.dataLayer exampleWithTee)) eq_refl)
              ["cart"] (cartOf exampleWithTee) "cap" ["quantity"] eq_refl _
              eq_refl eq_refl (or_introl (conj eq_refl eq_refl))).
    discriminate.
Defined.

Lemma read_after_write_witness :
  DataLayer.dataLayerReady exampleReady = true
  /\ dotFree "extra" = true
  /\ "extra" <> "__proto__"
  /\ DataLayer.getDataLayerProperty (Some "extra")
       (DataLayer.updateDataLayer (VObj [("extra", VNum 7)]) true exampleReady)
     = VNum 7.
Proof.
  split; [reflexivity|]. split; [reflexivity|]. split; [discriminate|].
  refine (read_after_write exampleReady (spread (DataLayer.dataLayer exampleReady))
            "extra" (VNum 7) true eq_refl eq_refl eq_refl _ _ (or_intror eq_refl));
    discriminate.
Defined.

(** ** The checkout record *)

Section Checkout.
Import DataLayer.

Lemma stringify_truthy v : truthy v = true -> stringify v = SJson (jsonClone v).
Proof. destruct v; try discriminate; reflexivity. Qed.

(** [loadCheckoutData] reads the two checkout entries and the clock. *)
Lemma loadCheckoutData_reads a b :
  lookup CHECKOUT_STORAGE_KEY (localStorage a)
  = lookup CHECKOUT_STORAGE_KEY (localStorage b) ->
  lookup CHECKOUT_TIMESTAMP_KEY (localStorage a)
  = lookup CHECKOUT_TIMESTAMP_KEY (localStorage b) ->
  now a = now b ->
  fst (loadCheckoutData a) = fst (loadCheckoutData b).
Proof.
  intros K T N. unfold loadCheckoutData. rewrite K, T, N.
  destruct (lookup CHECKOUT_STORAGE_KEY (localStorage b)) as [text|];
    [|reflexivity].
  destruct (negb (present (Some text))); [reflexivity|].
  assert (forall s s' : State,
            fst (match jsonParse text with
                 | Some v => (v, s)
                 | None => (VNull, consoleError "Error loading checkout data" s)
                 end)
            = fst (match jsonParse text with
                   | Some v => (v, s')
                   | None => (VNull, consoleError "Error loading checkout data" s')
                   end)) as P
      by (intros; destruct (jsonParse text); reflexivity).
  destruct (present (lookup CHECKOUT_TIMESTAMP_KEY (localStorage b))); [|apply P].
  destruct (lookup CHECKOUT_TIMESTAMP_KEY (localStorage b)) as [ts|]; [|apply P].
  destruct (parseInt ts) as [t|]; [|apply P].
  destruct (CHECKOUT_TTL <? now b - t); [reflexivity|apply P].
Qed.

Lemma localStorage_persist_other w st k :
  k <> STORAGE_KEY -> k <> STORAGE_TIMESTAMP_KEY ->
  lookup k (localStorage (persist w st)) = lookup k (localStorage st).
Proof.
  intros n1 n2. unfold persist. destruct (storageFull st); [reflexivity|].
  cbn. rewrite !lookup_setProp_ne; auto.
Qed.

Lemma localStorage_updateDataLayer_other updates merge st k :
  k <> STORAGE_KEY -> k <> STORAGE_TIMESTAMP_KEY ->
  lookup k (localStorage (updateDataLayer updates merge st))
  = lookup k (localStorage st).
Proof.
  intros n1 n2. unfold updateDataLayer.
  destruct (negb (truthy updates) || negb (typeofObject updates)); [reflexivity|].
  destruct (negb (dataLayerReady st) || negb (truthy (dataLayer st)));
    [reflexivity|].
  cbn. rewrite localStorage_persist_other by assumption. reflexivity.
Qed.

Lemma now_updateDataLayer updates merge st :
  now (updateDataLayer updates merge st) = now st.
Proof.
  unfold updateDataLayer.
  destruct (negb (truthy updates) || negb (typeofObject updates)); [reflexivity|].
  destruct (negb (dataLayerReady st) || negb (truthy (dataLayer st)));
    [reflexivity|].
  cbn. unfold persist. destruct (storageFull _); reflexivity.
Qed.

End Checkout.

(** X7.  The checkout record round trip: what [saveCheckoutData] stored is
    what [loadCheckoutData] returns (as a JSON copy, the storage left as it
    is) on any later page whose clock is at most 90 days past the save;
    past 90 days the load returns [null] and removes both entries, so that
    later loads return [null] as well. *)
Theorem checkout_round_trip
    (st later : DataLayer.State) (formData : value) :
  validUpdate formData = true ->
  DataLayer.storageFull st = false ->
  DataLayer.localStorage later
  = DataLayer.localStorage (DataLayer.saveCheckoutData formData st) ->
  (DataLayer.now later - DataLayer.now st <= DataLayer.CHECKOUT_TTL ->
   DataLayer.loadCheckoutData later = (jsonClone formData, later))
  /\ (DataLayer.now later - DataLayer.now st > DataLayer.CHECKOUT_TTL ->
      let (loaded, st') := DataLayer.loadCheckoutData later in
      loaded = VNull
      /\ lookup DataLayer.CHECKOUT_STORAGE_KEY (DataLayer.localStorage st') = None
      /\ lookup DataLayer.CHECKOUT_TIMESTAMP_KEY (DataLayer.localStorage st') = None
      /\ DataLayer.loadCheckoutData st' = (VNull, st')).
Proof.
  intros V F L. pose proof V as V'. apply validUpdate_inv in V'.
  unfold validUpdate in V. apply andb_prop in V as [T _].
  unfold DataLayer.saveCheckoutData in L. rewrite V', F in L.
  cbn [DataLayer.localStorage DataLayer.setLocalStorage] in L.
  rewrite (stringify_truthy _ T) in L.
  assert (lookup DataLayer.CHECKOUT_STORAGE_KEY (DataLayer.localStorage later)
          = Some (DataLayer.SJson (jsonClone formData))) as K.
  { rewrite L, lookup_setProp_ne by discriminate. apply lookup_setProp_eq. }
  assert (lookup DataLayer.CHECKOUT_TIMESTAMP_KEY (DataLayer.localStorage later)
          = Some (DataLayer.SNum (DataLayer.now st))) as S
      by (rewrite L; apply lookup_setProp_eq).
  unfold DataLayer.loadCheckoutData at 1 2. rewrite K, S.
  cbn [DataLayer.present negb DataLayer.parseInt DataLayer.jsonParse].
  split; intros A.
  - apply Z.ltb_ge in A. rewrite A. reflexivity.
  - apply Z.gt_lt, Z.ltb_lt in A. rewrite A.
    split; [reflexivity|].
    assert (lookup DataLayer.CHECKOUT_STORAGE_KEY
              (deleteProp DataLayer.CHECKOUT_TIMESTAMP_KEY
                 (deleteProp DataLayer.CHECKOUT_STORAGE_KEY
                    (DataLayer.localStorage later))) = None) as K'.
    { rewrite lookup_deleteProp_ne by discriminate. apply lookup_deleteProp_eq. }
    cbn [DataLayer.localStorage DataLayer.setLocalStorage].
    split; [exact K'|]. split; [apply lookup_deleteProp_eq|].
    unfold DataLayer.loadCheckoutData.
    cbn [DataLayer.localStorage DataLayer.setLocalStorage]. rewrite K'.
    reflexivity.
Qed.

(** X8.  Two edge cases of the checkout record.  A record of JSON text
    stored without a timestamp never expires: it is returned whatever the
    clock says, the storage left as it is.  A record whose text is not
    empty and not JSON: when it has no timestamp, or a timestamp at most 90
    days old, the load returns [null] and logs an error, and the record
    stays in the storage; when its timestamp is more than 90 days old, the
    load returns [null], removes both entries and logs nothing. *)
Theorem checkout_record_edge_cases (st : DataLayer.State) :
  (forall v,
      lookup DataLayer.CHECKOUT_STORAGE_KEY (DataLayer.localStorage st)
      = Some (DataLayer.SJson v) ->
      lookup DataLayer.CHECKOUT_TIMESTAMP_KEY (DataLayer.localStorage st) = None ->
      DataLayer.loadCheckoutData st = (v, st))
  /\ (forall s,
      lookup DataLayer.CHECKOUT_STORAGE_KEY (DataLayer.localStorage st)
      = Some (DataLayer.SRaw s) ->
      s <> "" ->
      (lookup DataLayer.CHECKOUT_TIMESTAMP_KEY (DataLayer.localStorage st) = None ->
       DataLayer.loadCheckoutData st
       = (VNull, DataLayer.consoleError "Error loading checkout data" st))
      /\ (forall t,
          lookup DataLayer.CHECKOUT_TIMESTAMP_KEY (DataLayer.localStorage st)
          = Some (DataLayer.SNum t) ->
          (DataLayer.now st - t <= DataLayer.CHECKOUT_TTL ->
           DataLayer.loadCheckoutData st
           = (VNull, DataLayer.consoleError "Error loading checkout data" st))
          /\ (DataLayer.now st - t > DataLayer.CHECKOUT_TTL ->
              DataLayer.loadCheckoutData st
              = (VNull, DataLayer.clearCheckoutData st)
              /\ DataLayer.console (DataLayer.clearCheckoutData st)
                 = DataLayer.console st
              /\ lookup DataLayer.CHECKOUT_STORAGE_KEY
                   (DataLayer.localStorage (DataLayer.clearCheckoutData st)) = None
              /\ lookup DataLayer.CHECKOUT_TIMESTAMP_KEY
                   (DataLayer.localStorage (DataLayer.clearCheckoutData st))
                 = None))).
Proof.
  split.
  - intros v K T. unfold DataLayer.loadCheckoutData. rewrite K, T. reflexivity.
  - intros s K N.
    assert ((s =? "")%string = false) as E by (now apply String.eqb_neq).
    split.
    + intros T. unfold DataLayer.loadCheckoutData. rewrite K, T.
      cbn [DataLayer.present negb DataLayer.jsonParse]. rewrite E. reflexivity.
    + intros t T. unfold DataLayer.loadCheckoutData. rewrite K, T.
      cbn [DataLayer.present negb DataLayer.parseInt DataLayer.jsonParse].
      rewrite E. cbn [negb]. split; intros A.
      * apply Z.ltb_ge in A. rewrite A. reflexivity.
      * apply Z.gt_lt, Z.ltb_lt in A. rewrite A.
        split; [reflexivity|]. split; [reflexivity|].
        unfold DataLayer.clearCheckoutData.
        cbn [DataLayer.localStorage DataLayer.setLocalStorage].
        split; [|apply lookup_deleteProp_eq].
        rewrite lookup_deleteProp_ne by discriminate. apply lookup_deleteProp_eq.
Qed.

(** X9.  The checkout record and the data layer record do not touch each
    other: no call of [updateDataLayer] changes what [loadCheckoutData]
    returns, and [clearCheckoutData] removes the checkout record (a load
    returns [null] afterwards) while the tree and the stored snapshot of the
    data layer stay as they are. *)
Theorem checkout_record_is_separate (st : DataLayer.State) :
  (forall updates merge,
      fst (DataLayer.loadCheckoutData (DataLayer.updateDataLayer updates merge st))
      = fst (DataLayer.loadCheckoutData st))
  /\ DataLayer.loadCheckoutData (DataLayer.clearCheckoutData st)
     = (VNull, DataLayer.clearCheckoutData st)
  /\ DataLayer.dataLayer (DataLayer.clearCheckoutData st) = DataLayer.dataLayer st
  /\ lookup DataLayer.STORAGE_KEY
       (DataLayer.localStorage (DataLayer.clearCheckoutData st))
     = lookup DataLayer.STORAGE_KEY (DataLayer.localStorage st)
  /\ lookup DataLayer.STORAGE_TIMESTAMP_KEY
       (DataLayer.localStorage (DataLayer.clearCheckoutData st))
     = lookup DataLayer.STORAGE_TIMESTAMP_KEY (DataLayer.localStorage st).
Proof.
  split; [|split; [|split; [|split]]].
  - intros updates merge. apply loadCheckoutData_reads.
    + apply localStorage_updateDataLayer_other; discriminate.
    + apply localStorage_updateDataLayer_other; discriminate.
    + apply now_updateDataLayer.
  - unfold DataLayer.loadCheckoutData, DataLayer.clearCheckoutData.
    cbn [DataLayer.localStorage DataLayer.setLocalStorage].
    rewrite lookup_deleteProp_ne by discriminate.
    rewrite lookup_deleteProp_eq. reflexivity.
  - reflexivity.
  - unfold DataLayer.clearCheckoutData.
    cbn [DataLayer.localStorage DataLayer.setLocalStorage].
    rewrite !lookup_deleteProp_ne by discriminate. reflexivity.
  - unfold DataLayer.clearCheckoutData.
    cbn [DataLayer.localStorage DataLayer.setLocalStorage].
    rewrite !lookup_deleteProp_ne by discriminate. reflexivity.
Qed.

Lemma checkout_round_trip_witness :
  validUpdate (VObj [("firstName", VStr "Ada")]) = true
  /\ DataLayer.storageFull exampleReady = false
  /\ DataLayer.loadCheckoutData
       (DataLayer.saveCheckoutData (VObj [("firstName", VStr "Ada")]) exampleReady)
     = (VObj [("firstName", VStr "Ada")],
        DataLayer.saveCheckoutData (VObj [("firstName", VStr "Ada")]) exampleReady).
Proof.
  split; [reflexivity|]. split; [reflexivity|].
  refine (proj1 (checkout_round_trip exampleReady
                   (DataLayer.saveCheckoutData (VObj [("firstName", VStr "Ada")])
                      exampleReady)
                   (VObj [("firstName", VStr "Ada")]) eq_refl eq_refl eq_refl) _).
  vm_compute. discriminate.
Defined.

Lemma checkout_record_edge_cases_witness :
  DataLayer.loadCheckoutData
    (DataLayer.setLocalStorage
       [(DataLayer.CHECKOUT_STORAGE_KEY, DataLayer.SJson (VObj [("city", VStr "Oslo")]))]
       exampleReady)
  = (VObj [("city", VStr "Oslo")],
     DataLayer.setLocalStorage
       [(DataLayer.CHECKOUT_STORAGE_KEY, DataLayer.SJson (VObj [("city", VStr "Oslo")]))]
       exampleReady)
  /\ DataLayer.now exampleStaleCheckout - 0 > DataLayer.CHECKOUT_TTL
  /\ DataLayer.loadCheckoutData exampleStaleCheckout
     = (VNull, DataLayer.clearCheckoutData exampleStaleCheckout)
  /\ DataLayer.localStorage (DataLayer.clearCheckoutData exampleStaleCheckout) = []
  /\ DataLayer.console (DataLayer.clearCheckoutData exampleStaleCheckout) = [].
Proof.
  split.
  - exact (proj1 (checkout_record_edge_cases
                    (DataLayer.setLocalStorage
                       [(DataLayer.CHECKOUT_STORAGE_KEY,
                         DataLayer.SJson (VObj [("city", VStr "Oslo")]))]
                       exampleReady))
             (VObj [("city", VStr "Oslo")]) eq_refl eq_refl).
  - assert ("{oops" <> "") as N by discriminate.
    assert (DataLayer.now exampleStaleCheckout - 0 > DataLayer.CHECKOUT_TTL) as A
        by (vm_compute; reflexivity).
    split; [exact A|].
    split; [|split; reflexivity].
    exact (proj1 (proj2 (proj2 (proj2 (checkout_record_edge_cases exampleStaleCheckout)
                                  "{oops" eq_refl N) 0 eq_refl) A)).
Defined.

(** ** Startup: what it leaves, the fallback, a second call *)

Section StartupEdges.
Import DataLayer.

Lemma executeAddToCart_flags productData st st' :
  executeAddToCart productData st = Ok st' ->
  dataLayerQueue st' = dataLayerQueue st
  /\ accessorDefined st' = accessorDefined st.
Proof.
  unfold executeAddToCart. destruct st. cbn [dataLayer].
  destruct (negb (truthy dataLayer0)).
  { intros [= <-]. cbn. auto. }
  destruct (selectCart dataLayer0) as [[aliased cart]| |]; try discriminate.
  destruct cart; try discriminate.
  destruct (addLineItem _ _); try discriminate.
  destruct (recompute _ _).
  - destruct (assignProp _ _ _) as [tree| |]; try discriminate.
    intros [= <-]. unfold persist. cbn. destruct storageFull0; cbn; auto.
  - destruct aliased; [|discriminate].
    destruct (assignProp _ _ _); discriminate.
  - discriminate.
Qed.

Lemma forEachCart_flags l : forall st st',
  forEachCart l st = Ok st' ->
  dataLayerQueue st' = dataLayerQueue st
  /\ accessorDefined st' = accessorDefined st.
Proof.
  induction l as [|x rest IH]; intros st st'; simpl.
  - intros [= <-]. auto.
  - destruct (executeAddToCart x st) as [s| |] eqn:E; try discriminate.
    intros H. destruct (executeAddToCart_flags _ _ _ E) as (Q & A).
    destruct (IH _ _ H) as (Q' & A'). rewrite Q', A', Q, A. auto.
Qed.

Lemma processDataLayerQueue_flags st :
  dataLayerQueue (processDataLayerQueue st) = []
  /\ accessorDefined (processDataLayerQueue st) = accessorDefined st
  /\ timers (processDataLayerQueue st) = timers st.
Proof.
  unfold processDataLayerQueue.
  destruct (dataLayerQueue st) as [|e q] eqn:Q; cbn [List.length Nat.ltb Nat.leb].
  - auto.
  - destruct st. unfold persist. cbn. destruct storageFull0; cbn; auto.
Qed.

Lemma beforeCartQueue_flags st s4 :
  beforeCartQueue st = Ok s4 ->
  dataLayerQueue s4 = [] /\ accessorDefined s4 = true
  /\ accessorDefined st = false.
Proof.
  unfold beforeCartQueue.
  destruct (checkSaved_state st) as [l E].
  destruct (checkSaved st) as [isDataValid st1]. cbn [snd] in E. subst st1.
  destruct (if present (lookup STORAGE_KEY (localStorage st)) && isDataValid
            then _ else _) as [tree| |]; try discriminate.
  destruct (refreshPage (documentTitle st) tree) as [tree1| |]; try discriminate.
  unfold defineAccessor.
  destruct (accessorDefined _) eqn:A; [discriminate|].
  intros [= <-].
  destruct (processDataLayerQueue_flags
              (setReady true
                 (setAccessorDefined true
                    (persist "Could not persist dataLayer"
                       (setDataLayer tree1 (setLocalStorage l st))))))
    as (Q & A' & _).
  rewrite Q, A'. repeat split.
  destruct st. unfold persist in A. cbn in A. destruct storageFull0; exact A.
Qed.

Lemma processCartQueue_ok st st' :
  processCartQueue st = Ok st' ->
  cartQueue st' = []
  /\ dataLayerQueue st' = dataLayerQueue st
  /\ accessorDefined st' = accessorDefined st
  /\ dataLayerReady st' = dataLayerReady st
  /\ (truthy (dataLayer st) = true -> truthy (dataLayer st') = true).
Proof.
  unfold processCartQueue.
  destruct (cartQueue st) as [|x q] eqn:C; cbn [List.length Nat.ltb Nat.leb].
  - intros [= <-]. auto.
  - destruct (forEachCart (x :: q) st) as [s| |] eqn:F; try discriminate.
    intros [= <-]. destruct (forEachCart_frame _ _ _ F) as (R & _ & _ & T).
    destruct (forEachCart_flags _ _ _ F) as (Q & A).
    destruct s. cbn in *. auto.
Qed.

(** The [try] block cannot return on a second call, and what it throws
    keeps the accessor defined. *)
Lemma buildMain_defined st :
  accessorDefined st = true ->
  match buildMain st with
  | Ok _ => False
  | Throws s => accessorDefined s = true
  | Beyond => True
  end.
Proof.
  intros A. rewrite buildMain_split.
  destruct (beforeCartQueue st) as [s4|s4|] eqn:B; cbn [bindOutcome].
  - destruct (beforeCartQueue_flags _ _ B) as (_ & _ & A'). congruence.
  - revert B. unfold beforeCartQueue.
    destruct (checkSaved_state st) as [l E].
    destruct (checkSaved st) as [isDataValid st1]. cbn [snd] in E. subst st1.
    destruct (if present (lookup STORAGE_KEY (localStorage st)) && isDataValid
              then _ else _) as [tree| |]; try discriminate.
    + destruct (refreshPage (documentTitle st) tree) as [tree1| |];
        try discriminate.
      * unfold defineAccessor, persist. destruct st. cbn in *.
        destruct storageFull0; cbn; rewrite A; intros [= <-]; reflexivity.
      * intros [= <-]. exact A.
    + intros [= <-]. exact A.
  - exact I.
Qed.

Lemma executeAddToCart_accessor productData st s :
  after (executeAddToCart productData st) = Some s ->
  accessorDefined s = accessorDefined st.
Proof.
  unfold executeAddToCart. destruct st. cbn [dataLayer].
  destruct (negb (truthy dataLayer0)).
  { intros [= <-]. reflexivity. }
  destruct (selectCart dataLayer0) as [[aliased cart]| |]; cbn [after];
    try discriminate; [|intros [= <-]; reflexivity].
  destruct cart; try discriminate.
  destruct (addLineItem _ _); cbn [after]; try discriminate;
    [|intros [= <-]; reflexivity].
  destruct (recompute _ _).
  - destruct (assignProp _ _ _) as [tree| |]; cbn [after]; try discriminate;
      intros [= <-]; [|reflexivity].
    unfold persist. cbn. destruct storageFull0; reflexivity.
  - destruct aliased; [|intros [= <-]; reflexivity].
    destruct (assignProp _ _ _); cbn [after]; try discriminate.
    intros [= <-]. reflexivity.
  - discriminate.
Qed.

Lemma forEachCart_accessor l : forall st s,
  after (forEachCart l st) = Some s -> accessorDefined s = accessorDefined st.
Proof.
  induction l as [|x rest IH]; intros st s; cbn [forEachCart].
  - intros [= <-]. reflexivity.
  - destruct (executeAddToCart x st) as [s1|s1|] eqn:E.
    + intros H. rewrite (IH _ _ H).
      apply (executeAddToCart_accessor x). rewrite E. reflexivity.
    + intros [= <-]. apply (executeAddToCart_accessor x). rewrite E. reflexivity.
    + discriminate.
Qed.

Lemma beforeCartQueue_throws_log st s :
  beforeCartQueue st = Throws s -> timers s = timers st.
Proof.
  unfold beforeCartQueue. destruct (checkSaved_state st) as [l E].
  destruct (checkSaved st) as [isDataValid st1]. cbn [snd] in E. subst st1.
  destruct (if present (lookup STORAGE_KEY (localStorage st)) && isDataValid
            then _ else _) as [tree| |]; try discriminate.
  { destruct (refreshPage (documentTitle st) tree) as [tree1| |];
      try discriminate.
    - unfold defineAccessor, persist. destruct st. cbn.
      destruct storageFull0; cbn; destruct accessorDefined0; cbn;
        try discriminate; intros [= <-]; reflexivity.
    - intros [= <-]. reflexivity. }
  intros [= <-]. reflexivity.
Qed.

Lemma buildFallback_ok s st' :
  buildFallback s = Ok st' ->
  accessorDefined s = false
  /\ dataLayerReady st' = true
  /\ dataLayerQueue st' = []
  /\ accessorDefined st' = true
  /\ dataLayer st'
     = fold_left (fun t e => applyUpdate t (fst e) (snd e)) (dataLayerQueue s)
         fallbackDataLayer
  /\ cartQueue st' = cartQueue s
  /\ timers st' = timers s
  /\ In (LogError "Error initializing dataLayer") (console st').
Proof.
  unfold buildFallback, defineAccessor. destruct s.
  cbn [accessorDefined setDataLayer consoleError setConsole console
       dataLayer dataLayerReady dataLayerUpdating dataLayerQueue cartQueue
       localStorage storageFull now documentTitle dispatched timers].
  destruct accessorDefined0; [discriminate|]. intros [= <-].
  unfold processDataLayerQueue.
  destruct dataLayerQueue0 as [|e q].
  - cbn. repeat split; try reflexivity. apply in_or_app. right. left. reflexivity.
  - unfold persist. cbn -[fallbackDataLayer applyUpdate].
    destruct storageFull0; cbn -[fallbackDataLayer applyUpdate];
      repeat split; try reflexivity.
    + apply in_or_app. left. apply in_or_app. right. left. reflexivity.
    + apply in_or_app. right. left. reflexivity.
Qed.

End StartupEdges.

(** X10.  What startup leaves when it returns, by either branch: the
    container is ready, the accessor is defined, the tree is set and the
    queue of writes is empty, as [getDataLayerQueueStatus] then reports.
    The queue of cart additions is empty after the [try] block; after the
    fallback it is as it was, no timer has been set, and an error has been
    logged. *)
Theorem startup_postcondition (st st' : DataLayer.State) :
  DataLayer.buildCustomDataLayer st = DataLayer.Ok st' ->
  DataLayer.ready (DataLayer.getDataLayerQueueStatus st') = true
  /\ DataLayer.dataLayerQueueLength (DataLayer.getDataLayerQueueStatus st') = 0%nat
  /\ DataLayer.accessorDefined st' = true
  /\ truthy (DataLayer.dataLayer st') = true
  /\ (DataLayer.buildMain st = DataLayer.Ok st'
      /\ DataLayer.cartQueueLength (DataLayer.getDataLayerQueueStatus st') = 0%nat
      \/ (exists s, DataLayer.buildMain st = DataLayer.Throws s)
         /\ DataLayer.cartQueue st' = DataLayer.cartQueue st
         /\ DataLayer.timers st' = DataLayer.timers st
         /\ In (DataLayer.LogError "Error initializing dataLayer")
              (DataLayer.console st')).
Proof.
  unfold DataLayer.buildCustomDataLayer, DataLayer.getDataLayerQueueStatus.
  cbn [DataLayer.ready DataLayer.dataLayerQueueLength DataLayer.cartQueueLength].
  destruct (DataLayer.buildMain st) as [s|s|] eqn:M; try discriminate.
  - intros [= <-]. rewrite buildMain_split in M.
    destruct (beforeCartQueue st) as [s4| |] eqn:B; try discriminate.
    cbn [bindOutcome] in M.
    destruct (DataLayer.processCartQueue s4) as [s5| |] eqn:P; try discriminate.
    cbn [bindOutcome] in M. injection M as <-.
    destruct (beforeCartQueue_frame _ _ B) as (R4 & T4 & _).
    destruct (beforeCartQueue_flags _ _ B) as (Q4 & A4 & _).
    destruct (processCartQueue_ok _ _ P) as (C5 & Q5 & A5 & R5 & T5).
    cbn. rewrite R5, R4, Q5, Q4, A5, A4, C5. repeat split; auto.
  - intros F.
    destruct (buildFallback_ok _ _ F) as (A & R & Q & A' & D & C & Tm & Lg).
    rewrite buildMain_split in M.
    destruct (beforeCartQueue st) as [s4|s4|] eqn:B; try discriminate;
      cbn [bindOutcome] in M.
    + exfalso. destruct (beforeCartQueue_flags _ _ B) as (_ & A4 & _).
      destruct (DataLayer.processCartQueue s4) as [s5|s5|] eqn:P;
        try discriminate.
      cbn [bindOutcome] in M. injection M as ->.
      rewrite processCartQueue_drain in P.
      destruct (DataLayer.forEachCart (DataLayer.cartQueue s4) s4) as [x|x|] eqn:E;
        try discriminate.
      cbn [bindOutcome] in P. injection P as ->.
      pose proof (forEachCart_accessor (DataLayer.cartQueue s4) s4 s) as H.
      rewrite E in H. specialize (H eq_refl). congruence.
    + injection M as ->.
      destruct (beforeCartQueue_throws _ _ B) as (_ & _ & C4 & _).
      rewrite R, Q, A', C, Tm, C4, (beforeCartQueue_throws_log _ _ B).
      repeat split; auto.
      * rewrite D. apply fold_applyUpdate_truthy. reflexivity.
      * right. split; [exists s; reflexivity|]. auto.
Qed.

(** X11.  Startup on a damaged snapshot.  When the stored snapshot is
    within its 30 days but is not JSON text, startup goes through the
    fallback: it returns with the container ready on the fallback tree
    (with the queued writes applied to it) and an error logged, but the
    queue of cart additions is left as it was and no startup notification
    is scheduled; with no write queued the damaged snapshot stays in the
    storage and nothing is notified. *)
Theorem startup_on_corrupt_snapshot
    (st : DataLayer.State) (raw : string) (ts : Z) :
  lookup DataLayer.STORAGE_KEY (DataLayer.localStorage st)
  = Some (DataLayer.SRaw raw) ->
  raw <> "" ->
  lookup DataLayer.STORAGE_TIMESTAMP_KEY (DataLayer.localStorage st)
  = Some (DataLayer.SNum ts) ->
  DataLayer.now st - ts <= DataLayer.STORAGE_TTL ->
  DataLayer.accessorDefined st = false ->
  exists st',
    DataLayer.buildCustomDataLayer st = DataLayer.Ok st'
    /\ DataLayer.dataLayerReady st' = true
    /\ DataLayer.dataLayer st'
       = fold_left (fun t e => DataLayer.applyUpdate t (fst e) (snd e))
           (DataLayer.dataLayerQueue st) DataLayer.fallbackDataLayer
    /\ DataLayer.dataLayerQueue st' = []
    /\ DataLayer.cartQueue st' = DataLayer.cartQueue st
    /\ DataLayer.timers st' = DataLayer.timers st
    /\ In (DataLayer.LogError "Error initializing dataLayer")
         (DataLayer.console st')
    /\ (DataLayer.dataLayerQueue st = [] ->
        DataLayer.dispatched st' = DataLayer.dispatched st
        /\ DataLayer.localStorage st' = DataLayer.localStorage st).
Proof.
  intros K N T A D.
  assert (DataLayer.buildMain st = DataLayer.Throws st) as M.
  { unfold DataLayer.buildMain, DataLayer.checkSaved. rewrite K, T.
    cbn [DataLayer.present DataLayer.parseInt].
    destruct (String.eqb_spec raw "") as [E|_]; [contradiction|].
    cbn [negb andb].
    destruct (Z.leb_spec (DataLayer.now st - ts) DataLayer.STORAGE_TTL) as [_|gt];
      [|lia].
    reflexivity. }
  unfold DataLayer.buildCustomDataLayer. rewrite M.
  destruct (DataLayer.buildFallback st) as [st'|s|] eqn:F.
  - exists st'. destruct (buildFallback_ok _ _ F) as (_ & R & Q & _ & Tr & C & Tm & Lg).
    repeat match goal with |- _ /\ _ => split end; try assumption;
      try reflexivity.
    intros E. revert F. unfold DataLayer.buildFallback, DataLayer.defineAccessor.
    destruct st. cbn in D, E |- *. subst. cbn. intros [= <-]. split; reflexivity.
  - exfalso. revert F. unfold DataLayer.buildFallback, DataLayer.defineAccessor.
    destruct st. cbn in D |- *. subst. discriminate.
  - exfalso. revert F. unfold DataLayer.buildFallback, DataLayer.defineAccessor.
    destruct st. cbn in D |- *. subst. discriminate.
Qed.

(** X12.  [buildCustomDataLayer] cannot be run twice: once the accessor
    is defined, a second call never returns; when it ends in an exception
    the tree in memory has been replaced by the fallback tree. *)
Theorem second_startup_throws (st : DataLayer.State) :
  DataLayer.accessorDefined st = true ->
  match DataLayer.buildCustomDataLayer st with
  | DataLayer.Ok _ => False
  | DataLayer.Throws s' => DataLayer.dataLayer s' = DataLayer.fallbackDataLayer
  | DataLayer.Beyond => True
  end.
Proof.
  intros A. unfold DataLayer.buildCustomDataLayer.
  pose proof (buildMain_defined st A) as M.
  destruct (DataLayer.buildMain st) as [s|s|]; [contradiction| |exact I].
  unfold DataLayer.buildFallback, DataLayer.defineAccessor.
  destruct s. cbn in M |- *. subst. reflexivity.
Qed.

Section Reload.
Import DataLayer.

Lemma cartWritten_clone cart :
  cartWritten cart = true -> cartWritten (jsonClone cart) = true.
Proof.
  intros W. destruct (cartWritten_inv _ W) as (c & ps & -> & P & L & Pc & St & To).
  rewrite jsonClone_obj. destruct (written_clone c ps P L) as (P' & L').
  unfold cartWritten. rewrite P', L'.
  rewrite (values_cloneProps ps L).
  destruct (sumBy_clone (values ps) L) as (-> & ->).
  rewrite (getOwn_num_clone _ _ _ Pc), (getOwn_num_clone _ _ _ St),
    (getOwn_num_clone _ _ _ To).
  cbn [isNum]. rewrite !Z.eqb_refl. reflexivity.
Qed.

End Reload.

(** X13.  What was persisted is what the next page starts from.  Take a
    tree that is a mapping and was persisted (the storage took the write),
    and a page that loads at most 30 days later with the storage as the
    write left it, on which [buildCustomDataLayer] runs for the first time
    with no write and no cart addition queued before it; in the JSON copy
    of the persisted tree let the [page] section be a mapping, or be
    missing or falsy (an empty mapping then stands in for it).  Then
    startup returns, the container is ready, and the tree is a mapping in
    which every top-level key other than [page] is as in that copy; and a
    cart whose aggregates were written comes back as a copy of itself on a
    container that is ready for cart operations. *)
Theorem persisted_tree_survives_reload
    (s boot : DataLayer.State) (warning : string) (t pg : props) :
  DataLayer.dataLayer s = VObj t ->
  DataLayer.storageFull s = false ->
  DataLayer.localStorage boot
  = DataLayer.localStorage (DataLayer.persist warning s) ->
  DataLayer.dataLayerQueue boot = [] ->
  DataLayer.cartQueue boot = [] ->
  DataLayer.accessorDefined boot = false ->
  DataLayer.now boot - DataLayer.now s <= DataLayer.STORAGE_TTL ->
  orElse (getOwn "page" (cloneProps t)) (VObj []) = VObj pg ->
  exists st2 t2,
    DataLayer.buildCustomDataLayer boot = DataLayer.Ok st2
    /\ DataLayer.dataLayerReady st2 = true
    /\ DataLayer.dataLayer st2 = VObj t2
    /\ (forall k, k <> "page" -> lookup k t2 = lookup k (cloneProps t))
    /\ (cartWritten (getOwn "cart" t) = true ->
        cartReady st2 = true /\ cartOf st2 = jsonClone (getOwn "cart" t)).
Proof.
  intros D F L Q C A le Pg.
  unfold DataLayer.persist in L. rewrite F, D in L.
  cbn [DataLayer.localStorage DataLayer.setLocalStorage DataLayer.stringify] in L.
  rewrite jsonClone_obj in L.
  assert (lookup DataLayer.STORAGE_KEY (DataLayer.localStorage boot)
          = Some (DataLayer.SJson (VObj (cloneProps t)))) as K.
  { rewrite L, lookup_setProp_ne by discriminate. apply lookup_setProp_eq. }
  assert (lookup DataLayer.STORAGE_TIMESTAMP_KEY (DataLayer.localStorage boot)
          = Some (DataLayer.SNum (DataLayer.now s))) as T
      by (rewrite L; apply lookup_setProp_eq).
  rewrite (build_within_ttl boot (cloneProps t) (DataLayer.now s) pg K T Q C A le Pg).
  eexists. eexists. split; [reflexivity|].
  unfold started. cbn. rewrite ?dataLayer_persist, ?dataLayerReady_persist. cbn.
  split; [reflexivity|]. split; [reflexivity|].
  assert (forall k, k <> "page" ->
            lookup k (setProp "page"
                        (VObj (setProp "name"
                                 (VStr (toLowerCase (DataLayer.documentTitle boot)))
                                 (setProp "title"
                                    (VStr (DataLayer.documentTitle boot)) pg)))
                        (cloneProps t))
            = lookup k (cloneProps t)) as Other.
  { intros k ne. apply lookup_setProp_ne. congruence. }
  split; [exact Other|].
  intros W. destruct (cartWritten_inv _ W) as (c & ps & Ec & _).
  assert (lookup "cart" (cloneProps t) = Some (jsonClone (getOwn "cart" t))) as Lc.
  { apply lookup_cloneProps.
    - rewrite Ec. apply getOwn_obj_lookup. exact Ec.
    - rewrite Ec. discriminate. }
  unfold cartReady, cartOf. cbn. rewrite ?dataLayer_persist, ?dataLayerReady_persist.
  cbn. unfold getOwn. rewrite Other by discriminate. rewrite Lc.
  split; [|reflexivity].
  apply cartGood_written, cartWritten_clone. exact W.
Qed.

Lemma startup_postcondition_witness :
  DataLayer.buildCustomDataLayer exampleQueued = DataLayer.Ok exampleDrained
  /\ DataLayer.ready (DataLayer.getDataLayerQueueStatus exampleDrained) = true
  /\ DataLayer.dataLayerQueueLength (DataLayer.getDataLayerQueueStatus exampleDrained)
     = 0%nat.
Proof.
  assert (DataLayer.buildCustomDataLayer exampleQueued = DataLayer.Ok exampleDrained)
    as B by (vm_compute; reflexivity).
  split; [exact B|].
  destruct (startup_postcondition exampleQueued exampleDrained B) as (R & Q & _).
  split; [exact R|exact Q].
Defined.

Lemma second_startup_throws_witness :
  DataLayer.accessorDefined exampleReady = true
  /\ match DataLayer.buildCustomDataLayer exampleReady with
     | DataLayer.Ok _ => False
     | DataLayer.Throws s' => DataLayer.dataLayer s' = DataLayer.fallbackDataLayer
     | DataLayer.Beyond => True
     end.
Proof.
  split; [reflexivity|]. exact (second_startup_throws exampleReady eq_refl).
Defined.

Lemma startup_on_corrupt_snapshot_witness :
  DataLayer.now exampleCorrupt - 0 <= DataLayer.STORAGE_TTL
  /\ exists st',
       DataLayer.buildCustomDataLayer exampleCorrupt = DataLayer.Ok st'
       /\ DataLayer.dataLayerReady st' = true
       /\ DataLayer.cartQueue st' = [exampleTee]
       /\ DataLayer.timers st' = [].
Proof.
  assert (DataLayer.now exampleCorrupt - 0 <= DataLayer.STORAGE_TTL) as le
      by (vm_compute; discriminate).
  split; [exact le|].
  assert ("{oops" <> "") as ne by discriminate.
  destruct (startup_on_corrupt_snapshot exampleCorrupt "{oops" 0
              eq_refl ne eq_refl le eq_refl)
    as (st' & B & R & _ & _ & C & T & _).
  exists st'. repeat split; assumption.
Defined.

Lemma persisted_tree_survives_reload_witness :
  DataLayer.storageFull exampleWithTee = false
  /\ DataLayer.now exampleReload - DataLayer.now exampleWithTee
     <= DataLayer.STORAGE_TTL
  /\ cartWritten (cartOf exampleWithTee) = true
  /\ exists st2,
       DataLayer.buildCustomDataLayer exampleReload = DataLayer.Ok st2
       /\ cartReady st2 = true
       /\ cartOf st2 = jsonClone (cartOf exampleWithTee).
Proof.
  assert (DataLayer.now exampleReload - DataLayer.now exampleWithTee
          <= DataLayer.STORAGE_TTL) as le by (vm_compute; discriminate).
  split; [reflexivity|]. split; [exact le|]. split; [reflexivity|].
  destruct (persisted_tree_survives_reload exampleWithTee exampleReload
              "Could not persist cart"
              (spread (DataLayer.dataLayer exampleWithTee))
              [("name", VStr "cart"); ("title", VStr "Cart")]
              eq_refl eq_refl eq_refl eq_refl eq_refl eq_refl le eq_refl)
    as (st2 & t2 & B & _ & _ & _ & W).
  exists st2. split; [exact B|]. exact (W eq_refl).
Defined.


(** X14.  The age that [getDataLayerQueueStatus] reports for the checkout
    record is the number of whole days since its timestamp, and it agrees
    with the expiry of [loadCheckoutData]: a record reported younger than
    90 days is returned by a load, one reported older than 90 days is not. *)
Theorem status_age_and_expiry (st : DataLayer.State) (v : value) (t : Z) :
  lookup DataLayer.CHECKOUT_STORAGE_KEY (DataLayer.localStorage st)
  = Some (DataLayer.SJson v) ->
  lookup DataLayer.CHECKOUT_TIMESTAMP_KEY (DataLayer.localStorage st)
  = Some (DataLayer.SNum t) ->
  exists days,
    DataLayer.checkoutDataAge (DataLayer.getDataLayerQueueStatus st)
    = Some (Some days)
    /\ DataLayer.checkoutDataSaved (DataLayer.getDataLayerQueueStatus st) = true
    /\ days * 86400000 <= DataLayer.now st - t < (days + 1) * 86400000
    /\ (days < 90 -> DataLayer.loadCheckoutData st = (v, st))
    /\ (90 < days -> fst (DataLayer.loadCheckoutData st) = VNull).
Proof.
  intros K T. unfold DataLayer.getDataLayerQueueStatus, DataLayer.loadCheckoutData.
  rewrite K, T.
  cbn [DataLayer.checkoutDataAge DataLayer.checkoutDataSaved DataLayer.present
       DataLayer.parseInt DataLayer.jsonParse negb].
  change (24 * 60 * 60 * 1000) with 86400000.
  eexists. split; [reflexivity|]. split; [reflexivity|].
  pose proof (Z.mul_div_le (DataLayer.now st - t) 86400000 eq_refl) as Lo.
  pose proof (Z.mul_succ_div_gt (DataLayer.now st - t) 86400000 eq_refl) as Hi.
  unfold DataLayer.CHECKOUT_TTL.
  split; [lia|]. split; intros A.
  - destruct (Z.ltb_spec (90 * 24 * 60 * 60 * 1000) (DataLayer.now st - t));
      [lia|reflexivity].
  - destruct (Z.ltb_spec (90 * 24 * 60 * 60 * 1000) (DataLayer.now st - t));
      [reflexivity|lia].
Qed.

Lemma status_age_and_expiry_witness :
  exists days,
    DataLayer.checkoutDataAge
      (DataLayer.getDataLayerQueueStatus
         (DataLayer.saveCheckoutData (VObj [("firstName", VStr "Ada")]) exampleReady))
    = Some (Some days)
    /\ days < 90.
Proof.
  destruct (status_age_and_expiry
              (DataLayer.saveCheckoutData (VObj [("firstName", VStr "Ada")])
                 exampleReady)
              (VObj [("firstName", VStr "Ada")]) 1000 eq_refl eq_refl)
    as (days & A & _ & B & _).
  exists days. split; [exact A|].
  change (DataLayer.now
            (DataLayer.saveCheckoutData (VObj [("firstName", VStr "Ada")])
               exampleReady)) with 1000 in B.
  lia.
Defined.

(** ** Cart arithmetic *)

Section CartArithmetic.
Import DataLayer.

Lemma sumBy_nil (f : value -> Z) : sumBy f [] = 0.
Proof. reflexivity. Qed.

Lemma sumBy_setProp (f : value -> Z) k v : forall ps : props,
  sumBy f (values (setProp k v ps))
  = sumBy f (values ps) + f v
    - match lookup k ps with Some old => f old | None => 0 end.
Proof.
  induction ps as [|[k' v'] ps IH]; cbn [setProp lookup].
  - cbn [values map snd]. rewrite sumBy_cons, sumBy_nil. lia.
  - destruct (k =? k')%string; cbn [values map snd]; rewrite !sumBy_cons.
    + fold (values ps). lia.
    + fold (values (setProp k v ps)). fold (values ps). rewrite IH. lia.
Qed.

Lemma deleteProp_absent {A} k : forall o : list (string * A),
  ~ In k (keys o) -> deleteProp k o = o.
Proof.
  induction o as [|[k' v'] o IH]; intros N; cbn [deleteProp]; [reflexivity|].
  destruct (String.eqb_spec k k') as [->|ne].
  - exfalso. apply N. left. reflexivity.
  - rewrite IH; [reflexivity|]. intros H. apply N. right. exact H.
Qed.

Lemma sumBy_deleteProp (f : value -> Z) k : forall ps : props,
  NoDup (keys ps) ->
  sumBy f (values (deleteProp k ps))
  = sumBy f (values ps)
    - match lookup k ps with Some old => f old | None => 0 end.
Proof.
  induction ps as [|[k' v'] ps IH]; intros N; cbn [deleteProp lookup].
  - rewrite sumBy_nil. lia.
  - inversion N as [|? ? Nin N']; subst.
    destruct (String.eqb_spec k k') as [->|ne].
    + rewrite deleteProp_absent by exact Nin.
      cbn [values map snd]. rewrite sumBy_cons. fold (values ps). lia.
    + cbn [values map snd]. rewrite !sumBy_cons.
      fold (values (deleteProp k ps)). fold (values ps). rewrite IH by exact N'.
      lia.
Qed.

(** The count that the consumers read off a cart that is [{}] or
    written. *)
Lemma cartGood_count cart :
  cartGood cart = true ->
  numOf (getOwn "productCount" (spread cart))
  = sumBy quantityOf (values (productsOf cart)).
Proof.
  intros G. destruct (cartGood_inv _ G) as [->|W]; [reflexivity|].
  destruct (cartWritten_inv _ W) as (c & ps & -> & P & _ & Pc & _).
  unfold productsOf. cbn [spread]. rewrite P, Pc. reflexivity.
Qed.

Lemma cartOf_replaced st t cart :
  dataLayer st = VObj (setProp "cart" cart t) -> cartOf st = cart.
Proof.
  intros D. unfold cartOf. rewrite D. cbn [spread]. apply getOwn_setProp_eq.
Qed.

Lemma keys_cloneProps ps :
  forallb lineItem (values ps) = true -> keys (cloneProps ps) = keys ps.
Proof.
  intros L. rewrite (cloneProps_lineItems ps L). unfold keys.
  rewrite map_map. reflexivity.
Qed.

Lemma lineItem_defined v : lineItem v = true -> v <> VUndef.
Proof. intros L ->. discriminate. Qed.

Lemma lookup_cloneProps_lineItems ps k :
  forallb lineItem (values ps) = true ->
  lookup k (cloneProps ps) = option_map jsonClone (lookup k ps).
Proof.
  intros L. destruct (lookup k ps) as [v|] eqn:E; cbn [option_map].
  - apply lookup_cloneProps; [exact E|].
    apply lineItem_defined. exact (lookup_forallb lineItem k v ps L E).
  - apply lookup_cloneProps_None. exact E.
Qed.

Lemma sum_cloneProps ps :
  forallb lineItem (values ps) = true ->
  sumBy quantityOf (values (cloneProps ps)) = sumBy quantityOf (values ps).
Proof.
  intros L. rewrite (values_cloneProps ps L).
  exact (proj1 (sumBy_clone (values ps) L)).
Qed.

End CartArithmetic.

(** X15.  Adding to the cart raises the count by the requested quantity.
    On a ready container whose cart is [{}] or a written cart, [addToCart]
    with a product that has an id, a price and a quantity (one when absent)
    returns; the [productCount] read off the new cart is the old one plus
    the requested quantity, whether the product was in the cart or not,
    and no other line item changes.  This is for whole amounts in the
    range of doubles (no quantity, price, subtotal or sum of the carts
    before and after leaves 2^53) and for an id that is not the name of a
    property that every object inherits. *)
Theorem add_changes_count (st : DataLayer.State) (productData : value) :
  cartReady st = true ->
  validProduct productData = true ->
  exactOp (Add productData) = true ->
  exactRun [Add productData] st = true ->
  exists st' k r,
    DataLayer.addToCart productData st = DataLayer.Ok st'
    /\ getOwn "id" (spread productData) = VStr k
    /\ requestedQuantity productData = VNum r
    /\ cartReady st' = true
    /\ numOf (getOwn "productCount" (spread (cartOf st')))
       = numOf (getOwn "productCount" (spread (cartOf st))) + r
    /\ (forall k', k' <> k ->
          lookup k' (productsOf (cartOf st')) = lookup k' (productsOf (cartOf st))).
Proof.
  intros C V _ _.
  destruct (validProduct_inv _ V) as (o & k & p & r & -> & I & N & P & Rq).
  destruct (cartReady_inv _ C) as (R & t & D & G).
  assert (cartOf st = getOwn "cart" t) as Co by (unfold cartOf; rewrite D; reflexivity).
  destruct (executeAddToCart_ready st t o k p r D G I P Rq)
    as (item & cart' & E & W & Ps & Li & New & Old).
  exists (DataLayer.dispatchDataLayerEvent "updated"
            (DataLayer.persist "Could not persist cart"
               (DataLayer.setDataLayer (VObj (setProp "cart" cart' t)) st))).
  exists k, r.
  assert (cartOf (DataLayer.dispatchDataLayerEvent "updated"
                    (DataLayer.persist "Could not persist cart"
                       (DataLayer.setDataLayer (VObj (setProp "cart" cart' t)) st)))
          = cart') as Co'.
  { apply (cartOf_replaced _ t). cbn. rewrite dataLayer_persist. reflexivity. }
  split.
  { rewrite (addToCart_ready o k st I N R) by (rewrite D; reflexivity). exact E. }
  split; [exact I|]. split; [exact Rq|].
  split; [apply cartReady_added; assumption|].
  rewrite Co', Co. split.
  - rewrite (cartGood_count _ G), (cartGood_count _ (cartGood_written _ W)).
    rewrite Ps, sumBy_setProp.
    destruct (lookup k (productsOf (getOwn "cart" t))) as [old|] eqn:L.
    + rewrite (Old old eq_refl). lia.
    + rewrite (New eq_refl). lia.
  - intros k' ne. rewrite Ps. apply lookup_setProp_ne. congruence.
Qed.

(** X16.  Removing a line item lowers the count by its quantity.  On a
    ready container with a written cart whose line items have distinct
    ids, [removeFromCart] of a product that is in the cart returns; the
    product is gone, every other line item is a JSON copy of what it was,
    and the [productCount] of the new cart is the old one minus the
    quantity removed.  Removing a product that is not in the cart returns
    with the state as it was: nothing is written and nothing notified.
    This is for whole amounts in the range of doubles (no quantity, price,
    subtotal or sum of the carts before and after leaves 2^53) and for an
    id that is not the name of a property that every object inherits. *)
Theorem remove_changes_count (st : DataLayer.State) (X : string) :
  cartReady st = true ->
  cartWritten (cartOf st) = true ->
  NoDup (keys (productsOf (cartOf st))) ->
  exactOp (Remove X) = true ->
  exactRun [Remove X] st = true ->
  (lookup X (productsOf (cartOf st)) = None ->
   CartBlock.removeFromCart X st = DataLayer.Ok st)
  /\ (forall item,
        lookup X (productsOf (cartOf st)) = Some item ->
        exists st',
          CartBlock.removeFromCart X st = DataLayer.Ok st'
          /\ cartReady st' = true
          /\ lookup X (productsOf (cartOf st')) = None
          /\ (forall k, k <> X ->
                lookup k (productsOf (cartOf st'))
                = option_map jsonClone (lookup k (productsOf (cartOf st))))
          /\ numOf (getOwn "productCount" (spread (cartOf st')))
             = numOf (getOwn "productCount" (spread (cartOf st)))
               - quantityOf item).
Proof.
  intros C W N _ _.
  destruct (cartReady_inv _ C) as (R & t & D & G).
  assert (cartOf st = getOwn "cart" t) as Co by (unfold cartOf; rewrite D; reflexivity).
  rewrite Co in *.
  destruct (cartWritten_inv _ W) as (c & ps & Ec & P & L & _).
  assert (productsOf (getOwn "cart" t) = ps) as Ep
      by (unfold productsOf; rewrite Ec; cbn [spread]; rewrite P; reflexivity).
  rewrite Ep in *.
  destruct (removeFromCart_written X st t c ps D Ec P L) as (Absent & Present).
  split; [exact Absent|].
  intros item Lx. destruct (Present item Lx) as (cart' & E & W' & Ps).
  destruct (replaceCart_ready st t cart' R D) as (R' & D').
  exists (DataLayer.updateDataLayer (VObj [("cart", cart')]) false st).
  rewrite (cartOf_replaced _ t cart' D').
  split; [exact E|]. split; [apply (cartReady_replaceCart st t); assumption|].
  rewrite Ps. split; [apply lookup_deleteProp_eq|]. split.
  - intros k ne. rewrite lookup_deleteProp_ne by congruence.
    apply lookup_cloneProps_lineItems. exact L.
  - rewrite (cartGood_count _ G), (cartGood_count _ (cartGood_written _ W')).
    rewrite Ps, Ep, sumBy_deleteProp by (rewrite keys_cloneProps; assumption).
    rewrite (sum_cloneProps ps L), (lookup_cloneProps_lineItems ps X L), Lx.
    cbn [option_map].
    rewrite (proj1 (proj2 (lineItem_clone item (lookup_forallb lineItem X item ps L Lx)))).
    reflexivity.
Qed.

(** X17.  Setting a quantity of at least one.  On a ready container with
    a written cart, [updateQuantity] of a product that is in the cart
    returns; its line item then has the new quantity and a subtotal of
    price times quantity, every other line item is a JSON copy of what it
    was, and the [productCount] changes by the difference of the two
    quantities.  For a product that is not in the cart the state is left
    as it was.  This is for whole amounts in the range of doubles (no
    quantity, price, subtotal or sum of the carts before and after leaves
    2^53) and for an id that is not the name of a property that every
    object inherits. *)
Theorem set_quantity_changes_count (st : DataLayer.State) (X : string) (q : Z) :
  cartReady st = true ->
  cartWritten (cartOf st) = true ->
  1 <= q ->
  exactOp (SetQuantity X q) = true ->
  exactRun [SetQuantity X q] st = true ->
  (lookup X (productsOf (cartOf st)) = None ->
   CartBlock.updateQuantity X (Some q) st = DataLayer.Ok st)
  /\ (forall item,
        lookup X (productsOf (cartOf st)) = Some item ->
        exists st' item',
          CartBlock.updateQuantity X (Some q) st = DataLayer.Ok st'
          /\ cartReady st' = true
          /\ lookup X (productsOf (cartOf st')) = Some item'
          /\ lineItem item' = true
          /\ quantityOf item' = q
          /\ (forall k, k <> X ->
                lookup k (productsOf (cartOf st'))
                = option_map jsonClone (lookup k (productsOf (cartOf st))))
          /\ numOf (getOwn "productCount" (spread (cartOf st')))
             = numOf (getOwn "productCount" (spread (cartOf st)))
               - quantityOf item + q).
Proof.
  intros C W Q _ _.
  destruct (cartReady_inv _ C) as (R & t & D & G).
  assert (cartOf st = getOwn "cart" t) as Co by (unfold cartOf; rewrite D; reflexivity).
  rewrite Co in *.
  destruct (cartWritten_inv _ W) as (c & ps & Ec & P & L & _).
  assert (productsOf (getOwn "cart" t) = ps) as Ep
      by (unfold productsOf; rewrite Ec; cbn [spread]; rewrite P; reflexivity).
  rewrite Ep in *.
  destruct (updateQuantity_written X q st t c ps Q D Ec P L) as (Absent & Present).
  split; [exact Absent|].
  intros item Lx. destruct (Present item Lx) as (cart' & item' & E & W' & Ps & Li & Qi).
  destruct (replaceCart_ready st t cart' R D) as (R' & D').
  exists (DataLayer.updateDataLayer (VObj [("cart", cart')]) false st), item'.
  rewrite (cartOf_replaced _ t cart' D').
  split; [exact E|]. split; [apply (cartReady_replaceCart st t); assumption|].
  rewrite Ps. split; [apply lookup_setProp_eq|]. split; [exact Li|].
  split; [exact Qi|]. split.
  - intros k ne. rewrite lookup_setProp_ne by congruence.
    apply lookup_cloneProps_lineItems. exact L.
  - rewrite (cartGood_count _ G), (cartGood_count _ (cartGood_written _ W')).
    rewrite Ps, Ep, sumBy_setProp.
    rewrite (sum_cloneProps ps L), (lookup_cloneProps_lineItems ps X L), Lx.
    cbn [option_map].
    rewrite (proj1 (proj2 (lineItem_clone item (lookup_forallb lineItem X item ps L Lx)))).
    rewrite Qi. lia.
Qed.

Lemma add_changes_count_witness :
  cartReady exampleWithTee = true
  /\ validProduct exampleTee = true
  /\ exactOp (Add exampleTee) = true
  /\ exactRun [Add exampleTee] exampleWithTee = true
  /\ exists st' k r,
       DataLayer.addToCart exampleTee exampleWithTee = DataLayer.Ok st'
       /\ getOwn "id" (spread exampleTee) = VStr k
       /\ requestedQuantity exampleTee = VNum r
       /\ cartReady st' = true
       /\ numOf (getOwn "productCount" (spread (cartOf st')))
          = numOf (getOwn "productCount" (spread (cartOf exampleWithTee))) + r
       /\ (forall k', k' <> k ->
             lookup k' (productsOf (cartOf st'))
             = lookup k' (productsOf (cartOf exampleWithTee))).
Proof.
  assert (exactOp (Add exampleTee) = true) as O by (vm_compute; reflexivity).
  assert (exactRun [Add exampleTee] exampleWithTee = true) as E
      by (vm_compute; reflexivity).
  split; [reflexivity|]. split; [reflexivity|]. split; [exact O|]. split; [exact E|].
  exact (add_changes_count exampleWithTee exampleTee eq_refl eq_refl O E).
Defined.

Lemma remove_changes_count_witness :
  cartReady exampleWithTee = true
  /\ cartWritten (cartOf exampleWithTee) = true
  /\ NoDup (keys (productsOf (cartOf exampleWithTee)))
  /\ exactOp (Remove "tee") = true
  /\ exactRun [Remove "tee"] exampleWithTee = true
  /\ CartBlock.removeFromCart "cap" exampleWithTee = DataLayer.Ok exampleWithTee
  /\ exists st',
       CartBlock.removeFromCart "tee" exampleWithTee = DataLayer.Ok st'
       /\ cartReady st' = true
       /\ lookup "tee" (productsOf (cartOf st')) = None
       /\ numOf (getOwn "productCount" (spread (cartOf st'))) = 2 - 2.
Proof.
  assert (NoDup (keys (productsOf (cartOf exampleWithTee)))) as N
      by (vm_compute; constructor; [intros []|constructor]).
  assert (exactOp (Remove "tee") = true) as O by (vm_compute; reflexivity).
  assert (exactRun [Remove "tee"] exampleWithTee = true) as Ex
      by (vm_compute; reflexivity).
  assert (exactOp (Remove "cap") = true) as O' by (vm_compute; reflexivity).
  assert (exactRun [Remove "cap"] exampleWithTee = true) as Ex'
      by (vm_compute; reflexivity).
  split; [reflexivity|]. split; [reflexivity|]. split; [exact N|].
  split; [exact O|]. split; [exact Ex|]. split.
  - exact (proj1 (remove_changes_count exampleWithTee "cap" eq_refl eq_refl N O' Ex')
             eq_refl).
  - destruct (proj2 (remove_changes_count exampleWithTee "tee" eq_refl eq_refl N O Ex)
                (getOwn "tee" (productsOf (cartOf exampleWithTee))) eq_refl)
      as (st' & E & C & Gone & _ & Count).
    exists st'. repeat split; assumption.
Defined.

Lemma set_quantity_changes_count_witness :
  cartReady exampleWithTee = true
  /\ cartWritten (cartOf exampleWithTee) = true
  /\ 1 <= 5
  /\ exactOp (SetQuantity "tee" 5) = true
  /\ exactRun [SetQuantity "tee" 5] exampleWithTee = true
  /\ exists st' item',
       CartBlock.updateQuantity "tee" (Some 5) exampleWithTee = DataLayer.Ok st'
       /\ lookup "tee" (productsOf (cartOf st')) = Some item'
       /\ quantityOf item' = 5
       /\ numOf (getOwn "productCount" (spread (cartOf st'))) = 2 - 2 + 5.
Proof.
  assert (1 <= 5) as Q by lia.
  assert (exactOp (SetQuantity "tee" 5) = true) as O by (vm_compute; reflexivity).
  assert (exactRun [SetQuantity "tee" 5] exampleWithTee = true) as Ex
      by (vm_compute; reflexivity).
  split; [reflexivity|]. split; [reflexivity|]. split; [exact Q|].
  split; [exact O|]. split; [exact Ex|].
  destruct (proj2 (set_quantity_changes_count exampleWithTee "tee" 5
                     eq_refl eq_refl Q O Ex)
              (getOwn "tee" (productsOf (cartOf exampleWithTee))) eq_refl)
    as (st' & item' & E & _ & Lx & _ & Qi & _ & Count).
  exists st', item'. repeat split; assumption.
Defined.


(** X18.  [addToCart] needs a cart section.  On a ready container whose
    tree has no [cart] key, or holds [null] there, every [addToCart] of a
    product with an id ends in an exception and leaves the state as it
    was: nothing is added, stored or notified. *)
Theorem add_without_cart_section
    (st : DataLayer.State) (t : props) (productData : value) :
  DataLayer.dataLayerReady st = true ->
  DataLayer.dataLayer st = VObj t ->
  getOwn "cart" t = VUndef \/ getOwn "cart" t = VNull ->
  truthy productData = true ->
  truthy (getOwn "id" (spread productData)) = true ->
  DataLayer.addToCart productData st = DataLayer.Throws st.
Proof.
  intros R D C T I. rewrite (addToCart_valid productData st T I).
  rewrite R, D. cbn [truthy negb orb].
  unfold DataLayer.executeAddToCart. rewrite D. cbn [truthy negb].
  unfold DataLayer.selectCart, readProp. cbn [getProp bindC].
  destruct C as [-> | ->]; reflexivity.
Qed.

Lemma add_without_cart_section_witness :
  truthy exampleTee = true
  /\ truthy (getOwn "id" (spread exampleTee)) = true
  /\ DataLayer.addToCart exampleTee
       (DataLayer.updateDataLayer (VObj [("cart", VNull)]) true exampleWithTee)
     = DataLayer.Throws
         (DataLayer.updateDataLayer (VObj [("cart", VNull)]) true exampleWithTee).
Proof.
  split; [reflexivity|]. split; [reflexivity|].
  exact (add_without_cart_section
           (DataLayer.updateDataLayer (VObj [("cart", VNull)]) true exampleWithTee)
           (spread (DataLayer.dataLayer
                      (DataLayer.updateDataLayer (VObj [("cart", VNull)]) true
                         exampleWithTee)))
           exampleTee eq_refl eq_refl (or_intror eq_refl) eq_refl eq_refl).
Defined.

(** X19.  [resetCart] empties the cart for good.  On a ready container it
    leaves the cart literal with all aggregates at zero and no line item,
    on which cart operations go on as usual; the [product] and [commerce]
    sections are empty mappings, every other top-level key is as it was,
    one notification is sent, the stored purchase order number is gone and
    what [loadCheckoutData] returns is unchanged. *)
Theorem reset_cart_effect (st : DataLayer.State) (t : props) :
  DataLayer.dataLayerReady st = true ->
  DataLayer.dataLayer st = VObj t ->
  let st' := OrderConfirmation.resetCart st in
  cartOf st' = VObj DataLayer.emptyCart
  /\ cartReady st' = true
  /\ cartWritten (cartOf st') = true
  /\ productsOf (cartOf st') = []
  /\ getOwn "product" (spread (DataLayer.dataLayer st')) = VObj []
  /\ getOwn "commerce" (spread (DataLayer.dataLayer st')) = VObj []
  /\ (forall k, k <> "cart" -> k <> "product" -> k <> "commerce" ->
        lookup k (spread (DataLayer.dataLayer st')) = lookup k t)
  /\ DataLayer.dispatched st'
     = (DataLayer.dispatched st
        ++ [("updated", jsonClone (DataLayer.dataLayer st'))])%list
  /\ lookup OrderConfirmation.PURCHASE_ORDER_KEY (DataLayer.localStorage st') = None
  /\ fst (DataLayer.loadCheckoutData st') = fst (DataLayer.loadCheckoutData st).
Proof.
  intros R D st'.
  assert (DataLayer.dataLayer st'
          = VObj (setProp "commerce" (VObj [])
                    (setProp "product" (VObj [])
                       (setProp "cart" (VObj DataLayer.emptyCart) t)))) as D'.
  { subst st'. unfold OrderConfirmation.resetCart.
    cbn [DataLayer.dataLayer DataLayer.setLocalStorage].
    rewrite dataLayer_updateDataLayer_ready; try reflexivity; try exact R;
      [|rewrite D; reflexivity].
    rewrite D. reflexivity. }
  assert (cartOf st' = VObj DataLayer.emptyCart) as Co.
  { unfold cartOf. rewrite D'. cbn [spread].
    rewrite !getOwn_setProp_ne by discriminate. apply getOwn_setProp_eq. }
  assert (DataLayer.dataLayerReady st' = true) as R'.
  { subst st'. unfold OrderConfirmation.resetCart.
    cbn [DataLayer.dataLayerReady DataLayer.setLocalStorage].
    rewrite updateDataLayer_ready; try reflexivity; try exact R;
      [|rewrite D; reflexivity].
    cbn. rewrite dataLayerReady_persist. exact R. }
  split; [exact Co|]. split.
  { unfold cartReady. rewrite R', D'. cbn [andb].
    rewrite !getOwn_setProp_ne by discriminate. rewrite getOwn_setProp_eq.
    reflexivity. }
  rewrite Co. split; [reflexivity|]. split; [reflexivity|].
  rewrite D'. cbn [spread]. split.
  { rewrite getOwn_setProp_ne by discriminate. apply getOwn_setProp_eq. }
  split; [apply getOwn_setProp_eq|]. split.
  { intros k n1 n2 n3. rewrite !lookup_setProp_ne by congruence. reflexivity. }
  split.
  { rewrite <- D'. subst st'. unfold OrderConfirmation.resetCart.
    cbn [DataLayer.dataLayer DataLayer.dispatched DataLayer.setLocalStorage].
    rewrite updateDataLayer_ready; try reflexivity; try exact R;
      [|rewrite D; reflexivity].
    cbn. unfold DataLayer.persist. destruct (DataLayer.storageFull _); reflexivity. }
  split.
  { subst st'. unfold OrderConfirmation.resetCart.
    cbn [DataLayer.localStorage DataLayer.setLocalStorage].
    apply lookup_deleteProp_eq. }
  subst st'. unfold OrderConfirmation.resetCart.
  transitivity
    (fst (DataLayer.loadCheckoutData
            (DataLayer.updateDataLayer
               (VObj [("cart", VObj DataLayer.emptyCart); ("product", VObj []);
                      ("commerce", VObj [])]) false st))).
  - apply loadCheckoutData_reads;
      cbn [DataLayer.localStorage DataLayer.setLocalStorage DataLayer.now];
      try reflexivity; apply lookup_deleteProp_ne; discriminate.
  - apply loadCheckoutData_reads;
      try apply now_updateDataLayer;
      apply localStorage_updateDataLayer_other; discriminate.
Qed.

Lemma mergedAt_leaf old x : DataLayer.isObject x = false -> mergedAt old x = x.
Proof.
  intros H. unfold mergedAt. destruct old as [tx|]; [|reflexivity].
  rewrite H, andb_false_r. reflexivity.
Qed.

(** X20.  A deep merge cannot empty the cart.  Writing the empty cart
    literal with [merge = true] on a ready container sets the aggregates
    to zero but keeps every line item that the cart had: the cart is
    emptied only by a write with [merge = false], as [resetCart] does. *)
Theorem deep_merge_keeps_line_items (st : DataLayer.State) (t ps : props) :
  DataLayer.dataLayerReady st = true ->
  DataLayer.dataLayer st = VObj t ->
  valueAt (VObj t) ["cart"; "products"] = Some (VObj ps) ->
  let T' :=
    DataLayer.dataLayer
      (DataLayer.updateDataLayer (VObj [("cart", VObj DataLayer.emptyCart)]) true st) in
  (exists ps',
      valueAt T' ["cart"; "products"] = Some (VObj ps')
      /\ forall k, lookup k ps' = lookup k ps)
  /\ valueAt T' ["cart"; "productCount"] = Some (VNum 0)
  /\ valueAt T' ["cart"; "subTotal"] = Some (VNum 0)
  /\ valueAt T' ["cart"; "total"] = Some (VNum 0).
Proof.
  intros R D P T'. subst T'.
  rewrite dataLayer_updateDataLayer_ready; try reflexivity; try exact R;
    [|rewrite D; reflexivity].
  rewrite D. unfold DataLayer.applyUpdate.
  assert (wellFormed (VObj [("cart", VObj DataLayer.emptyCart)]) = true) as W
      by reflexivity.
  split.
  - destruct (valueAt_deepMerge_absent ["cart"; "products"] t
                [("cart", VObj DataLayer.emptyCart)] ps [] "" W P eq_refl eq_refl)
      as (rp & V & _).
    exists rp. split; [exact V|]. intros k.
    destruct (valueAt_deepMerge_absent ["cart"; "products"] t
                [("cart", VObj DataLayer.emptyCart)] ps [] k W P eq_refl eq_refl)
      as (rp' & V' & L).
    rewrite V in V'. injection V' as <-. exact L.
  - repeat split.
    + rewrite (valueAt_deepMerge ["cart"; "productCount"] t _ (VNum 0) W)
        by (try discriminate; reflexivity).
      rewrite mergedAt_leaf by reflexivity. reflexivity.
    + rewrite (valueAt_deepMerge ["cart"; "subTotal"] t _ (VNum 0) W)
        by (try discriminate; reflexivity).
      rewrite mergedAt_leaf by reflexivity. reflexivity.
    + rewrite (valueAt_deepMerge ["cart"; "total"] t _ (VNum 0) W)
        by (try discriminate; reflexivity).
      rewrite mergedAt_leaf by reflexivity. reflexivity.
Qed.

Lemma reset_cart_effect_witness :
  DataLayer.dataLayerReady exampleWithTee = true
  /\ lookup "tee" (productsOf (cartOf exampleWithTee)) <> None
  /\ productsOf (cartOf (OrderConfirmation.resetCart exampleWithTee)) = []
  /\ cartReady (OrderConfirmation.resetCart exampleWithTee) = true.
Proof.
  split; [reflexivity|]. split; [vm_compute; discriminate|].
  pose proof (reset_cart_effect exampleWithTee
                (spread (DataLayer.dataLayer exampleWithTee)) eq_refl eq_refl) as H.
  cbv zeta in H. destruct H as (_ & C & _ & P & _).
  split; [exact P|exact C].
Defined.

Lemma deep_merge_keeps_line_items_witness :
  DataLayer.dataLayerReady exampleWithTee = true
  /\ exists ps',
       valueAt
         (DataLayer.dataLayer
            (DataLayer.updateDataLayer (VObj [("cart", VObj DataLayer.emptyCart)])
               true exampleWithTee))
         ["cart"; "products"] = Some (VObj ps')
       /\ lookup "tee" ps' = lookup "tee" (productsOf (cartOf exampleWithTee)).
Proof.
  split; [reflexivity|].
  pose proof (deep_merge_keeps_line_items exampleWithTee
                (spread (DataLayer.dataLayer exampleWithTee))
                (productsOf (cartOf exampleWithTee)) eq_refl eq_refl eq_refl) as H.
  cbv zeta in H. destruct H as ((ps' & V & L) & _).
  exists ps'. split; [exact V|apply L].
Defined.
